(** * Capture Session Controller: device discovery, constraint construction
      and stream lifecycle of the getUserMedia resolution demo.

    The repository holds four revisions of one React component [CameraApp]:

    - [AppBasic]   : src/src/App.tsx, first document (resolution bounds only);
    - [PartFacing] : src/unnamed/part_000, first document (adds audio devices,
                     a static facing-mode select and the stop/settle/start
                     sequence);
    - [AppCaps]    : src/src/App.tsx, second document (adds per-device
                     capabilities and a capability-checked facing mode);
    - [PartCustom] : src/unnamed/part_000, second document (capability-driven
                     custom constraints, [buildConstraints], device-id match).

    Each revision is embedded in a module of its own, with the source's names.
    Component state is a record; a handler reads the state of the render it
    was created in (argument [r]) and writes through the [set...] functions.
    The DOM side (the video element behind [videoRef], which tracks have been
    stopped) and the order of the observable platform calls live in [World].
    The platform (getUserMedia, enumerateDevices) is an oracle [Platform].

    The component runs on one thread and nothing cancels a handler in
    flight, so a handler is modelled as one uninterrupted run: each awaited
    call is a single trace entry, issued and completed before the next
    statement, and the entries of a run appear in program order. *)

From stdpp Require Import gmap strings list.

Set Warnings "-register-all".
Local Open Scope string_scope.
Local Open Scope Z_scope.
Local Open Scope list_scope.

(** ** JavaScript values *)

(** Numbers are only copied from the form state into the request by the code
    modelled here, never computed with, so integers stand for them. *)
Inductive JsValue :=
| JUndefined
| JNull
| JBool (b : bool)
| JNum (n : Z)
| JStr (s : string)
| JArr (items : list JsValue)
| JObj (fields : list (string * JsValue)).

(** An object is its own properties in insertion order. *)
Definition JsObject : Type := list (string * JsValue).

(** [ToBoolean]. *)
Definition truthy (v : JsValue) : bool :=
  match v with
  | JUndefined | JNull => false
  | JBool b => b
  | JNum n => negb (n =? 0)
  | JStr s => negb (String.eqb s "")
  | JArr _ | JObj _ => true
  end.

(** [a && b] *)
Definition js_and (a b : JsValue) : JsValue := if truthy a then b else a.

(** [a || b] *)
Definition js_or (a b : JsValue) : JsValue := if truthy a then a else b.

(** [o[k]] on an object's own properties: [undefined] when absent. *)
Fixpoint obj_get (k : string) (o : JsObject) : JsValue :=
  match o with
  | [] => JUndefined
  | (k', v) :: o' => if String.eqb k k' then v else obj_get k o'
  end.

(** [k in o] for own properties. *)
Fixpoint obj_has (k : string) (o : JsObject) : bool :=
  match o with
  | [] => false
  | (k', _) :: o' => if String.eqb k k' then true else obj_has k o'
  end.

(** [o[k] = v]: an existing key keeps its place, a new key goes last. *)
Fixpoint obj_set (k : string) (v : JsValue) (o : JsObject) : JsObject :=
  match o with
  | [] => [(k, v)]
  | (k', v') :: o' =>
      if String.eqb k k' then (k, v) :: o' else (k', v') :: obj_set k v o'
  end.

(** [Object.keys(o)] *)
Definition obj_keys (o : JsObject) : list string := map fst o.

(** [v.k] / [v?.k] on a value that is an object, [undefined] on [undefined]
    and [null] under [?.]; primitives have none of the keys read here. *)
Definition js_get (k : string) (v : JsValue) : JsValue :=
  match v with
  | JObj o => obj_get k o
  | _ => JUndefined
  end.

Definition js_has (k : string) (v : JsValue) : bool :=
  match v with
  | JObj o => obj_has k o
  | _ => false
  end.

(** Entries of an object literal [{ k: v, ...src }]. *)
Inductive Entry :=
| Prop_ (k : string) (v : JsValue)
| Spread (src : JsValue).

(** Spreading copies the own properties of an object; spreading [false],
    the empty string, [null] or [undefined] copies nothing.  The source only
    spreads objects and the falsy left operand of [&&]. *)
Definition spread_into (src : JsValue) (dst : JsObject) : JsObject :=
  match src with
  | JObj fs => fold_left (fun d kv => obj_set kv.1 kv.2 d) fs dst
  | _ => dst
  end.

Definition add_entry (dst : JsObject) (e : Entry) : JsObject :=
  match e with
  | Prop_ k v => obj_set k v dst
  | Spread src => spread_into src dst
  end.

(** The object denoted by a literal, entries evaluated left to right. *)
Definition obj_lit (es : list Entry) : JsValue := JObj (fold_left add_entry es []).

(** [cond ? { k: v } : {}] *)
Definition js_cond (c : bool) (a b : JsValue) : JsValue := if c then a else b.

(** [arr.includes(s)] for a string [s]. *)
Definition js_includes (arr : list JsValue) (s : string) : bool :=
  existsb (fun v => match v with JStr t => String.eqb t s | _ => false end) arr.

(** ** Platform objects *)

Record Size := { width : Z; height : Z }.

(** [MediaTrackSettings]: [deviceId] is the one member the code reads. *)
Record MediaTrackSettings := {
  settings_deviceId : option string;
  settings_other : JsObject
}.

Record MediaStreamTrack := {
  track_id : nat;                     (* identity of the track object *)
  kind : string;
  getCapabilities : JsValue;
  getConstraints : JsValue;
  getSettings : MediaTrackSettings
}.

Record MediaStream := { getTracks : list MediaStreamTrack }.

(** What [srcObject] may hold: a [MediaStream], or another media provider
    ([MediaSource], [Blob]) for which [instanceof MediaStream] is false. *)
Inductive MediaProvider :=
| ProvStream (s : MediaStream)
| ProvOther.

Record HTMLVideoElement := {
  srcObject : option MediaProvider;   (* [None] is [null] *)
  videoWidth : Z;
  videoHeight : Z
}.

(** A thrown value: an instance of [Error] with its message, or anything else. *)
Inductive Thrown :=
| ErrorInstance (message : string)
| NonError (v : JsValue).

(** How reading the capabilities of a device object goes, as [fetchDevices]
    does it: [deviceInfo instanceof InputDeviceInfo], then
    [deviceInfo.getCapabilities()]. Both are evaluated by the platform and
    either can throw: where the global [InputDeviceInfo] is not defined the
    test raises a [ReferenceError], and [getCapabilities] can be missing or
    fail. *)
Inductive CapabilityRead :=
| NotInputDevice                (* the test is false *)
| Capabilities (c : JsValue)    (* the test is true, [getCapabilities()] is [c] *)
| ReadThrows (e : Thrown).      (* the test or the call throws [e] *)

(** [MediaDeviceInfo]; [input_capabilities] is the outcome of the capability
    read on the object. *)
Record MediaDeviceInfo := {
  deviceId : string;
  groupId : string;
  device_kind : string;
  label : string;
  input_capabilities : CapabilityRead
}.

(** The platform as the component sees it. A missing [navigator.mediaDevices]
    makes the calls of [fetchDevices] throw a [TypeError], which is among the
    [ErrorInstance] answers of the oracle. *)
Record Platform := {
  (* navigator.mediaDevices && navigator.mediaDevices.getUserMedia *)
  supportsGetUserMedia : bool;
  getUserMedia : JsValue -> Thrown + MediaStream;
  enumerateDevices : Thrown + list MediaDeviceInfo
}.

(** ** The world outside React state, and the trace of observable actions *)

Inductive Event :=
| EvTrackStop (id : nat)                      (* track.stop() *)
| EvSrcObject (v : option MediaProvider)      (* videoRef.current.srcObject = v *)
| EvTimeout (ms : Z)                          (* awaited setTimeout(resolve, ms) *)
| EvGetUserMedia (constraints : JsValue)      (* awaited getUserMedia(constraints) *)
| EvEnumerateDevices                          (* awaited enumerateDevices() *)
| EvSetState (name : string).                 (* a React state setter *)

Record World := {
  videoRef : option HTMLVideoElement;         (* videoRef.current *)
  ended : gset nat;                           (* tracks that were stopped *)
  trace : list Event                          (* oldest first *)
}.

(** ** A state, world and exception monad for handlers *)

Definition M (S A : Type) : Type := S -> World -> (Thrown + A) * S * World.

Definition ret {S A} (a : A) : M S A := fun s w => (inr a, s, w).

Definition bind {S A B} (m : M S A) (k : A -> M S B) : M S B :=
  fun s w =>
    match m s w with
    | (inr a, s', w') => k a s' w'
    | (inl e, s', w') => (inl e, s', w')
    end.

Notation "x <- m ;; k" := (bind m (fun x => k))
  (at level 100, m at next level, right associativity).
Notation "m ;;; k" := (bind m (fun _ => k))
  (at level 100, right associativity).

Definition throw {S A} (e : Thrown) : M S A := fun s w => (inl e, s, w).

(** A synchronous expression that either has a value or throws. *)
Definition evaluate {S A} (x : Thrown + A) : M S A := fun s w => (x, s, w).

(** [try { body } catch (err) { handler err }] *)
Definition try_catch {S A} (body : M S A) (handler : Thrown -> M S A) : M S A :=
  fun s w =>
    match body s w with
    | (inl e, s', w') => handler e s' w'
    | r => r
    end.

(** [try { body } finally { fin }], for a [fin] that completes normally. *)
Definition try_finally {S A} (body : M S A) (fin : M S unit) : M S A :=
  fun s w =>
    match body s w with
    | (r, s', w') =>
        match fin s' w' with
        | (inr _, s'', w'') => (r, s'', w'')
        | (inl e, s'', w'') => (inl e, s'', w'')
        end
    end.

Definition when {S} (c : bool) (m : M S unit) : M S unit :=
  if c then m else ret tt.

(** [for (const x of l) body(x)] and [l.forEach(body)] *)
Fixpoint for_each {S A} (body : A -> M S unit) (l : list A) : M S unit :=
  match l with
  | [] => ret tt
  | x :: l' => body x ;;; for_each body l'
  end.

Definition log {S} (e : Event) : M S unit :=
  fun s w =>
    (inr tt, s,
     {| videoRef := videoRef w; ended := ended w; trace := trace w ++ [e] |}).

(** A state setter [setX(v)]: the update and its trace entry. *)
Definition set_state {S} (name : string) (f : S -> S) : M S unit :=
  fun s w =>
    (inr tt, f s,
     {| videoRef := videoRef w; ended := ended w;
        trace := trace w ++ [EvSetState name] |}).

Definition read_videoRef {S} : M S (option HTMLVideoElement) :=
  fun s w => (inr (videoRef w), s, w).

(** [track.stop()] *)
Definition track_stop {S} (t : MediaStreamTrack) : M S unit :=
  fun s w =>
    (inr tt, s,
     {| videoRef := videoRef w;
        ended := {[ track_id t ]} ∪ ended w;
        trace := trace w ++ [EvTrackStop (track_id t)] |}).

(** [videoRef.current.srcObject = v], with [videoRef.current] non-null. *)
Definition set_srcObject {S} (v : option MediaProvider) : M S unit :=
  fun s w =>
    (inr tt, s,
     {| videoRef :=
          match videoRef w with
          | Some el => Some {| srcObject := v;
                               videoWidth := videoWidth el;
                               videoHeight := videoHeight el |}
          | None => None
          end;
        ended := ended w;
        trace := trace w ++ [EvSrcObject v] |}).

(** [await new Promise((resolve) => setTimeout(resolve, ms))] *)
Definition await_timeout {S} (ms : Z) : M S unit := log (EvTimeout ms).

(** [await navigator.mediaDevices.getUserMedia(c)] *)
Definition await_getUserMedia {S} (env : Platform) (c : JsValue) : M S MediaStream :=
  fun s w =>
    (getUserMedia env c, s,
     {| videoRef := videoRef w; ended := ended w;
        trace := trace w ++ [EvGetUserMedia c] |}).

(** [await navigator.mediaDevices.enumerateDevices()] *)
Definition await_enumerateDevices {S} (env : Platform) : M S (list MediaDeviceInfo) :=
  fun s w =>
    (enumerateDevices env, s,
     {| videoRef := videoRef w; ended := ended w;
        trace := trace w ++ [EvEnumerateDevices] |}).

(** The teardown shared by every [stopStream]: stop the tracks of a bound
    [MediaStream], then unbind the sink. *)
Definition stop_and_unbind {S} (stream : MediaProvider) : M S unit :=
  match stream with
  | ProvStream ms => for_each track_stop (getTracks ms)
  | ProvOther => ret tt
  end ;;;
  set_srcObject None.

(** The width and height entries of the ranged request, shared verbatim by
    the three revisions that have the bound toggles. *)
Definition ranged (ideal : Z) (useMax : bool) (max : Z) (useMin : bool) (min : Z) : JsValue :=
  obj_lit [ Prop_ "ideal" (JNum ideal);
            Spread (js_cond useMax (obj_lit [Prop_ "max" (JNum max)]) (obj_lit []));
            Spread (js_cond useMin (obj_lit [Prop_ "min" (JNum min)]) (obj_lit [])) ].

(** The settings of a track as the plain object shown in the page. *)
Definition settings_value (st : MediaTrackSettings) : JsValue :=
  JObj (match settings_deviceId st with
        | Some d => ("deviceId", JStr d) :: settings_other st
        | None => settings_other st
        end).

(** [{ capabilities: track.getCapabilities(), constraints: ..., settings: ... }] *)
Definition correspondences (track : MediaStreamTrack) : JsValue :=
  obj_lit [ Prop_ "capabilities" (getCapabilities track);
            Prop_ "constraints" (getConstraints track);
            Prop_ "settings" (settings_value (getSettings track)) ].

(** The request of the permission grab in [fetchDevices]. *)
Definition video_and_audio : JsValue :=
  obj_lit [ Prop_ "video" (JBool true); Prop_ "audio" (JBool true) ].

Definition is_videoinput (device : MediaDeviceInfo) : Prop :=
  device_kind device = "videoinput".

Definition is_audioinput (device : MediaDeviceInfo) : Prop :=
  device_kind device = "audioinput".

#[global] Instance is_videoinput_dec device : Decision (is_videoinput device).
Proof. unfold is_videoinput. apply _. Defined.

#[global] Instance is_audioinput_dec device : Decision (is_audioinput device).
Proof. unfold is_audioinput. apply _. Defined.

(** [{ min?: number; max?: number }] *)
Record Range := { range_min : option Z; range_max : option Z }.

(** [interface DeviceDetailInfo] of the two capability-aware revisions. *)
Record DeviceDetailInfo := {
  deviceInfo : MediaDeviceInfo;
  capabilities : option JsValue       (* [None] is [undefined] *)
}.

(** The callback of [deviceInfos.map] in [fetchDevices]: the capabilities
    are read when [deviceInfo instanceof InputDeviceInfo], and stay
    [undefined] otherwise. A throw of the read leaves the callback. *)
Definition detailInfo (info : MediaDeviceInfo) : Thrown + DeviceDetailInfo :=
  match input_capabilities info with
  | NotInputDevice => inr {| deviceInfo := info; capabilities := None |}
  | Capabilities c => inr {| deviceInfo := info; capabilities := Some c |}
  | ReadThrows e => inl e
  end.

(** [xs.map(f)] for a callback that can throw: the elements are visited from
    left to right and the first throw ends the call. *)
Fixpoint map_throwing {A B} (f : A -> Thrown + B) (xs : list A) : Thrown + list B :=
  match xs with
  | [] => inr []
  | x :: rest =>
      match f x with
      | inl e => inl e
      | inr y =>
          match map_throwing f rest with
          | inl e => inl e
          | inr ys => inr (y :: ys)
          end
      end
  end.

(** [deviceDetails.find((detail) => detail.deviceInfo.deviceId === id)?.capabilities] *)
Definition found_capabilities (details : list DeviceDetailInfo) (id : string) : JsValue :=
  match List.find (fun detail => String.eqb (deviceId (deviceInfo detail)) id) details with
  | Some detail =>
      match capabilities detail with
      | Some c => c
      | None => JUndefined
      end
  | None => JUndefined
  end.

(** [Array.isArray(v) ? v : []] *)
Definition array_or_empty (v : JsValue) : list JsValue :=
  match v with
  | JArr items => items
  | _ => []
  end.

(** ** Further helpers for the form handlers *)

(** [delete o[k]] *)
Fixpoint obj_delete (k : string) (o : JsObject) : JsObject :=
  match o with
  | [] => []
  | (k', v) :: o' =>
      if String.eqb k k' then obj_delete k o' else (k', v) :: obj_delete k o'
  end.

(** The fields of an object literal, see [obj_lit]. *)
Definition lit_fields (es : list Entry) : JsObject := fold_left add_entry es [].

(** [typeof v === 'number'], with the number. *)
Definition number_of (v : JsValue) : option Z :=
  match v with
  | JNum n => Some n
  | _ => None
  end.

(** Truthiness of an optional number ([undefined] is falsy). *)
Definition truthy_number (n : option Z) : bool :=
  match n with
  | Some z => truthy (JNum z)
  | None => false
  end.

(** The strings of a [string[]] held as an array of values. *)
Definition string_items (items : list JsValue) : list string :=
  omap (fun v => match v with JStr t => Some t | _ => None end) items.

(** The own properties of a value that is an object. The capabilities read
    by the handlers are [MediaTrackCapabilities] objects. *)
Definition own_fields (v : JsValue) : JsObject :=
  match v with
  | JObj o => o
  | _ => []
  end.

(** [{ min?, max? }] read off a capability: each bound is kept when
    [typeof] says it is a number. *)
Definition range_of (capability : JsValue) : Range :=
  {| range_min := number_of (js_get "min" capability);
     range_max := number_of (js_get "max" capability) |}.

(** ** src/src/App.tsx, first document *)

Module AppBasic.

Record State := {
  resolution : Size;
  useMaxResolution : bool;
  maxResolution : Size;
  useMinResolution : bool;
  minResolution : Size;
  error : string;
  actualResolution : Size;
  devices : list MediaDeviceInfo;
  selectedDevice : string
}.

(** [useState] initial values. *)
Definition initial : State := {|
  resolution := {| width := 640; height := 480 |};
  useMaxResolution := false;
  maxResolution := {| width := 0; height := 0 |};
  useMinResolution := false;
  minResolution := {| width := 0; height := 0 |};
  error := "";
  actualResolution := {| width := 0; height := 0 |};
  devices := [];
  selectedDevice := ""
|}.

Definition with_error (v : string) (s : State) : State :=
  {| resolution := resolution s; useMaxResolution := useMaxResolution s;
     maxResolution := maxResolution s; useMinResolution := useMinResolution s;
     minResolution := minResolution s; error := v;
     actualResolution := actualResolution s; devices := devices s;
     selectedDevice := selectedDevice s |}.

Definition setError (v : string) : M State unit :=
  set_state "error" (with_error v).

Definition with_devices (v : list MediaDeviceInfo) (s : State) : State :=
  {| resolution := resolution s; useMaxResolution := useMaxResolution s;
     maxResolution := maxResolution s; useMinResolution := useMinResolution s;
     minResolution := minResolution s; error := error s;
     actualResolution := actualResolution s; devices := v;
     selectedDevice := selectedDevice s |}.

Definition setDevices (v : list MediaDeviceInfo) : M State unit :=
  set_state "devices" (with_devices v).

Definition with_selectedDevice (v : string) (s : State) : State :=
  {| resolution := resolution s; useMaxResolution := useMaxResolution s;
     maxResolution := maxResolution s; useMinResolution := useMinResolution s;
     minResolution := minResolution s; error := error s;
     actualResolution := actualResolution s; devices := devices s;
     selectedDevice := v |}.

Definition setSelectedDevice (v : string) : M State unit :=
  set_state "selectedDevice" (with_selectedDevice v).

(** [catch (err) { if (err instanceof Error) { setError(err.message); } }] *)
Definition on_error (err : Thrown) : M State unit :=
  match err with
  | ErrorInstance message => setError message
  | NonError _ => ret tt
  end.

Section Handlers.
Variable env : Platform.
Variable r : State.   (* the state of the render the handlers close over *)

Definition fetchDevices : M State unit :=
  try_catch
    (deviceInfos <- await_enumerateDevices env ;;
     let videoDevices := filter is_videoinput deviceInfos in
     setDevices videoDevices ;;;
     match videoDevices with
     | d :: _ => setSelectedDevice (deviceId d)
     | [] => ret tt
     end)
    on_error.

(** The [constraints] object built inside [startStream]. *)
Definition constraints : JsValue :=
  obj_lit
    [ Spread (js_and (JStr (selectedDevice r))
                (obj_lit [Prop_ "deviceId"
                            (obj_lit [Prop_ "exact" (JStr (selectedDevice r))])]));
      Prop_ "video"
        (if useMaxResolution r || useMinResolution r
         then obj_lit
                [ Prop_ "width"
                    (ranged (width (resolution r))
                       (useMaxResolution r) (width (maxResolution r))
                       (useMinResolution r) (width (minResolution r)));
                  Prop_ "height"
                    (ranged (height (resolution r))
                       (useMaxResolution r) (height (maxResolution r))
                       (useMinResolution r) (height (minResolution r))) ]
         else obj_lit [ Prop_ "width" (JNum (width (resolution r)));
                        Prop_ "height" (JNum (height (resolution r))) ]) ].

Definition startStream : M State unit :=
  if negb (supportsGetUserMedia env) then
    setError "getUserMedia is not supported in this browser."
  else
    try_catch
      (stream <- await_getUserMedia env constraints ;;
       current <- read_videoRef ;;
       when (bool_decide (is_Some current)) (set_srcObject (Some (ProvStream stream))))
      on_error.

(** This revision's [stopStream] returns nothing. *)
Definition stopStream : M State unit :=
  current <- read_videoRef ;;
  match current with
  | Some el =>
      match srcObject el with
      | Some stream => stop_and_unbind stream
      | None => ret tt
      end
  | None => ret tt
  end.

End Handlers.

(** The handlers of the form controls. *)

Definition with_resolution (v : Size) (s : State) : State :=
  {| resolution := v; useMaxResolution := useMaxResolution s;
     maxResolution := maxResolution s;
     useMinResolution := useMinResolution s;
     minResolution := minResolution s; error := error s;
     actualResolution := actualResolution s; devices := devices s;
     selectedDevice := selectedDevice s |}.

Definition setResolution (v : Size) : M State unit :=
  set_state "resolution" (with_resolution v).

Definition with_useMaxResolution (v : bool) (s : State) : State :=
  {| resolution := resolution s; useMaxResolution := v;
     maxResolution := maxResolution s;
     useMinResolution := useMinResolution s;
     minResolution := minResolution s; error := error s;
     actualResolution := actualResolution s; devices := devices s;
     selectedDevice := selectedDevice s |}.

Definition setUseMaxResolution (v : bool) : M State unit :=
  set_state "useMaxResolution" (with_useMaxResolution v).

Definition with_useMinResolution (v : bool) (s : State) : State :=
  {| resolution := resolution s; useMaxResolution := useMaxResolution s;
     maxResolution := maxResolution s; useMinResolution := v;
     minResolution := minResolution s; error := error s;
     actualResolution := actualResolution s; devices := devices s;
     selectedDevice := selectedDevice s |}.

Definition setUseMinResolution (v : bool) : M State unit :=
  set_state "useMinResolution" (with_useMinResolution v).

Definition with_actualResolution (v : Size) (s : State) : State :=
  {| resolution := resolution s; useMaxResolution := useMaxResolution s;
     maxResolution := maxResolution s;
     useMinResolution := useMinResolution s;
     minResolution := minResolution s; error := error s;
     actualResolution := v; devices := devices s;
     selectedDevice := selectedDevice s |}.

Definition setActualResolution (v : Size) : M State unit :=
  set_state "actualResolution" (with_actualResolution v).

Section Controls.
Variable r : State.

(** Changing the camera stops the running stream. *)
Definition handleDeviceChange (value : string) : M State unit :=
  setSelectedDevice value ;;; stopStream.

(** [onChange] of the "Use Max Resolution" checkbox: ticking it also moves
    the requested resolution to the max resolution. *)
Definition onUseMaxResolutionChange (checked : bool) : M State unit :=
  setUseMaxResolution checked ;;;
  when checked (setResolution (maxResolution r)).

(** [onChange] of the "Use Min Resolution" checkbox. *)
Definition onUseMinResolutionChange (checked : bool) : M State unit :=
  setUseMinResolution checked ;;;
  when checked (setResolution (minResolution r)).

(** [onPlay] of the video element. *)
Definition onPlay : M State unit :=
  current <- read_videoRef ;;
  match current with
  | Some el => setActualResolution {| width := videoWidth el; height := videoHeight el |}
  | None => ret tt
  end.

End Controls.

End AppBasic.

(** ** src/unnamed/part_000, first document *)

Module PartFacing.

Record State := {
  resolution : Size;
  requestedConstraints : JsValue;
  trackCorrespondences : JsValue;
  useMaxResolution : bool;
  maxResolution : Size;
  useMinResolution : bool;
  minResolution : Size;
  error : string;
  actualResolution : Size;
  videoDevices : list MediaDeviceInfo;
  loadingDevices : bool;
  audioDevices : list MediaDeviceInfo;
  selectedVideoDevice : string;
  selectedAudioDevice : string;
  facingMode : string
}.

Definition initial : State := {|
  resolution := {| width := 640; height := 480 |};
  requestedConstraints := JObj [];
  trackCorrespondences := JObj [];
  useMaxResolution := false;
  maxResolution := {| width := 0; height := 0 |};
  useMinResolution := false;
  minResolution := {| width := 0; height := 0 |};
  error := "";
  actualResolution := {| width := 0; height := 0 |};
  videoDevices := [];
  loadingDevices := false;
  audioDevices := [];
  selectedVideoDevice := "";
  selectedAudioDevice := "";
  facingMode := ""
|}.

Definition with_requestedConstraints (v : JsValue) (s : State) : State :=
  {| resolution := resolution s; requestedConstraints := v;
     trackCorrespondences := trackCorrespondences s;
     useMaxResolution := useMaxResolution s;
     maxResolution := maxResolution s;
     useMinResolution := useMinResolution s;
     minResolution := minResolution s; error := error s;
     actualResolution := actualResolution s;
     videoDevices := videoDevices s; loadingDevices := loadingDevices s;
     audioDevices := audioDevices s;
     selectedVideoDevice := selectedVideoDevice s;
     selectedAudioDevice := selectedAudioDevice s;
     facingMode := facingMode s |}.

Definition setRequestedConstraints (v : JsValue) : M State unit :=
  set_state "requestedConstraints" (with_requestedConstraints v).

Definition with_trackCorrespondences (v : JsValue) (s : State) : State :=
  {| resolution := resolution s;
     requestedConstraints := requestedConstraints s;
     trackCorrespondences := v; useMaxResolution := useMaxResolution s;
     maxResolution := maxResolution s;
     useMinResolution := useMinResolution s;
     minResolution := minResolution s; error := error s;
     actualResolution := actualResolution s;
     videoDevices := videoDevices s; loadingDevices := loadingDevices s;
     audioDevices := audioDevices s;
     selectedVideoDevice := selectedVideoDevice s;
     selectedAudioDevice := selectedAudioDevice s;
     facingMode := facingMode s |}.

Definition setTrackCorrespondences (v : JsValue) : M State unit :=
  set_state "trackCorrespondences" (with_trackCorrespondences v).

Definition with_error (v : string) (s : State) : State :=
  {| resolution := resolution s;
     requestedConstraints := requestedConstraints s;
     trackCorrespondences := trackCorrespondences s;
     useMaxResolution := useMaxResolution s;
     maxResolution := maxResolution s;
     useMinResolution := useMinResolution s;
     minResolution := minResolution s; error := v;
     actualResolution := actualResolution s;
     videoDevices := videoDevices s; loadingDevices := loadingDevices s;
     audioDevices := audioDevices s;
     selectedVideoDevice := selectedVideoDevice s;
     selectedAudioDevice := selectedAudioDevice s;
     facingMode := facingMode s |}.

Definition setError (v : string) : M State unit :=
  set_state "error" (with_error v).

Definition with_videoDevices (v : list MediaDeviceInfo) (s : State) : State :=
  {| resolution := resolution s;
     requestedConstraints := requestedConstraints s;
     trackCorrespondences := trackCorrespondences s;
     useMaxResolution := useMaxResolution s;
     maxResolution := maxResolution s;
     useMinResolution := useMinResolution s;
     minResolution := minResolution s; error := error s;
     actualResolution := actualResolution s; videoDevices := v;
     loadingDevices := loadingDevices s; audioDevices := audioDevices s;
     selectedVideoDevice := selectedVideoDevice s;
     selectedAudioDevice := selectedAudioDevice s;
     facingMode := facingMode s |}.

Definition setVideoDevices (v : list MediaDeviceInfo) : M State unit :=
  set_state "videoDevices" (with_videoDevices v).

Definition with_loadingDevices (v : bool) (s : State) : State :=
  {| resolution := resolution s;
     requestedConstraints := requestedConstraints s;
     trackCorrespondences := trackCorrespondences s;
     useMaxResolution := useMaxResolution s;
     maxResolution := maxResolution s;
     useMinResolution := useMinResolution s;
     minResolution := minResolution s; error := error s;
     actualResolution := actualResolution s;
     videoDevices := videoDevices s; loadingDevices := v;
     audioDevices := audioDevices s;
     selectedVideoDevice := selectedVideoDevice s;
     selectedAudioDevice := selectedAudioDevice s;
     facingMode := facingMode s |}.

Definition setLoadingDevices (v : bool) : M State unit :=
  set_state "loadingDevices" (with_loadingDevices v).

Definition with_audioDevices (v : list MediaDeviceInfo) (s : State) : State :=
  {| resolution := resolution s;
     requestedConstraints := requestedConstraints s;
     trackCorrespondences := trackCorrespondences s;
     useMaxResolution := useMaxResolution s;
     maxResolution := maxResolution s;
     useMinResolution := useMinResolution s;
     minResolution := minResolution s; error := error s;
     actualResolution := actualResolution s;
     videoDevices := videoDevices s; loadingDevices := loadingDevices s;
     audioDevices := v; selectedVideoDevice := selectedVideoDevice s;
     selectedAudioDevice := selectedAudioDevice s;
     facingMode := facingMode s |}.

Definition setAudioDevices (v : list MediaDeviceInfo) : M State unit :=
  set_state "audioDevices" (with_audioDevices v).

Definition on_error (err : Thrown) : M State unit :=
  match err with
  | ErrorInstance message => setError message
  | NonError _ => ret tt
  end.

(** Returns whether a bound stream was torn down. *)
Definition stopStream : M State bool :=
  current <- read_videoRef ;;
  match current with
  | Some el =>
      match srcObject el with
      | Some stream => stop_and_unbind stream ;;; ret true
      | None => ret false
      end
  | None => ret false
  end.

Section Handlers.
Variable env : Platform.
Variable r : State.

(** The permission stream is released before the devices are enumerated. *)
Definition fetchDevices : M State unit :=
  try_finally
    (try_catch
       (setLoadingDevices true ;;;
        stream <- await_getUserMedia env video_and_audio ;;
        for_each track_stop (getTracks stream) ;;;
        deviceInfos <- await_enumerateDevices env ;;
        setVideoDevices (filter is_videoinput deviceInfos) ;;;
        setAudioDevices (filter is_audioinput deviceInfos))
       on_error)
    (setLoadingDevices false).

Definition fetchDevicesOnce : M State unit :=
  if bool_decide (videoDevices r = []) then fetchDevices else ret tt.

(** [...(facingMode && { facingMode: { exact: facingMode } })] *)
Definition facingModeEntry : Entry :=
  Spread (js_and (JStr (facingMode r))
            (obj_lit [Prop_ "facingMode"
                        (obj_lit [Prop_ "exact" (JStr (facingMode r))])])).

(** The [constraints] object built inside [startStream]. *)
Definition constraints : JsValue :=
  obj_lit
    [ Spread (js_and (JStr (selectedVideoDevice r))
                (obj_lit [Prop_ "deviceId"
                            (obj_lit [Prop_ "exact" (JStr (selectedVideoDevice r))])]));
      Prop_ "video"
        (if useMaxResolution r || useMinResolution r
         then obj_lit
                [ facingModeEntry;
                  Prop_ "width"
                    (ranged (width (resolution r))
                       (useMaxResolution r) (width (maxResolution r))
                       (useMinResolution r) (width (minResolution r)));
                  Prop_ "height"
                    (ranged (height (resolution r))
                       (useMaxResolution r) (height (maxResolution r))
                       (useMinResolution r) (height (minResolution r))) ]
         else obj_lit [ Prop_ "width" (JNum (width (resolution r)));
                        Prop_ "height" (JNum (height (resolution r)));
                        facingModeEntry ]) ].

Definition startStream : M State unit :=
  if negb (supportsGetUserMedia env) then
    setError "getUserMedia is not supported in this browser."
  else
    try_catch
      (stopped <- stopStream ;;
       when stopped (await_timeout 1000) ;;;
       setRequestedConstraints constraints ;;;
       stream <- await_getUserMedia env constraints ;;
       for_each (fun track => setTrackCorrespondences (correspondences track))
         (getTracks stream) ;;;
       current <- read_videoRef ;;
       when (bool_decide (is_Some current)) (set_srcObject (Some (ProvStream stream))))
      on_error.

End Handlers.

(** The handlers of the form controls. *)

Definition with_selectedVideoDevice (v : string) (s : State) : State :=
  {| resolution := resolution s;
     requestedConstraints := requestedConstraints s;
     trackCorrespondences := trackCorrespondences s;
     useMaxResolution := useMaxResolution s;
     maxResolution := maxResolution s;
     useMinResolution := useMinResolution s;
     minResolution := minResolution s; error := error s;
     actualResolution := actualResolution s; videoDevices := videoDevices s;
     loadingDevices := loadingDevices s; audioDevices := audioDevices s;
     selectedVideoDevice := v; selectedAudioDevice := selectedAudioDevice s;
     facingMode := facingMode s |}.

Definition setSelectedVideoDevice (v : string) : M State unit :=
  set_state "selectedVideoDevice" (with_selectedVideoDevice v).

(** Changing the camera only records the choice. *)
Definition handleVideoDeviceChange (deviceId : string) : M State unit :=
  setSelectedVideoDevice deviceId.

End PartFacing.

(** ** src/src/App.tsx, second document *)

Module AppCaps.

Record State := {
  resolution : Size;
  trackCorrespondences : JsValue;
  useMaxResolution : bool;
  maxResolution : Size;
  useMinResolution : bool;
  minResolution : Size;
  widthRange : Range;
  heightRange : Range;
  error : string;
  actualResolution : Size;
  videoDevices : list MediaDeviceInfo;
  loadingDevices : bool;
  audioDevices : list MediaDeviceInfo;
  deviceDetails : list DeviceDetailInfo;
  selectedVideoDevice : string;
  selectedAudioDevice : string;
  facingMode : string;
  availableFacingModes : list string
}.

Definition initial : State := {|
  resolution := {| width := 640; height := 480 |};
  trackCorrespondences := JObj [];
  useMaxResolution := false;
  maxResolution := {| width := 0; height := 0 |};
  useMinResolution := false;
  minResolution := {| width := 0; height := 0 |};
  widthRange := {| range_min := None; range_max := None |};
  heightRange := {| range_min := None; range_max := None |};
  error := "";
  actualResolution := {| width := 0; height := 0 |};
  videoDevices := [];
  loadingDevices := false;
  audioDevices := [];
  deviceDetails := [];
  selectedVideoDevice := "";
  selectedAudioDevice := "";
  facingMode := "";
  availableFacingModes := []
|}.

Definition with_trackCorrespondences (v : JsValue) (s : State) : State :=
  {| resolution := resolution s; trackCorrespondences := v;
     useMaxResolution := useMaxResolution s;
     maxResolution := maxResolution s;
     useMinResolution := useMinResolution s;
     minResolution := minResolution s; widthRange := widthRange s;
     heightRange := heightRange s; error := error s;
     actualResolution := actualResolution s;
     videoDevices := videoDevices s; loadingDevices := loadingDevices s;
     audioDevices := audioDevices s; deviceDetails := deviceDetails s;
     selectedVideoDevice := selectedVideoDevice s;
     selectedAudioDevice := selectedAudioDevice s;
     facingMode := facingMode s;
     availableFacingModes := availableFacingModes s |}.

Definition setTrackCorrespondences (v : JsValue) : M State unit :=
  set_state "trackCorrespondences" (with_trackCorrespondences v).

Definition with_error (v : string) (s : State) : State :=
  {| resolution := resolution s;
     trackCorrespondences := trackCorrespondences s;
     useMaxResolution := useMaxResolution s;
     maxResolution := maxResolution s;
     useMinResolution := useMinResolution s;
     minResolution := minResolution s; widthRange := widthRange s;
     heightRange := heightRange s; error := v;
     actualResolution := actualResolution s;
     videoDevices := videoDevices s; loadingDevices := loadingDevices s;
     audioDevices := audioDevices s; deviceDetails := deviceDetails s;
     selectedVideoDevice := selectedVideoDevice s;
     selectedAudioDevice := selectedAudioDevice s;
     facingMode := facingMode s;
     availableFacingModes := availableFacingModes s |}.

Definition setError (v : string) : M State unit :=
  set_state "error" (with_error v).

Definition with_videoDevices (v : list MediaDeviceInfo) (s : State) : State :=
  {| resolution := resolution s;
     trackCorrespondences := trackCorrespondences s;
     useMaxResolution := useMaxResolution s;
     maxResolution := maxResolution s;
     useMinResolution := useMinResolution s;
     minResolution := minResolution s; widthRange := widthRange s;
     heightRange := heightRange s; error := error s;
     actualResolution := actualResolution s; videoDevices := v;
     loadingDevices := loadingDevices s; audioDevices := audioDevices s;
     deviceDetails := deviceDetails s;
     selectedVideoDevice := selectedVideoDevice s;
     selectedAudioDevice := selectedAudioDevice s;
     facingMode := facingMode s;
     availableFacingModes := availableFacingModes s |}.

Definition setVideoDevices (v : list MediaDeviceInfo) : M State unit :=
  set_state "videoDevices" (with_videoDevices v).

Definition with_loadingDevices (v : bool) (s : State) : State :=
  {| resolution := resolution s;
     trackCorrespondences := trackCorrespondences s;
     useMaxResolution := useMaxResolution s;
     maxResolution := maxResolution s;
     useMinResolution := useMinResolution s;
     minResolution := minResolution s; widthRange := widthRange s;
     heightRange := heightRange s; error := error s;
     actualResolution := actualResolution s;
     videoDevices := videoDevices s; loadingDevices := v;
     audioDevices := audioDevices s; deviceDetails := deviceDetails s;
     selectedVideoDevice := selectedVideoDevice s;
     selectedAudioDevice := selectedAudioDevice s;
     facingMode := facingMode s;
     availableFacingModes := availableFacingModes s |}.

Definition setLoadingDevices (v : bool) : M State unit :=
  set_state "loadingDevices" (with_loadingDevices v).

Definition with_audioDevices (v : list MediaDeviceInfo) (s : State) : State :=
  {| resolution := resolution s;
     trackCorrespondences := trackCorrespondences s;
     useMaxResolution := useMaxResolution s;
     maxResolution := maxResolution s;
     useMinResolution := useMinResolution s;
     minResolution := minResolution s; widthRange := widthRange s;
     heightRange := heightRange s; error := error s;
     actualResolution := actualResolution s;
     videoDevices := videoDevices s; loadingDevices := loadingDevices s;
     audioDevices := v; deviceDetails := deviceDetails s;
     selectedVideoDevice := selectedVideoDevice s;
     selectedAudioDevice := selectedAudioDevice s;
     facingMode := facingMode s;
     availableFacingModes := availableFacingModes s |}.

Definition setAudioDevices (v : list MediaDeviceInfo) : M State unit :=
  set_state "audioDevices" (with_audioDevices v).

Definition with_deviceDetails (v : list DeviceDetailInfo) (s : State) : State :=
  {| resolution := resolution s;
     trackCorrespondences := trackCorrespondences s;
     useMaxResolution := useMaxResolution s;
     maxResolution := maxResolution s;
     useMinResolution := useMinResolution s;
     minResolution := minResolution s; widthRange := widthRange s;
     heightRange := heightRange s; error := error s;
     actualResolution := actualResolution s;
     videoDevices := videoDevices s; loadingDevices := loadingDevices s;
     audioDevices := audioDevices s; deviceDetails := v;
     selectedVideoDevice := selectedVideoDevice s;
     selectedAudioDevice := selectedAudioDevice s;
     facingMode := facingMode s;
     availableFacingModes := availableFacingModes s |}.

Definition setDeviceDetails (v : list DeviceDetailInfo) : M State unit :=
  set_state "deviceDetails" (with_deviceDetails v).

Definition on_error (err : Thrown) : M State unit :=
  match err with
  | ErrorInstance message => setError message
  | NonError _ => ret tt
  end.

Definition stopStream : M State bool :=
  current <- read_videoRef ;;
  match current with
  | Some el =>
      match srcObject el with
      | Some stream => stop_and_unbind stream ;;; ret true
      | None => ret false
      end
  | None => ret false
  end.

Section Handlers.
Variable env : Platform.
Variable r : State.

(** The permission stream is released after the devices are enumerated and
    their capabilities read, before anything is published. A throw of the
    enumeration or of a capability read goes to the handler from inside the
    [try], before the loop that stops the tracks. *)
Definition fetchDevices : M State unit :=
  try_finally
    (try_catch
       (setLoadingDevices true ;;;
        stream <- await_getUserMedia env video_and_audio ;;
        deviceInfos <- await_enumerateDevices env ;;
        detailInfos <- evaluate (map_throwing detailInfo deviceInfos) ;;
        for_each track_stop (getTracks stream) ;;;
        setDeviceDetails detailInfos ;;;
        setVideoDevices (filter is_videoinput deviceInfos) ;;;
        setAudioDevices (filter is_audioinput deviceInfos))
       on_error)
    (setLoadingDevices false).

Definition fetchDevicesOnce : M State unit :=
  if bool_decide (videoDevices r = []) then fetchDevices else ret tt.

Definition getSelectedDeviceCapabilities : JsValue :=
  if negb (truthy (JStr (selectedVideoDevice r))) then JNull
  else js_or (found_capabilities (deviceDetails r) (selectedVideoDevice r)) JNull.

(** [facingModeConstraint] as [startStream] leaves it before building the
    request: [{ facingMode }] when the selected device lists the mode. *)
Definition facingModeConstraint : JsValue :=
  let deviceCapabilities := getSelectedDeviceCapabilities in
  if truthy (js_and (JStr (facingMode r)) (js_get "facingMode" deviceCapabilities))
  then
    let availableFacingModes :=
      array_or_empty (js_get "facingMode" deviceCapabilities) in
    if js_includes availableFacingModes (facingMode r)
    then obj_lit [Prop_ "facingMode" (JStr (facingMode r))]
    else obj_lit []
  else obj_lit [].

Definition constraints : JsValue :=
  obj_lit
    [ Spread (js_and (JStr (selectedVideoDevice r))
                (obj_lit [Prop_ "deviceId"
                            (obj_lit [Prop_ "exact" (JStr (selectedVideoDevice r))])]));
      Prop_ "video"
        (if useMaxResolution r || useMinResolution r
         then obj_lit
                [ Spread facingModeConstraint;
                  Prop_ "width"
                    (ranged (width (resolution r))
                       (useMaxResolution r) (width (maxResolution r))
                       (useMinResolution r) (width (minResolution r)));
                  Prop_ "height"
                    (ranged (height (resolution r))
                       (useMaxResolution r) (height (maxResolution r))
                       (useMinResolution r) (height (minResolution r))) ]
         else obj_lit [ Prop_ "width" (JNum (width (resolution r)));
                        Prop_ "height" (JNum (height (resolution r)));
                        Spread facingModeConstraint ]) ].

Definition startStream : M State unit :=
  if negb (supportsGetUserMedia env) then
    setError "getUserMedia is not supported in this browser."
  else
    try_catch
      (stopped <- stopStream ;;
       when stopped (await_timeout 1000) ;;;
       stream <- await_getUserMedia env constraints ;;
       for_each (fun track => setTrackCorrespondences (correspondences track))
         (getTracks stream) ;;;
       current <- read_videoRef ;;
       when (bool_decide (is_Some current)) (set_srcObject (Some (ProvStream stream))))
      on_error.

End Handlers.

(** The handlers of the form controls. *)

Definition with_selectedVideoDevice (v : string) (s : State) : State :=
  {| resolution := resolution s;
     trackCorrespondences := trackCorrespondences s;
     useMaxResolution := useMaxResolution s;
     maxResolution := maxResolution s;
     useMinResolution := useMinResolution s;
     minResolution := minResolution s; widthRange := widthRange s;
     heightRange := heightRange s; error := error s;
     actualResolution := actualResolution s; videoDevices := videoDevices s;
     loadingDevices := loadingDevices s; audioDevices := audioDevices s;
     deviceDetails := deviceDetails s; selectedVideoDevice := v;
     selectedAudioDevice := selectedAudioDevice s;
     facingMode := facingMode s;
     availableFacingModes := availableFacingModes s |}.

Definition setSelectedVideoDevice (v : string) : M State unit :=
  set_state "selectedVideoDevice" (with_selectedVideoDevice v).

Definition with_facingMode (v : string) (s : State) : State :=
  {| resolution := resolution s;
     trackCorrespondences := trackCorrespondences s;
     useMaxResolution := useMaxResolution s;
     maxResolution := maxResolution s;
     useMinResolution := useMinResolution s;
     minResolution := minResolution s; widthRange := widthRange s;
     heightRange := heightRange s; error := error s;
     actualResolution := actualResolution s; videoDevices := videoDevices s;
     loadingDevices := loadingDevices s; audioDevices := audioDevices s;
     deviceDetails := deviceDetails s;
     selectedVideoDevice := selectedVideoDevice s;
     selectedAudioDevice := selectedAudioDevice s; facingMode := v;
     availableFacingModes := availableFacingModes s |}.

Definition setFacingMode (v : string) : M State unit :=
  set_state "facingMode" (with_facingMode v).

Definition with_availableFacingModes (v : list string) (s : State) : State :=
  {| resolution := resolution s;
     trackCorrespondences := trackCorrespondences s;
     useMaxResolution := useMaxResolution s;
     maxResolution := maxResolution s;
     useMinResolution := useMinResolution s;
     minResolution := minResolution s; widthRange := widthRange s;
     heightRange := heightRange s; error := error s;
     actualResolution := actualResolution s; videoDevices := videoDevices s;
     loadingDevices := loadingDevices s; audioDevices := audioDevices s;
     deviceDetails := deviceDetails s;
     selectedVideoDevice := selectedVideoDevice s;
     selectedAudioDevice := selectedAudioDevice s;
     facingMode := facingMode s; availableFacingModes := v |}.

Definition setAvailableFacingModes (v : list string) : M State unit :=
  set_state "availableFacingModes" (with_availableFacingModes v).

Definition with_widthRange (v : Range) (s : State) : State :=
  {| resolution := resolution s;
     trackCorrespondences := trackCorrespondences s;
     useMaxResolution := useMaxResolution s;
     maxResolution := maxResolution s;
     useMinResolution := useMinResolution s;
     minResolution := minResolution s; widthRange := v;
     heightRange := heightRange s; error := error s;
     actualResolution := actualResolution s; videoDevices := videoDevices s;
     loadingDevices := loadingDevices s; audioDevices := audioDevices s;
     deviceDetails := deviceDetails s;
     selectedVideoDevice := selectedVideoDevice s;
     selectedAudioDevice := selectedAudioDevice s;
     facingMode := facingMode s;
     availableFacingModes := availableFacingModes s |}.

Definition setWidthRange (v : Range) : M State unit :=
  set_state "widthRange" (with_widthRange v).

Definition with_heightRange (v : Range) (s : State) : State :=
  {| resolution := resolution s;
     trackCorrespondences := trackCorrespondences s;
     useMaxResolution := useMaxResolution s;
     maxResolution := maxResolution s;
     useMinResolution := useMinResolution s;
     minResolution := minResolution s; widthRange := widthRange s;
     heightRange := v; error := error s;
     actualResolution := actualResolution s; videoDevices := videoDevices s;
     loadingDevices := loadingDevices s; audioDevices := audioDevices s;
     deviceDetails := deviceDetails s;
     selectedVideoDevice := selectedVideoDevice s;
     selectedAudioDevice := selectedAudioDevice s;
     facingMode := facingMode s;
     availableFacingModes := availableFacingModes s |}.

Definition setHeightRange (v : Range) : M State unit :=
  set_state "heightRange" (with_heightRange v).

Definition with_useMaxResolution (v : bool) (s : State) : State :=
  {| resolution := resolution s;
     trackCorrespondences := trackCorrespondences s; useMaxResolution := v;
     maxResolution := maxResolution s;
     useMinResolution := useMinResolution s;
     minResolution := minResolution s; widthRange := widthRange s;
     heightRange := heightRange s; error := error s;
     actualResolution := actualResolution s; videoDevices := videoDevices s;
     loadingDevices := loadingDevices s; audioDevices := audioDevices s;
     deviceDetails := deviceDetails s;
     selectedVideoDevice := selectedVideoDevice s;
     selectedAudioDevice := selectedAudioDevice s;
     facingMode := facingMode s;
     availableFacingModes := availableFacingModes s |}.

Definition setUseMaxResolution (v : bool) : M State unit :=
  set_state "useMaxResolution" (with_useMaxResolution v).

Definition with_maxResolution (v : Size) (s : State) : State :=
  {| resolution := resolution s;
     trackCorrespondences := trackCorrespondences s;
     useMaxResolution := useMaxResolution s; maxResolution := v;
     useMinResolution := useMinResolution s;
     minResolution := minResolution s; widthRange := widthRange s;
     heightRange := heightRange s; error := error s;
     actualResolution := actualResolution s; videoDevices := videoDevices s;
     loadingDevices := loadingDevices s; audioDevices := audioDevices s;
     deviceDetails := deviceDetails s;
     selectedVideoDevice := selectedVideoDevice s;
     selectedAudioDevice := selectedAudioDevice s;
     facingMode := facingMode s;
     availableFacingModes := availableFacingModes s |}.

Definition setMaxResolution (v : Size) : M State unit :=
  set_state "maxResolution" (with_maxResolution v).

Definition with_useMinResolution (v : bool) (s : State) : State :=
  {| resolution := resolution s;
     trackCorrespondences := trackCorrespondences s;
     useMaxResolution := useMaxResolution s;
     maxResolution := maxResolution s; useMinResolution := v;
     minResolution := minResolution s; widthRange := widthRange s;
     heightRange := heightRange s; error := error s;
     actualResolution := actualResolution s; videoDevices := videoDevices s;
     loadingDevices := loadingDevices s; audioDevices := audioDevices s;
     deviceDetails := deviceDetails s;
     selectedVideoDevice := selectedVideoDevice s;
     selectedAudioDevice := selectedAudioDevice s;
     facingMode := facingMode s;
     availableFacingModes := availableFacingModes s |}.

Definition setUseMinResolution (v : bool) : M State unit :=
  set_state "useMinResolution" (with_useMinResolution v).

Definition with_minResolution (v : Size) (s : State) : State :=
  {| resolution := resolution s;
     trackCorrespondences := trackCorrespondences s;
     useMaxResolution := useMaxResolution s;
     maxResolution := maxResolution s;
     useMinResolution := useMinResolution s; minResolution := v;
     widthRange := widthRange s; heightRange := heightRange s;
     error := error s; actualResolution := actualResolution s;
     videoDevices := videoDevices s; loadingDevices := loadingDevices s;
     audioDevices := audioDevices s; deviceDetails := deviceDetails s;
     selectedVideoDevice := selectedVideoDevice s;
     selectedAudioDevice := selectedAudioDevice s;
     facingMode := facingMode s;
     availableFacingModes := availableFacingModes s |}.

Definition setMinResolution (v : Size) : M State unit :=
  set_state "minResolution" (with_minResolution v).

(** The four setters that clear the capability-driven options. *)
Definition clearCapabilityOptions : M State unit :=
  setAvailableFacingModes [] ;;;
  setFacingMode "" ;;;
  setWidthRange {| range_min := None; range_max := None |} ;;;
  setHeightRange {| range_min := None; range_max := None |}.

Section Controls.
Variable r : State.

Definition updateDeviceCapabilitiesOptions (deviceId : string) : M State unit :=
  if negb (truthy (JStr deviceId)) then clearCapabilityOptions
  else
    let capabilities := found_capabilities (deviceDetails r) deviceId in
    if negb (truthy capabilities) then clearCapabilityOptions
    else
      (if truthy (js_get "facingMode" capabilities) then
         let modes := array_or_empty (js_get "facingMode" capabilities) in
         setAvailableFacingModes (string_items modes) ;;;
         when (truthy (JStr (facingMode r)) && negb (js_includes modes (facingMode r)))
           (setFacingMode "")
       else
         setAvailableFacingModes [] ;;;
         setFacingMode "") ;;;
      (if truthy (js_get "width" capabilities)
       then setWidthRange (range_of (js_get "width" capabilities))
       else setWidthRange {| range_min := None; range_max := None |}) ;;;
      (if truthy (js_get "height" capabilities)
       then setHeightRange (range_of (js_get "height" capabilities))
       else setHeightRange {| range_min := None; range_max := None |}).

Definition handleVideoDeviceChange (deviceId : string) : M State unit :=
  setSelectedVideoDevice deviceId ;;;
  updateDeviceCapabilitiesOptions deviceId.

(** The effect that follows a change of the device details or selection. *)
Definition capabilitiesEffect : M State unit :=
  when (truthy (JStr (selectedVideoDevice r)))
    (updateDeviceCapabilitiesOptions (selectedVideoDevice r)).

(** [onChange] of the "Use Max Resolution" checkbox: ticking it copies the
    maxima reported by the device, when both are known and non-zero. *)
Definition onUseMaxResolutionChange (checked : bool) : M State unit :=
  setUseMaxResolution checked ;;;
  match range_max (widthRange r), range_max (heightRange r) with
  | Some w, Some h =>
      when (checked && truthy (JNum w) && truthy (JNum h))
        (setMaxResolution {| width := w; height := h |})
  | _, _ => ret tt
  end.

(** [onChange] of the "Use Min Resolution" checkbox. *)
Definition onUseMinResolutionChange (checked : bool) : M State unit :=
  setUseMinResolution checked ;;;
  match range_min (widthRange r), range_min (heightRange r) with
  | Some w, Some h =>
      when (checked && truthy (JNum w) && truthy (JNum h))
        (setMinResolution {| width := w; height := h |})
  | _, _ => ret tt
  end.

End Controls.

End AppCaps.

(** ** src/unnamed/part_000, second document *)

Module PartCustom.

Record State := {
  trackCorrespondences : JsValue;
  error : string;
  actualResolution : Size;
  actualDeviceId : option string;     (* [string | null] *)
  deviceIdMatch : option bool;        (* [boolean | null] *)
  videoDevices : list MediaDeviceInfo;
  loadingDevices : bool;
  audioDevices : list MediaDeviceInfo;
  deviceDetails : list DeviceDetailInfo;
  selectedVideoDevice : string;
  selectedAudioDevice : string;
  customConstraints : JsObject;
  currentCapabilities : JsValue;
  activeConstraintKeys : list string;
  useExactDeviceId : bool;
  useExactAudioDeviceId : bool
}.

Definition initial : State := {|
  trackCorrespondences := JObj [];
  error := "";
  actualResolution := {| width := 0; height := 0 |};
  actualDeviceId := None;
  deviceIdMatch := None;
  videoDevices := [];
  loadingDevices := false;
  audioDevices := [];
  deviceDetails := [];
  selectedVideoDevice := "";
  selectedAudioDevice := "";
  customConstraints :=
    [ ("width", JObj [("ideal", JNum 640)]);
      ("height", JObj [("ideal", JNum 480)]) ];
  currentCapabilities := JNull;
  activeConstraintKeys := [];
  useExactDeviceId := true;
  useExactAudioDeviceId := true
|}.

Definition with_trackCorrespondences (v : JsValue) (s : State) : State :=
  {| trackCorrespondences := v; error := error s;
     actualResolution := actualResolution s;
     actualDeviceId := actualDeviceId s; deviceIdMatch := deviceIdMatch s;
     videoDevices := videoDevices s; loadingDevices := loadingDevices s;
     audioDevices := audioDevices s; deviceDetails := deviceDetails s;
     selectedVideoDevice := selectedVideoDevice s;
     selectedAudioDevice := selectedAudioDevice s;
     customConstraints := customConstraints s;
     currentCapabilities := currentCapabilities s;
     activeConstraintKeys := activeConstraintKeys s;
     useExactDeviceId := useExactDeviceId s;
     useExactAudioDeviceId := useExactAudioDeviceId s |}.

Definition setTrackCorrespondences (v : JsValue) : M State unit :=
  set_state "trackCorrespondences" (with_trackCorrespondences v).

Definition with_error (v : string) (s : State) : State :=
  {| trackCorrespondences := trackCorrespondences s; error := v;
     actualResolution := actualResolution s;
     actualDeviceId := actualDeviceId s; deviceIdMatch := deviceIdMatch s;
     videoDevices := videoDevices s; loadingDevices := loadingDevices s;
     audioDevices := audioDevices s; deviceDetails := deviceDetails s;
     selectedVideoDevice := selectedVideoDevice s;
     selectedAudioDevice := selectedAudioDevice s;
     customConstraints := customConstraints s;
     currentCapabilities := currentCapabilities s;
     activeConstraintKeys := activeConstraintKeys s;
     useExactDeviceId := useExactDeviceId s;
     useExactAudioDeviceId := useExactAudioDeviceId s |}.

Definition setError (v : string) : M State unit :=
  set_state "error" (with_error v).

Definition with_actualDeviceId (v : option string) (s : State) : State :=
  {| trackCorrespondences := trackCorrespondences s; error := error s;
     actualResolution := actualResolution s; actualDeviceId := v;
     deviceIdMatch := deviceIdMatch s; videoDevices := videoDevices s;
     loadingDevices := loadingDevices s; audioDevices := audioDevices s;
     deviceDetails := deviceDetails s;
     selectedVideoDevice := selectedVideoDevice s;
     selectedAudioDevice := selectedAudioDevice s;
     customConstraints := customConstraints s;
     currentCapabilities := currentCapabilities s;
     activeConstraintKeys := activeConstraintKeys s;
     useExactDeviceId := useExactDeviceId s;
     useExactAudioDeviceId := useExactAudioDeviceId s |}.

Definition setActualDeviceId (v : option string) : M State unit :=
  set_state "actualDeviceId" (with_actualDeviceId v).

Definition with_deviceIdMatch (v : option bool) (s : State) : State :=
  {| trackCorrespondences := trackCorrespondences s; error := error s;
     actualResolution := actualResolution s;
     actualDeviceId := actualDeviceId s; deviceIdMatch := v;
     videoDevices := videoDevices s; loadingDevices := loadingDevices s;
     audioDevices := audioDevices s; deviceDetails := deviceDetails s;
     selectedVideoDevice := selectedVideoDevice s;
     selectedAudioDevice := selectedAudioDevice s;
     customConstraints := customConstraints s;
     currentCapabilities := currentCapabilities s;
     activeConstraintKeys := activeConstraintKeys s;
     useExactDeviceId := useExactDeviceId s;
     useExactAudioDeviceId := useExactAudioDeviceId s |}.

Definition setDeviceIdMatch (v : option bool) : M State unit :=
  set_state "deviceIdMatch" (with_deviceIdMatch v).

Definition with_videoDevices (v : list MediaDeviceInfo) (s : State) : State :=
  {| trackCorrespondences := trackCorrespondences s; error := error s;
     actualResolution := actualResolution s;
     actualDeviceId := actualDeviceId s; deviceIdMatch := deviceIdMatch s;
     videoDevices := v; loadingDevices := loadingDevices s;
     audioDevices := audioDevices s; deviceDetails := deviceDetails s;
     selectedVideoDevice := selectedVideoDevice s;
     selectedAudioDevice := selectedAudioDevice s;
     customConstraints := customConstraints s;
     currentCapabilities := currentCapabilities s;
     activeConstraintKeys := activeConstraintKeys s;
     useExactDeviceId := useExactDeviceId s;
     useExactAudioDeviceId := useExactAudioDeviceId s |}.

Definition setVideoDevices (v : list MediaDeviceInfo) : M State unit :=
  set_state "videoDevices" (with_videoDevices v).

Definition with_loadingDevices (v : bool) (s : State) : State :=
  {| trackCorrespondences := trackCorrespondences s; error := error s;
     actualResolution := actualResolution s;
     actualDeviceId := actualDeviceId s; deviceIdMatch := deviceIdMatch s;
     videoDevices := videoDevices s; loadingDevices := v;
     audioDevices := audioDevices s; deviceDetails := deviceDetails s;
     selectedVideoDevice := selectedVideoDevice s;
     selectedAudioDevice := selectedAudioDevice s;
     customConstraints := customConstraints s;
     currentCapabilities := currentCapabilities s;
     activeConstraintKeys := activeConstraintKeys s;
     useExactDeviceId := useExactDeviceId s;
     useExactAudioDeviceId := useExactAudioDeviceId s |}.

Definition setLoadingDevices (v : bool) : M State unit :=
  set_state "loadingDevices" (with_loadingDevices v).

Definition with_audioDevices (v : list MediaDeviceInfo) (s : State) : State :=
  {| trackCorrespondences := trackCorrespondences s; error := error s;
     actualResolution := actualResolution s;
     actualDeviceId := actualDeviceId s; deviceIdMatch := deviceIdMatch s;
     videoDevices := videoDevices s; loadingDevices := loadingDevices s;
     audioDevices := v; deviceDetails := deviceDetails s;
     selectedVideoDevice := selectedVideoDevice s;
     selectedAudioDevice := selectedAudioDevice s;
     customConstraints := customConstraints s;
     currentCapabilities := currentCapabilities s;
     activeConstraintKeys := activeConstraintKeys s;
     useExactDeviceId := useExactDeviceId s;
     useExactAudioDeviceId := useExactAudioDeviceId s |}.

Definition setAudioDevices (v : list MediaDeviceInfo) : M State unit :=
  set_state "audioDevices" (with_audioDevices v).

Definition with_deviceDetails (v : list DeviceDetailInfo) (s : State) : State :=
  {| trackCorrespondences := trackCorrespondences s; error := error s;
     actualResolution := actualResolution s;
     actualDeviceId := actualDeviceId s; deviceIdMatch := deviceIdMatch s;
     videoDevices := videoDevices s; loadingDevices := loadingDevices s;
     audioDevices := audioDevices s; deviceDetails := v;
     selectedVideoDevice := selectedVideoDevice s;
     selectedAudioDevice := selectedAudioDevice s;
     customConstraints := customConstraints s;
     currentCapabilities := currentCapabilities s;
     activeConstraintKeys := activeConstraintKeys s;
     useExactDeviceId := useExactDeviceId s;
     useExactAudioDeviceId := useExactAudioDeviceId s |}.

Definition setDeviceDetails (v : list DeviceDetailInfo) : M State unit :=
  set_state "deviceDetails" (with_deviceDetails v).

Definition on_error (err : Thrown) : M State unit :=
  match err with
  | ErrorInstance message => setError message
  | NonError _ => ret tt
  end.

(** Tears the bound stream down and resets the device-id state. *)
Definition stopStream : M State bool :=
  current <- read_videoRef ;;
  match current with
  | Some el =>
      match srcObject el with
      | Some stream =>
          stop_and_unbind stream ;;;
          setActualDeviceId None ;;;
          setDeviceIdMatch None ;;;
          ret true
      | None => ret false
      end
  | None => ret false
  end.

(** [v !== undefined] *)
Definition is_defined (v : JsValue) : bool :=
  match v with
  | JUndefined => false
  | _ => true
  end.

(** The keys the effect on device selection stores in
    [activeConstraintKeys]: the defined capability keys other than
    "deviceId" and "groupId", with width, height and facingMode first. *)
Definition active_keys (capabilities : JsObject) : list string :=
  let keys :=
    List.filter
      (fun key => is_defined (obj_get key capabilities)
                  && negb (String.eqb key "deviceId")
                  && negb (String.eqb key "groupId"))
      (obj_keys capabilities) in
  let priorityKeys := ["width"; "height"; "facingMode"] in
  List.filter (fun key => bool_decide (key ∈ keys)) priorityKeys
  ++ List.filter (fun key => negb (bool_decide (key ∈ priorityKeys))) keys.

(** [useExact ? { exact: id } : { ideal: id }] *)
Definition deviceIdConstraint (useExact : bool) (id : string) : JsValue :=
  if useExact then obj_lit [Prop_ "exact" (JStr id)]
  else obj_lit [Prop_ "ideal" (JStr id)].

Section Handlers.
Variable env : Platform.
Variable r : State.

Definition fetchDevices : M State unit :=
  try_finally
    (try_catch
       (setLoadingDevices true ;;;
        stream <- await_getUserMedia env video_and_audio ;;
        deviceInfos <- await_enumerateDevices env ;;
        detailInfos <- evaluate (map_throwing detailInfo deviceInfos) ;;
        for_each track_stop (getTracks stream) ;;;
        setDeviceDetails detailInfos ;;;
        setVideoDevices (filter is_videoinput deviceInfos) ;;;
        setAudioDevices (filter is_audioinput deviceInfos))
       on_error)
    (setLoadingDevices false).

Definition fetchDevicesOnce : M State unit :=
  if bool_decide (videoDevices r = []) then fetchDevices else ret tt.

(** The [videoConstraints] record of [buildConstraints] once filled. *)
Definition videoConstraints : JsObject :=
  let withDevice :=
    if truthy (JStr (selectedVideoDevice r))
    then obj_set "deviceId"
           (deviceIdConstraint (useExactDeviceId r) (selectedVideoDevice r)) []
    else [] in
  fold_left
    (fun acc key =>
       if is_defined (obj_get key (customConstraints r))
       then obj_set key (obj_get key (customConstraints r)) acc
       else acc)
    (activeConstraintKeys r) withDevice.

Definition audioConstraints : JsValue :=
  if truthy (JStr (selectedAudioDevice r))
  then obj_lit [Prop_ "deviceId"
                  (deviceIdConstraint (useExactAudioDeviceId r) (selectedAudioDevice r))]
  else JBool false.

Definition buildConstraints : JsValue :=
  obj_lit
    [ Prop_ "video"
        (if (0 <? length (obj_keys videoConstraints))%nat
         then JObj videoConstraints else JBool true);
      Prop_ "audio" audioConstraints ].

(** The body of the loop over the tracks of the acquired stream. *)
Definition record_track (track : MediaStreamTrack) : M State unit :=
  let settings := getSettings track in
  when (String.eqb (kind track) "video")
    (let trackDeviceId := settings_deviceId settings in
     let reported :=
       match trackDeviceId with
       | Some d => truthy (JStr d)
       | None => false
       end in
     setActualDeviceId (if reported then trackDeviceId else None) ;;;
     if truthy (JStr (selectedVideoDevice r)) && reported
     then setDeviceIdMatch
            (Some (bool_decide (Some (selectedVideoDevice r) = trackDeviceId)))
     else setDeviceIdMatch None) ;;;
  setTrackCorrespondences (correspondences track).

Definition startStream : M State unit :=
  if negb (supportsGetUserMedia env) then
    setError "getUserMedia is not supported in this browser."
  else
    try_catch
      (stopped <- stopStream ;;
       when stopped (await_timeout 1000) ;;;
       let constraints := buildConstraints in
       stream <- await_getUserMedia env constraints ;;
       for_each record_track (getTracks stream) ;;;
       current <- read_videoRef ;;
       when (bool_decide (is_Some current)) (set_srcObject (Some (ProvStream stream))))
      on_error.

End Handlers.

(** The device-selection effect and the handlers of the constraint form. *)

Definition with_selectedVideoDevice (v : string) (s : State) : State :=
  {| trackCorrespondences := trackCorrespondences s; error := error s;
     actualResolution := actualResolution s;
     actualDeviceId := actualDeviceId s; deviceIdMatch := deviceIdMatch s;
     videoDevices := videoDevices s; loadingDevices := loadingDevices s;
     audioDevices := audioDevices s; deviceDetails := deviceDetails s;
     selectedVideoDevice := v; selectedAudioDevice := selectedAudioDevice s;
     customConstraints := customConstraints s;
     currentCapabilities := currentCapabilities s;
     activeConstraintKeys := activeConstraintKeys s;
     useExactDeviceId := useExactDeviceId s;
     useExactAudioDeviceId := useExactAudioDeviceId s |}.

Definition setSelectedVideoDevice (v : string) : M State unit :=
  set_state "selectedVideoDevice" (with_selectedVideoDevice v).

Definition with_customConstraints (v : JsObject) (s : State) : State :=
  {| trackCorrespondences := trackCorrespondences s; error := error s;
     actualResolution := actualResolution s;
     actualDeviceId := actualDeviceId s; deviceIdMatch := deviceIdMatch s;
     videoDevices := videoDevices s; loadingDevices := loadingDevices s;
     audioDevices := audioDevices s; deviceDetails := deviceDetails s;
     selectedVideoDevice := selectedVideoDevice s;
     selectedAudioDevice := selectedAudioDevice s; customConstraints := v;
     currentCapabilities := currentCapabilities s;
     activeConstraintKeys := activeConstraintKeys s;
     useExactDeviceId := useExactDeviceId s;
     useExactAudioDeviceId := useExactAudioDeviceId s |}.

Definition setCustomConstraints (v : JsObject) : M State unit :=
  set_state "customConstraints" (with_customConstraints v).

Definition with_currentCapabilities (v : JsValue) (s : State) : State :=
  {| trackCorrespondences := trackCorrespondences s; error := error s;
     actualResolution := actualResolution s;
     actualDeviceId := actualDeviceId s; deviceIdMatch := deviceIdMatch s;
     videoDevices := videoDevices s; loadingDevices := loadingDevices s;
     audioDevices := audioDevices s; deviceDetails := deviceDetails s;
     selectedVideoDevice := selectedVideoDevice s;
     selectedAudioDevice := selectedAudioDevice s;
     customConstraints := customConstraints s; currentCapabilities := v;
     activeConstraintKeys := activeConstraintKeys s;
     useExactDeviceId := useExactDeviceId s;
     useExactAudioDeviceId := useExactAudioDeviceId s |}.

Definition setCurrentCapabilities (v : JsValue) : M State unit :=
  set_state "currentCapabilities" (with_currentCapabilities v).

Definition with_activeConstraintKeys (v : list string) (s : State) : State :=
  {| trackCorrespondences := trackCorrespondences s; error := error s;
     actualResolution := actualResolution s;
     actualDeviceId := actualDeviceId s; deviceIdMatch := deviceIdMatch s;
     videoDevices := videoDevices s; loadingDevices := loadingDevices s;
     audioDevices := audioDevices s; deviceDetails := deviceDetails s;
     selectedVideoDevice := selectedVideoDevice s;
     selectedAudioDevice := selectedAudioDevice s;
     customConstraints := customConstraints s;
     currentCapabilities := currentCapabilities s; activeConstraintKeys := v;
     useExactDeviceId := useExactDeviceId s;
     useExactAudioDeviceId := useExactAudioDeviceId s |}.

Definition setActiveConstraintKeys (v : list string) : M State unit :=
  set_state "activeConstraintKeys" (with_activeConstraintKeys v).

(** [{ ideal: n }] *)
Definition ideal (v : JsValue) : JsValue := obj_lit [Prop_ "ideal" v].

Section Controls.
Variable r : State.

Definition getDeviceCapabilities (deviceId : string) : JsValue :=
  if negb (truthy (JStr deviceId)) then JNull
  else js_or (found_capabilities (deviceDetails r) deviceId) JNull.

(** [initialConstraints] as the effect fills it for the active [keys]. *)
Definition initialConstraints (capabilities : JsObject) (keys : list string) : JsObject :=
  let savedWidthConstraint := obj_get "width" (customConstraints r) in
  let savedHeightConstraint := obj_get "height" (customConstraints r) in
  let savedFacingModeConstraint := obj_get "facingMode" (customConstraints r) in
  let filled :=
    fold_left
      (fun init key =>
         let value := obj_get key capabilities in
         if String.eqb key "width" then
           if truthy savedWidthConstraint then obj_set key savedWidthConstraint init
           else if bool_decide ("width" ∈ keys) then obj_set key (ideal (JNum 640)) init
           else init
         else if String.eqb key "height" then
           if truthy savedHeightConstraint then obj_set key savedHeightConstraint init
           else if bool_decide ("height" ∈ keys) then obj_set key (ideal (JNum 480)) init
           else init
         else if String.eqb key "facingMode" then
           if truthy savedFacingModeConstraint
           then obj_set key savedFacingModeConstraint init
           else match value with
                | JArr (first :: _) => obj_set key (ideal first) init
                | _ => init
                end
         else init)
      keys [] in
  let withWidth :=
    if negb (truthy (obj_get "width" filled)) && bool_decide ("width" ∈ keys)
    then obj_set "width" (ideal (JNum 640)) filled else filled in
  if negb (truthy (obj_get "height" withWidth)) && bool_decide ("height" ∈ keys)
  then obj_set "height" (ideal (JNum 480)) withWidth else withWidth.

(** The effect that maps the selected device to its capabilities. *)
Definition capabilitiesEffect : M State unit :=
  when (truthy (JStr (selectedVideoDevice r)))
    (let capabilities := getDeviceCapabilities (selectedVideoDevice r) in
     setCurrentCapabilities capabilities ;;;
     if truthy capabilities then
       let keys := active_keys (own_fields capabilities) in
       setActiveConstraintKeys keys ;;;
       setCustomConstraints (initialConstraints (own_fields capabilities) keys)
     else
       setActiveConstraintKeys [] ;;;
       setCustomConstraints
         (lit_fields [ Prop_ "width" (ideal (JNum 640));
                       Prop_ "height" (ideal (JNum 480)) ])).

Definition handleVideoDeviceChange (deviceId : string) : M State unit :=
  setSelectedVideoDevice deviceId.

(** Unticking the box of a constraint: the key is deleted from a copy. *)
Definition removeConstraint (key : string) : M State unit :=
  setCustomConstraints
    (obj_delete key (lit_fields [Spread (JObj (customConstraints r))])).

(** The slider of a range constraint: [ideal] is set, the rest is kept. *)
Definition setIdealValue (key : string) (value : Z) : M State unit :=
  setCustomConstraints
    (lit_fields
       [ Spread (JObj (customConstraints r));
         Prop_ key
           (obj_lit [ Spread (js_or (obj_get key (customConstraints r)) (obj_lit []));
                      Prop_ "ideal" (JNum value) ]) ]).

(** The "exact" number field: a value replaces the whole constraint by
    [{ exact }], an emptied field by [{}]. *)
Definition setExactValue (key : string) (value : option Z) : M State unit :=
  setCustomConstraints
    (lit_fields
       [ Spread (JObj (customConstraints r));
         Prop_ key
           (match value with
            | Some n => obj_lit [Prop_ "exact" (JNum n)]
            | None => obj_lit []
            end) ]).

(** The "exact" checkbox of a choice constraint. *)
Definition toggleExact (key : string) (checked : bool) : M State unit :=
  let value :=
    js_or (js_get "ideal" (obj_get key (customConstraints r)))
          (js_get "exact" (obj_get key (customConstraints r))) in
  if checked
  then setCustomConstraints
         (lit_fields [ Spread (JObj (customConstraints r));
                       Prop_ key (obj_lit [Prop_ "exact" value]) ])
  else setCustomConstraints
         (lit_fields [ Spread (JObj (customConstraints r));
                       Prop_ key (obj_lit [Prop_ "ideal" value]) ]).

End Controls.

(** The dependency list of the effect (lines 567-573): the selected device,
    the device details, the callback [getDeviceCapabilities], which changes
    with the device details alone, and the width and height members of the
    form. *)
Definition effect_dependencies (s : State)
  : string * list DeviceDetailInfo * JsValue * JsValue :=
  (selectedVideoDevice s, deviceDetails s,
   obj_get "width" (customConstraints s),
   obj_get "height" (customConstraints s)).

(** Whether the render of [s] that follows the render of [prev] runs the
    effect again: it does when a dependency differs. Dependencies that are
    objects are compared by identity; a member of the form that a handler
    carries over with a spread, or that the effect stores back as it found
    it, is the same object in both renders, and a member that was deleted or
    newly created is not. *)
Definition effect_reruns (prev s : State) : Prop :=
  effect_dependencies s <> effect_dependencies prev.

End PartCustom.

(** ** Notions used in the statements *)

(** The [video] member of a request. *)
Definition video_of (request : JsValue) : JsValue := js_get "video" request.

(** The facing modes the selected device of [AppCaps] advertises: the array
    under [facingMode] in the capabilities recorded for the first descriptor
    with the selected id; nothing when no device is selected. *)
Definition advertisedFacingModes (r : AppCaps.State) : list JsValue :=
  if String.eqb (AppCaps.selectedVideoDevice r) "" then []
  else
    match List.find
            (fun detail => String.eqb (deviceId (deviceInfo detail))
                             (AppCaps.selectedVideoDevice r))
            (AppCaps.deviceDetails r) with
    | Some {| capabilities := Some (JObj caps) |} =>
        match obj_get "facingMode" caps with
        | JArr modes => modes
        | _ => []
        end
    | _ => []
    end.

(** [PartFacing] with the facing mode "user" chosen in the static select. *)
Definition facing_user : PartFacing.State := {|
  PartFacing.resolution := {| width := 640; height := 480 |};
  PartFacing.requestedConstraints := JObj [];
  PartFacing.trackCorrespondences := JObj [];
  PartFacing.useMaxResolution := false;
  PartFacing.maxResolution := {| width := 0; height := 0 |};
  PartFacing.useMinResolution := false;
  PartFacing.minResolution := {| width := 0; height := 0 |};
  PartFacing.error := "";
  PartFacing.actualResolution := {| width := 0; height := 0 |};
  PartFacing.videoDevices := [];
  PartFacing.loadingDevices := false;
  PartFacing.audioDevices := [];
  PartFacing.selectedVideoDevice := "";
  PartFacing.selectedAudioDevice := "";
  PartFacing.facingMode := "user"
|}.

(** [PartFacing] with the camera "cam1" selected and every other field at
    its initial value. *)
Definition camera_selected : PartFacing.State := {|
  PartFacing.resolution := {| width := 640; height := 480 |};
  PartFacing.requestedConstraints := JObj [];
  PartFacing.trackCorrespondences := JObj [];
  PartFacing.useMaxResolution := false;
  PartFacing.maxResolution := {| width := 0; height := 0 |};
  PartFacing.useMinResolution := false;
  PartFacing.minResolution := {| width := 0; height := 0 |};
  PartFacing.error := "";
  PartFacing.actualResolution := {| width := 0; height := 0 |};
  PartFacing.videoDevices := [];
  PartFacing.loadingDevices := false;
  PartFacing.audioDevices := [];
  PartFacing.selectedVideoDevice := "cam1";
  PartFacing.selectedAudioDevice := "";
  PartFacing.facingMode := ""
|}.

(** Components of the result of running a handler. *)
Definition outcome {S A} (x : (Thrown + A) * S * World) : Thrown + A := x.1.1.
Definition state_after {S A} (x : (Thrown + A) * S * World) : S := x.1.2.
Definition world_after {S A} (x : (Thrown + A) * S * World) : World := x.2.

(** What is bound to the sink: [videoRef.current.srcObject], [None] when
    the element is not mounted or nothing is bound (the Idle state). *)
Definition bound (w : World) : option MediaProvider :=
  match videoRef w with
  | Some el => srcObject el
  | None => None
  end.

Definition provider_tracks (p : MediaProvider) : list MediaStreamTrack :=
  match p with
  | ProvStream ms => getTracks ms
  | ProvOther => []
  end.

Definition track_ids (tracks : list MediaStreamTrack) : list nat :=
  map track_id tracks.

(** The world once everything bound to the sink is stopped and unbound. *)
Definition torn_down (p : MediaProvider) (w : World) (more : list Event) : World :=
  {| videoRef :=
       match videoRef w with
       | Some el => Some {| srcObject := None;
                            videoWidth := videoWidth el;
                            videoHeight := videoHeight el |}
       | None => None
       end;
     ended := list_to_set (track_ids (provider_tracks p)) ∪ ended w;
     trace := trace w ++ map EvTrackStop (track_ids (provider_tracks p))
                      ++ [EvSrcObject None] ++ more |}.

(** Events that neither stop a track, nor wait, nor call the platform:
    state setters and binding a stream to the sink. *)
Definition bookkeeping (e : Event) : Prop :=
  match e with
  | EvSetState _ | EvSrcObject (Some _) => True
  | _ => False
  end.


(** A step that only sets state: it returns normally, leaves the sink and
    the tracks alone and adds bookkeeping events. *)
Definition quiet {S} (m : M S unit) : Prop :=
  forall s w, exists s' evs,
    m s w = (inr tt, s',
             {| videoRef := videoRef w; ended := ended w;
                trace := trace w ++ evs |}) /\
    Forall bookkeeping evs.

(** [PartCustom] state once [stopStream] has reset the device-id fields. *)
Definition cleared (s : PartCustom.State) : PartCustom.State :=
  PartCustom.with_deviceIdMatch None (PartCustom.with_actualDeviceId None s).

(** The world with further events appended to its trace. *)
Definition extend (w : World) (evs : list Event) : World :=
  {| videoRef := videoRef w; ended := ended w; trace := trace w ++ evs |}.

(** The world with [stream] bound to the sink, when the sink is mounted. *)
Definition rebound (stream : MediaStream) (w : World) : World :=
  {| videoRef :=
       match videoRef w with
       | Some el => Some {| srcObject := Some (ProvStream stream);
                            videoWidth := videoWidth el;
                            videoHeight := videoHeight el |}
       | None => None
       end;
     ended := ended w;
     trace := trace w |}.

(** The world in which [startStream] builds its request: a bound stream has
    been torn down (with the events [more] of the revision's [stopStream])
    and the settling delay has been awaited; an Idle world is left as is. *)
Definition settled (w : World) (more : list Event) : World :=
  match bound w with
  | Some p => torn_down p w (more ++ [EvTimeout 1000])
  | None => w
  end.

(** [PartFacing] state once [setRequestedConstraints c] has run. *)
Definition requested (c : JsValue) (s : PartFacing.State) : PartFacing.State :=
  PartFacing.with_requestedConstraints c s.

(** The video tracks of a stream, in the order of [getTracks()]. *)
Definition is_video (track : MediaStreamTrack) : Prop := kind track = "video".

#[global] Instance is_video_dec track : Decision (is_video track).
Proof. unfold is_video. apply _. Defined.



(** What a [catch] handler adds to the trace for a thrown value. *)
Definition handler_events (e : Thrown) : list Event :=
  match e with
  | ErrorInstance _ => [EvSetState "error"]
  | NonError _ => []
  end.


Definition handled_PartFacing (e : Thrown) (s : PartFacing.State) : PartFacing.State :=
  match e with
  | ErrorInstance message => PartFacing.with_error message s
  | NonError _ => s
  end.

Definition handled_AppCaps (e : Thrown) (s : AppCaps.State) : AppCaps.State :=
  match e with
  | ErrorInstance message => AppCaps.with_error message s
  | NonError _ => s
  end.

Definition handled_PartCustom (e : Thrown) (s : PartCustom.State) : PartCustom.State :=
  match e with
  | ErrorInstance message => PartCustom.with_error message s
  | NonError _ => s
  end.

(** The world after a run that stopped [tracks] and logged [evs]. *)
Definition released (tracks : list MediaStreamTrack) (w : World) (evs : list Event) : World :=
  {| videoRef := videoRef w;
     ended := list_to_set (track_ids tracks) ∪ ended w;
     trace := trace w ++ evs |}.


(** After the permission grab, the discovery of a capability-aware revision
    is interrupted with [e]: the enumeration is rejected with it, or the
    devices are enumerated and a capability read throws it. *)
Definition interrupted (env : Platform) (e : Thrown) : Prop :=
  enumerateDevices env = inl e \/
  exists ds, enumerateDevices env = inr ds /\ map_throwing detailInfo ds = inl e.


(** A mounted sink with nothing bound, and an empty history. *)
Definition idle_world : World := {|
  videoRef := Some {| srcObject := None; videoWidth := 0; videoHeight := 0 |};
  ended := ∅;
  trace := []
|}.

Definition camera_track : MediaStreamTrack := {|
  track_id := 7;
  kind := "video";
  getCapabilities := JObj [];
  getConstraints := JObj [];
  getSettings := {| settings_deviceId := Some "cam1"; settings_other := [] |}
|}.

Definition camera_stream : MediaStream := {| getTracks := [camera_track] |}.

(** A platform that grants every request with [camera_stream] and reports
    no devices. *)
Definition granting : Platform := {|
  supportsGetUserMedia := true;
  getUserMedia := fun _ => inr camera_stream;
  enumerateDevices := inr []
|}.


(** A platform whose getUserMedia rejects with an [Error]. *)
Definition rejecting_with_error : Platform := {|
  supportsGetUserMedia := true;
  getUserMedia := fun _ => inl (ErrorInstance "Permission denied");
  enumerateDevices := inr []
|}.

(** A mounted sink with [camera_stream] bound (the Active state). *)
Definition active_world : World := {|
  videoRef := Some {| srcObject := Some (ProvStream camera_stream);
                      videoWidth := 640; videoHeight := 480 |};
  ended := ∅;
  trace := []
|}.

(** States with 1280x720 chosen and the max bound 1920x1080 switched on. *)
Definition bounded_basic : AppBasic.State := {|
  AppBasic.resolution := {| width := 1280; height := 720 |};
  AppBasic.useMaxResolution := true;
  AppBasic.maxResolution := {| width := 1920; height := 1080 |};
  AppBasic.useMinResolution := false;
  AppBasic.minResolution := {| width := 0; height := 0 |};
  AppBasic.error := "";
  AppBasic.actualResolution := {| width := 0; height := 0 |};
  AppBasic.devices := [];
  AppBasic.selectedDevice := ""
|}.

Definition bounded_facing : PartFacing.State := {|
  PartFacing.resolution := {| width := 1280; height := 720 |};
  PartFacing.requestedConstraints := JObj [];
  PartFacing.trackCorrespondences := JObj [];
  PartFacing.useMaxResolution := true;
  PartFacing.maxResolution := {| width := 1920; height := 1080 |};
  PartFacing.useMinResolution := false;
  PartFacing.minResolution := {| width := 0; height := 0 |};
  PartFacing.error := "";
  PartFacing.actualResolution := {| width := 0; height := 0 |};
  PartFacing.videoDevices := [];
  PartFacing.loadingDevices := false;
  PartFacing.audioDevices := [];
  PartFacing.selectedVideoDevice := "";
  PartFacing.selectedAudioDevice := "";
  PartFacing.facingMode := ""
|}.

Definition bounded_caps : AppCaps.State := {|
  AppCaps.resolution := {| width := 1280; height := 720 |};
  AppCaps.trackCorrespondences := JObj [];
  AppCaps.useMaxResolution := true;
  AppCaps.maxResolution := {| width := 1920; height := 1080 |};
  AppCaps.useMinResolution := false;
  AppCaps.minResolution := {| width := 0; height := 0 |};
  AppCaps.widthRange := {| range_min := None; range_max := None |};
  AppCaps.heightRange := {| range_min := None; range_max := None |};
  AppCaps.error := "";
  AppCaps.actualResolution := {| width := 0; height := 0 |};
  AppCaps.videoDevices := [];
  AppCaps.loadingDevices := false;
  AppCaps.audioDevices := [];
  AppCaps.deviceDetails := [];
  AppCaps.selectedVideoDevice := "";
  AppCaps.selectedAudioDevice := "";
  AppCaps.facingMode := "";
  AppCaps.availableFacingModes := []
|}.

(** [PartCustom] with the camera "cam1" selected. *)
Definition custom_cam1 : PartCustom.State := {|
  PartCustom.trackCorrespondences := JObj [];
  PartCustom.error := "";
  PartCustom.actualResolution := {| width := 0; height := 0 |};
  PartCustom.actualDeviceId := None;
  PartCustom.deviceIdMatch := None;
  PartCustom.videoDevices := [];
  PartCustom.loadingDevices := false;
  PartCustom.audioDevices := [];
  PartCustom.deviceDetails := [];
  PartCustom.selectedVideoDevice := "cam1";
  PartCustom.selectedAudioDevice := "";
  PartCustom.customConstraints :=
    [ ("width", JObj [("ideal", JNum 640)]);
      ("height", JObj [("ideal", JNum 480)]) ];
  PartCustom.currentCapabilities := JNull;
  PartCustom.activeConstraintKeys := [];
  PartCustom.useExactDeviceId := true;
  PartCustom.useExactAudioDeviceId := true
|}.

(** The state rendered after the box of [key] is unticked in the render of
    [r], and the state after a run of the device-selection effect in the
    render of [s]. *)
Definition unticked (r : PartCustom.State) (key : string) (w : World) : PartCustom.State :=
  state_after (PartCustom.removeConstraint r key r w).

Definition effect_applied (s : PartCustom.State) (w : World) : PartCustom.State :=
  state_after (PartCustom.capabilitiesEffect s s w).

(** The default that the effect gives to width and to height. *)
Definition default_resolution (key : string) : JsValue :=
  JObj [("ideal", JNum (if String.eqb key "width" then 640 else 480))].

(** Three devices as an enumeration reports them: a camera with
    capabilities, a microphone and a loudspeaker. *)
Definition cam1_capabilities : JsValue :=
  JObj [ ("deviceId", JStr "cam1");
         ("facingMode", JArr [JStr "user"]);
         ("frameRate", JObj [("min", JNum 1); ("max", JNum 30)]);
         ("width", JObj [("min", JNum 1); ("max", JNum 1920)]);
         ("height", JObj [("min", JNum 1); ("max", JNum 1080)]) ].

Definition cam1_info : MediaDeviceInfo := {|
  deviceId := "cam1";
  groupId := "g1";
  device_kind := "videoinput";
  label := "Front camera";
  input_capabilities := Capabilities cam1_capabilities
|}.

Definition mic1_info : MediaDeviceInfo := {|
  deviceId := "mic1";
  groupId := "g1";
  device_kind := "audioinput";
  label := "Microphone";
  input_capabilities := Capabilities (JObj [("deviceId", JStr "mic1")])
|}.

Definition speaker_info : MediaDeviceInfo := {|
  deviceId := "spk1";
  groupId := "g1";
  device_kind := "audiooutput";
  label := "Speaker";
  input_capabilities := NotInputDevice
|}.

(** The detail entries that a discovery stores for the camera and for the
    loudspeaker. *)
Definition cam1_detail : DeviceDetailInfo :=
  {| deviceInfo := cam1_info; capabilities := Some cam1_capabilities |}.

Definition speaker_detail : DeviceDetailInfo :=
  {| deviceInfo := speaker_info; capabilities := None |}.

(** A platform that grants [camera_stream] and lists the three devices. *)
Definition listing : Platform := {|
  supportsGetUserMedia := true;
  getUserMedia := fun _ => inr camera_stream;
  enumerateDevices := inr [speaker_info; cam1_info; mic1_info]
|}.

(** [custom_cam1] once the camera of the listing is known, with 1280x720 at
    30 frames per second set in the form. *)
Definition form_cam1 : PartCustom.State :=
  PartCustom.with_activeConstraintKeys ["width"; "height"; "facingMode"; "frameRate"]
    (PartCustom.with_deviceDetails [cam1_detail]
       (PartCustom.with_customConstraints
          [ ("width", JObj [("ideal", JNum 1280)]);
            ("height", JObj [("ideal", JNum 720)]);
            ("frameRate", JObj [("ideal", JNum 30)]) ]
          custom_cam1)).

(** A camera on a platform without the [InputDeviceInfo] global: the
    capability read throws a [ReferenceError]. *)
Definition unreadable_info : MediaDeviceInfo := {|
  deviceId := "cam2";
  groupId := "g2";
  device_kind := "videoinput";
  label := "Rear camera";
  input_capabilities := ReadThrows (ErrorInstance "InputDeviceInfo is not defined")
|}.

(** A platform that grants [camera_stream] and lists that camera. *)
Definition unreadable : Platform := {|
  supportsGetUserMedia := true;
  getUserMedia := fun _ => inr camera_stream;
  enumerateDevices := inr [unreadable_info]
|}.

(** A platform that grants the stream and then fails to enumerate. *)
Definition failing_enumeration : Platform := {|
  supportsGetUserMedia := true;
  getUserMedia := fun _ => inr camera_stream;
  enumerateDevices := inl (ErrorInstance "enumeration failed")
|}.

(** * Constraint construction *)

Lemma truthy_str (s : string) : truthy (JStr s) = true <-> s <> "".
Proof.
  cbn. destruct (String.eqb_spec s ""); cbn; split; congruence.
Qed.

Lemma js_includes_In (items : list JsValue) (s : string) :
  js_includes items s = true <-> JStr s ∈ items.
Proof.
  unfold js_includes. rewrite existsb_exists. split.
  - intros (v & Hin & Hv). destruct v; try discriminate.
    apply String.eqb_eq in Hv. subst. by apply list_elem_of_In.
  - intros Hin. exists (JStr s). split; [by apply list_elem_of_In|].
    apply String.eqb_refl.
Qed.

(** The width or height entry of a ranged request, key by key. *)
Lemma ranged_fields ideal useMax max useMin min :
  ranged ideal useMax max useMin min =
  JObj (("ideal", JNum ideal)
          :: (if useMax then [("max", JNum max)] else [])
          ++ (if useMin then [("min", JNum min)] else [])).
Proof. by destruct useMax, useMin. Qed.

Lemma js_get_or_null (k : string) (c : JsValue) :
  js_get k (js_or c JNull) = js_get k c.
Proof.
  unfold js_or. destruct c as [| |b|n|s|items|fields]; cbn; try reflexivity.
  - by destruct b.
  - by destruct (n =? 0).
  - by destruct (String.eqb s "").
Qed.

(** [facingModeConstraint] of [AppCaps] is [{ facingMode }] exactly when the
    mode is selected and listed, and [{}] otherwise. *)
Lemma facingModeConstraint_cases (r : AppCaps.State) :
  (AppCaps.facingMode r <> "" /\
   JStr (AppCaps.facingMode r) ∈ advertisedFacingModes r /\
   AppCaps.facingModeConstraint r = JObj [("facingMode", JStr (AppCaps.facingMode r))])
  \/
  (~ (AppCaps.facingMode r <> "" /\
      JStr (AppCaps.facingMode r) ∈ advertisedFacingModes r) /\
   AppCaps.facingModeConstraint r = JObj []).
Proof.
  unfold AppCaps.facingModeConstraint, AppCaps.getSelectedDeviceCapabilities,
    advertisedFacingModes, found_capabilities, js_and.
  destruct (String.eqb_spec (AppCaps.facingMode r) "") as [Hfm|Hfm].
  { right. split; [tauto|]. rewrite Hfm. reflexivity. }
  assert (Ht : truthy (JStr (AppCaps.facingMode r)) = true) by by apply truthy_str.
  rewrite Ht. cbn [truthy].
  assert (Hno : forall v : JsValue,
             ~ (AppCaps.facingMode r <> "" /\ JStr (AppCaps.facingMode r) ∈ @nil JsValue) /\
             (if truthy (js_get "facingMode" JUndefined) then v else obj_lit []) = JObj []).
  { intros v. split; [|reflexivity]. intros [_ Hin]. by apply elem_of_nil in Hin. }
  destruct (String.eqb (AppCaps.selectedVideoDevice r) ""); cbn [negb].
  { right. apply Hno. }
  rewrite !js_get_or_null.
  destruct (List.find _ (AppCaps.deviceDetails r)) as [[info [caps|]]|];
    cbn [capabilities]; try (right; apply Hno).
  destruct caps as [| |b|n|s|items|fields]; try (right; apply Hno).
  cbn [js_get].
  destruct (obj_get "facingMode" fields) as [| |b|n|s|modes|o] eqn:Hget;
    try (right; split;
         [intros [_ Hin]; by apply elem_of_nil in Hin
         |cbn; repeat (case_match; try reflexivity)]).
  cbn [truthy array_or_empty].
  destruct (js_includes modes (AppCaps.facingMode r)) eqn:Hinc.
  - left. apply js_includes_In in Hinc. done.
  - right. split; [|reflexivity]. intros [_ Hin].
    apply js_includes_In in Hin. congruence.
Qed.

(** The [video] member of the request of each revision with bound toggles. *)
Lemma video_of_AppBasic (r : AppBasic.State) :
  video_of (AppBasic.constraints r) =
  if AppBasic.useMaxResolution r || AppBasic.useMinResolution r
  then JObj [ ("width",
               ranged (width (AppBasic.resolution r))
                 (AppBasic.useMaxResolution r) (width (AppBasic.maxResolution r))
                 (AppBasic.useMinResolution r) (width (AppBasic.minResolution r)));
              ("height",
               ranged (height (AppBasic.resolution r))
                 (AppBasic.useMaxResolution r) (height (AppBasic.maxResolution r))
                 (AppBasic.useMinResolution r) (height (AppBasic.minResolution r))) ]
  else JObj [ ("width", JNum (width (AppBasic.resolution r)));
              ("height", JNum (height (AppBasic.resolution r))) ].
Proof.
  unfold video_of, AppBasic.constraints, js_and.
  destruct (truthy (JStr (AppBasic.selectedDevice r)));
    destruct (AppBasic.useMaxResolution r || AppBasic.useMinResolution r);
    reflexivity.
Qed.

Lemma video_of_PartFacing (r : PartFacing.State) :
  video_of (PartFacing.constraints r) =
  let facing :=
    if String.eqb (PartFacing.facingMode r) "" then []
    else [("facingMode", JObj [("exact", JStr (PartFacing.facingMode r))])] in
  if PartFacing.useMaxResolution r || PartFacing.useMinResolution r
  then JObj (facing ++
             [ ("width",
                ranged (width (PartFacing.resolution r))
                  (PartFacing.useMaxResolution r) (width (PartFacing.maxResolution r))
                  (PartFacing.useMinResolution r) (width (PartFacing.minResolution r)));
               ("height",
                ranged (height (PartFacing.resolution r))
                  (PartFacing.useMaxResolution r) (height (PartFacing.maxResolution r))
                  (PartFacing.useMinResolution r) (height (PartFacing.minResolution r))) ])
  else JObj ([ ("width", JNum (width (PartFacing.resolution r)));
               ("height", JNum (height (PartFacing.resolution r))) ] ++ facing).
Proof.
  unfold video_of, PartFacing.constraints, PartFacing.facingModeEntry, js_and.
  cbn [truthy].
  destruct (String.eqb (PartFacing.selectedVideoDevice r) "");
    destruct (PartFacing.useMaxResolution r || PartFacing.useMinResolution r);
    destruct (String.eqb (PartFacing.facingMode r) "");
    reflexivity.
Qed.

Lemma video_of_AppCaps (r : AppCaps.State) :
  exists facing : JsObject,
    AppCaps.facingModeConstraint r = JObj facing /\
    (facing = [("facingMode", JStr (AppCaps.facingMode r))] \/ facing = []) /\
    video_of (AppCaps.constraints r) =
    if AppCaps.useMaxResolution r || AppCaps.useMinResolution r
    then JObj (facing ++
               [ ("width",
                  ranged (width (AppCaps.resolution r))
                    (AppCaps.useMaxResolution r) (width (AppCaps.maxResolution r))
                    (AppCaps.useMinResolution r) (width (AppCaps.minResolution r)));
                 ("height",
                  ranged (height (AppCaps.resolution r))
                    (AppCaps.useMaxResolution r) (height (AppCaps.maxResolution r))
                    (AppCaps.useMinResolution r) (height (AppCaps.minResolution r))) ])
    else JObj ([ ("width", JNum (width (AppCaps.resolution r)));
                 ("height", JNum (height (AppCaps.resolution r))) ] ++ facing).
Proof.
  unfold video_of, AppCaps.constraints, js_and.
  destruct (facingModeConstraint_cases r) as [(_ & _ & ->)|(_ & ->)];
    eexists; (split; [reflexivity|]); (split; [by auto|]);
    destruct (truthy (JStr (AppCaps.selectedVideoDevice r)));
    destruct (AppCaps.useMaxResolution r || AppCaps.useMinResolution r);
    reflexivity.
Qed.

(** C1. When neither the max-bound nor the min-bound toggle is active, the
    request built by the start action carries [width] and [height] as bare
    numbers equal to the chosen resolution, not as range objects; this holds
    in each of the three revisions that have the toggles. *)
Theorem C1_unbounded_request_is_scalar :
  (forall r : AppBasic.State,
     AppBasic.useMaxResolution r = false ->
     AppBasic.useMinResolution r = false ->
     js_get "width" (video_of (AppBasic.constraints r))
       = JNum (width (AppBasic.resolution r)) /\
     js_get "height" (video_of (AppBasic.constraints r))
       = JNum (height (AppBasic.resolution r)))
  /\
  (forall r : PartFacing.State,
     PartFacing.useMaxResolution r = false ->
     PartFacing.useMinResolution r = false ->
     js_get "width" (video_of (PartFacing.constraints r))
       = JNum (width (PartFacing.resolution r)) /\
     js_get "height" (video_of (PartFacing.constraints r))
       = JNum (height (PartFacing.resolution r)))
  /\
  (forall r : AppCaps.State,
     AppCaps.useMaxResolution r = false ->
     AppCaps.useMinResolution r = false ->
     js_get "width" (video_of (AppCaps.constraints r))
       = JNum (width (AppCaps.resolution r)) /\
     js_get "height" (video_of (AppCaps.constraints r))
       = JNum (height (AppCaps.resolution r))).
Proof.
  split; [|split].
  - intros r Hmax Hmin. rewrite video_of_AppBasic, Hmax, Hmin. by split.
  - intros r Hmax Hmin. rewrite video_of_PartFacing, Hmax, Hmin. by split.
  - intros r Hmax Hmin.
    destruct (video_of_AppCaps r) as (facing & _ & _ & ->).
    rewrite Hmax, Hmin. by split.
Qed.

(** C1 at the initial state of each revision: 640x480, no bound active. *)
Lemma C1_unbounded_request_witness :
  (js_get "width" (video_of (AppBasic.constraints AppBasic.initial)) = JNum 640 /\
   js_get "height" (video_of (AppBasic.constraints AppBasic.initial)) = JNum 480)
  /\
  (js_get "width" (video_of (PartFacing.constraints PartFacing.initial)) = JNum 640 /\
   js_get "height" (video_of (PartFacing.constraints PartFacing.initial)) = JNum 480)
  /\
  (js_get "width" (video_of (AppCaps.constraints AppCaps.initial)) = JNum 640 /\
   js_get "height" (video_of (AppCaps.constraints AppCaps.initial)) = JNum 480).
Proof.
  destruct C1_unbounded_request_is_scalar as (HA & HC & HB).
  split; [|split].
  - apply (HA AppBasic.initial); reflexivity.
  - apply (HC PartFacing.initial); reflexivity.
  - apply (HB AppCaps.initial); reflexivity.
Defined.

(** C2. When at least one bound toggle is active, [width] and [height] are
    objects holding [ideal] (the chosen resolution), then [max] (the max
    resolution) exactly when the max toggle is on, then [min] (the min
    resolution) exactly when the min toggle is on, and no other key. *)
Theorem C2_bounded_request_is_ranged :
  (forall r : AppBasic.State,
     AppBasic.useMaxResolution r || AppBasic.useMinResolution r = true ->
     js_get "width" (video_of (AppBasic.constraints r))
       = JObj (("ideal", JNum (width (AppBasic.resolution r)))
                 :: (if AppBasic.useMaxResolution r
                     then [("max", JNum (width (AppBasic.maxResolution r)))] else [])
                 ++ (if AppBasic.useMinResolution r
                     then [("min", JNum (width (AppBasic.minResolution r)))] else [])) /\
     js_get "height" (video_of (AppBasic.constraints r))
       = JObj (("ideal", JNum (height (AppBasic.resolution r)))
                 :: (if AppBasic.useMaxResolution r
                     then [("max", JNum (height (AppBasic.maxResolution r)))] else [])
                 ++ (if AppBasic.useMinResolution r
                     then [("min", JNum (height (AppBasic.minResolution r)))] else [])))
  /\
  (forall r : PartFacing.State,
     PartFacing.useMaxResolution r || PartFacing.useMinResolution r = true ->
     js_get "width" (video_of (PartFacing.constraints r))
       = JObj (("ideal", JNum (width (PartFacing.resolution r)))
                 :: (if PartFacing.useMaxResolution r
                     then [("max", JNum (width (PartFacing.maxResolution r)))] else [])
                 ++ (if PartFacing.useMinResolution r
                     then [("min", JNum (width (PartFacing.minResolution r)))] else [])) /\
     js_get "height" (video_of (PartFacing.constraints r))
       = JObj (("ideal", JNum (height (PartFacing.resolution r)))
                 :: (if PartFacing.useMaxResolution r
                     then [("max", JNum (height (PartFacing.maxResolution r)))] else [])
                 ++ (if PartFacing.useMinResolution r
                     then [("min", JNum (height (PartFacing.minResolution r)))] else [])))
  /\
  (forall r : AppCaps.State,
     AppCaps.useMaxResolution r || AppCaps.useMinResolution r = true ->
     js_get "width" (video_of (AppCaps.constraints r))
       = JObj (("ideal", JNum (width (AppCaps.resolution r)))
                 :: (if AppCaps.useMaxResolution r
                     then [("max", JNum (width (AppCaps.maxResolution r)))] else [])
                 ++ (if AppCaps.useMinResolution r
                     then [("min", JNum (width (AppCaps.minResolution r)))] else [])) /\
     js_get "height" (video_of (AppCaps.constraints r))
       = JObj (("ideal", JNum (height (AppCaps.resolution r)))
                 :: (if AppCaps.useMaxResolution r
                     then [("max", JNum (height (AppCaps.maxResolution r)))] else [])
                 ++ (if AppCaps.useMinResolution r
                     then [("min", JNum (height (AppCaps.minResolution r)))] else []))).
Proof.
  split; [|split].
  - intros r Hany. rewrite video_of_AppBasic, Hany.
    cbn [js_get obj_get String.eqb Ascii.eqb Bool.eqb]. cbn.
    by rewrite !ranged_fields.
  - intros r Hany. rewrite video_of_PartFacing, Hany. cbn zeta.
    destruct (String.eqb (PartFacing.facingMode r) ""); cbn;
      by rewrite !ranged_fields.
  - intros r Hany.
    destruct (video_of_AppCaps r) as (facing & _ & [->| ->] & ->);
      rewrite Hany; cbn; by rewrite !ranged_fields.
Qed.

(** C2 at 1280x720 with the max bound 1920x1080 on and the min bound off. *)
Lemma C2_bounded_request_witness :
  (js_get "width" (video_of (AppBasic.constraints bounded_basic))
     = JObj [("ideal", JNum 1280); ("max", JNum 1920)] /\
   js_get "height" (video_of (AppBasic.constraints bounded_basic))
     = JObj [("ideal", JNum 720); ("max", JNum 1080)])
  /\
  (js_get "width" (video_of (PartFacing.constraints bounded_facing))
     = JObj [("ideal", JNum 1280); ("max", JNum 1920)] /\
   js_get "height" (video_of (PartFacing.constraints bounded_facing))
     = JObj [("ideal", JNum 720); ("max", JNum 1080)])
  /\
  (js_get "width" (video_of (AppCaps.constraints bounded_caps))
     = JObj [("ideal", JNum 1280); ("max", JNum 1920)] /\
   js_get "height" (video_of (AppCaps.constraints bounded_caps))
     = JObj [("ideal", JNum 720); ("max", JNum 1080)]).
Proof.
  destruct C2_bounded_request_is_ranged as (HA & HC & HB).
  split; [|split].
  - apply (HA bounded_basic). reflexivity.
  - apply (HC bounded_facing). reflexivity.
  - apply (HB bounded_caps). reflexivity.
Defined.

(** C3, as amended. In the capability-aware revision ([AppCaps]) the request
    has a [facingMode] entry if and only if the selected facing mode is
    non-empty and is listed in the facing modes advertised by the selected
    device. In the revision that keeps no capability data ([PartFacing]) the
    entry is present if and only if the selected facing mode is non-empty. *)
Theorem C3_facing_mode_inclusion :
  (forall r : AppCaps.State,
     js_has "facingMode" (video_of (AppCaps.constraints r)) = true <->
     AppCaps.facingMode r <> "" /\
     JStr (AppCaps.facingMode r) ∈ advertisedFacingModes r)
  /\
  (forall r : PartFacing.State,
     js_has "facingMode" (video_of (PartFacing.constraints r)) = true <->
     PartFacing.facingMode r <> "").
Proof.
  split.
  - intros r.
    destruct (video_of_AppCaps r) as (facing & Hfc & _ & ->).
    destruct (facingModeConstraint_cases r) as [(Hne & Hin & Hc)|(Hno & Hc)];
      rewrite Hc in Hfc; injection Hfc as <-;
      destruct (AppCaps.useMaxResolution r || AppCaps.useMinResolution r); cbn;
      split; try done; intros Habs; by destruct Hno.
  - intros r. rewrite video_of_PartFacing. cbn zeta.
    destruct (String.eqb_spec (PartFacing.facingMode r) "") as [Hfm|Hfm];
      destruct (PartFacing.useMaxResolution r || PartFacing.useMinResolution r);
      cbn; split; done.
Qed.

(** C3, the claim as stated fails on [PartFacing]: with "user" selected the
    request constrains [facingMode] although the list of advertised modes is
    empty. *)
Lemma C3_unadvertised_mode_is_sent :
  PartFacing.constraints facing_user =
    JObj [("video", JObj [("width", JNum 640); ("height", JNum 480);
                          ("facingMode", JObj [("exact", JStr "user")])])] /\
  js_has "facingMode" (video_of (PartFacing.constraints facing_user)) = true /\
  ~ (PartFacing.facingMode facing_user <> "" /\
     PartFacing.facingMode facing_user ∈ ([] : list string)).
Proof.
  split; [reflexivity|]. split; [reflexivity|].
  intros [_ Hin]. by apply elem_of_nil in Hin.
Qed.

Lemma obj_get_set (k k' : string) (v : JsValue) (o : JsObject) :
  obj_get k (obj_set k' v o) = if String.eqb k k' then v else obj_get k o.
Proof.
  induction o as [|[k0 v0] o IH]; cbn.
  - by destruct (String.eqb k k').
  - destruct (String.eqb_spec k' k0) as [->|Hne]; cbn.
    + by destruct (String.eqb k k0).
    + destruct (String.eqb_spec k k0) as [->|Hne'].
      * destruct (String.eqb_spec k0 k'); congruence.
      * apply IH.
Qed.

Lemma obj_set_nonempty (k : string) (v : JsValue) (o : JsObject) :
  obj_set k v o <> [].
Proof. destruct o as [|[k0 v0] o]; cbn; [done|]. by destruct (String.eqb k k0). Qed.

(** The sibling that gets it right: [buildConstraints] of [PartCustom] puts
    the device id inside [video], exact while the toggle is on (its initial
    value) and ideal once it is switched off. The active keys are filtered
    from the capabilities without "deviceId", hence the side condition. *)
Lemma buildConstraints_deviceId (r : PartCustom.State) :
  PartCustom.selectedVideoDevice r <> "" ->
  "deviceId" ∉ PartCustom.activeConstraintKeys r ->
  js_get "deviceId" (video_of (PartCustom.buildConstraints r)) =
    JObj [(if PartCustom.useExactDeviceId r then "exact" else "ideal",
           JStr (PartCustom.selectedVideoDevice r))].
Proof.
  intros Hsel Hkeys.
  unfold video_of, PartCustom.buildConstraints.
  assert (Hvc : PartCustom.videoConstraints r <> [] /\
                obj_get "deviceId" (PartCustom.videoConstraints r) =
                  JObj [(if PartCustom.useExactDeviceId r then "exact" else "ideal",
                         JStr (PartCustom.selectedVideoDevice r))]).
  { unfold PartCustom.videoConstraints.
    apply truthy_str in Hsel. rewrite Hsel.
    generalize dependent (PartCustom.activeConstraintKeys r).
    intros keys Hkeys.
    match goal with |- context [fold_left ?f keys ?a] =>
      assert (Hinit : a <> [] /\
                obj_get "deviceId" a =
                  JObj [(if PartCustom.useExactDeviceId r then "exact" else "ideal",
                         JStr (PartCustom.selectedVideoDevice r))]);
      [|generalize dependent a]
    end.
    { split; [done|]. cbn. by destruct (PartCustom.useExactDeviceId r). }
    induction keys as [|key keys IH]; intros a Hinit; cbn [fold_left]; [done|].
    apply not_elem_of_cons in Hkeys as [Hne Hkeys].
    apply IH; [done|].
    destruct (PartCustom.is_defined _); [|done].
    split; [apply obj_set_nonempty|].
    rewrite obj_get_set.
    destruct (String.eqb_spec "deviceId" key); [congruence|apply Hinit]. }
  destruct Hvc as [Hne Hget].
  destruct (PartCustom.videoConstraints r) as [|kv vc] eqn:Hvc; [done|].
  cbn. exact Hget.
Qed.

(** The side condition holds for the keys the component computes. *)
Lemma deviceId_not_active (capabilities : JsObject) :
  "deviceId" ∉ PartCustom.active_keys capabilities.
Proof.
  unfold PartCustom.active_keys. intros Hin.
  apply elem_of_app in Hin as [Hin|Hin]; apply list_elem_of_In, filter_In in Hin.
  - destruct Hin as [Hin _]. cbn in Hin. intuition discriminate.
  - destruct Hin as [Hin _]. apply filter_In in Hin as [_ Hin].
    cbn in Hin. by rewrite andb_false_r in Hin.
Qed.

(** The three earlier revisions never put a [deviceId] inside [video]. *)
Lemma deviceId_never_in_video :
  (forall r, js_has "deviceId" (video_of (AppBasic.constraints r)) = false) /\
  (forall r, js_has "deviceId" (video_of (PartFacing.constraints r)) = false) /\
  (forall r, js_has "deviceId" (video_of (AppCaps.constraints r)) = false).
Proof.
  split; [|split]; intros r.
  - rewrite video_of_AppBasic. by destruct (_ || _).
  - rewrite video_of_PartFacing. cbn zeta.
    by destruct (String.eqb _ ""), (_ || _).
  - destruct (video_of_AppCaps r) as (facing & _ & [->| ->] & ->);
      by destruct (_ || _).
Qed.

(** C5. With the camera "cam1" selected, [startStream] of [PartFacing] builds
    a request whose [deviceId] entry sits beside [video], at the top level
    of the request, and whose [video] member has no [deviceId]. *)
Theorem C5_device_id_outside_video :
  PartFacing.constraints camera_selected =
    JObj [("deviceId", JObj [("exact", JStr "cam1")]);
          ("video", JObj [("width", JNum 640); ("height", JNum 480)])] /\
  js_has "deviceId" (video_of (PartFacing.constraints camera_selected)) = false.
Proof. split; reflexivity. Qed.

(** * Stream lifecycle *)

Lemma bind_run {S A B} (m : M S A) (k : A -> M S B) s w a s' w' :
  m s w = (inr a, s', w') -> bind m k s w = k a s' w'.
Proof. unfold bind. by intros ->. Qed.

Lemma for_each_track_stop {S} (tracks : list MediaStreamTrack) (s : S) (w : World) :
  for_each track_stop tracks s w =
  (inr tt, s,
   {| videoRef := videoRef w;
      ended := list_to_set (track_ids tracks) ∪ ended w;
      trace := trace w ++ map EvTrackStop (track_ids tracks) |}).
Proof.
  revert w. induction tracks as [|t tracks IH]; intros w; cbn.
  - destruct w as [v e tr]; cbn. do 2 f_equal.
    + by rewrite union_empty_l_L.
    + by rewrite app_nil_r.
  - rewrite IH. cbn. do 2 f_equal.
    + by rewrite (assoc_L (∪)), (comm_L (∪) (list_to_set _)).
    + by rewrite <- app_assoc.
Qed.

Lemma stop_and_unbind_run {S} (p : MediaProvider) (s : S) (w : World) :
  stop_and_unbind p s w = (inr tt, s, torn_down p w []).
Proof.
  unfold stop_and_unbind, torn_down.
  destruct p as [ms|]; cbn [provider_tracks].
  - rewrite (bind_run _ _ _ _ _ _ _ (for_each_track_stop _ _ _)).
    unfold set_srcObject. cbn. by rewrite <- app_assoc.
  - unfold bind, ret, set_srcObject. cbn. do 2 f_equal.
    by rewrite union_empty_l_L.
Qed.

Lemma bound_torn_down p w more : bound (torn_down p w more) = None.
Proof. unfold bound, torn_down. cbn. by destruct (videoRef w). Qed.

Lemma ended_torn_down p w more t :
  t ∈ provider_tracks p -> track_id t ∈ ended (torn_down p w more).
Proof.
  intros Hin. cbn. apply elem_of_union_l, elem_of_list_to_set.
  unfold track_ids. apply list_elem_of_fmap. eauto.
Qed.

(** [stopStream] of the two revisions where it only tears the stream down. *)
Lemma stopStream_active_PartFacing (s : PartFacing.State) (w : World) p :
  bound w = Some p ->
  PartFacing.stopStream s w = (inr true, s, torn_down p w []).
Proof.
  unfold bound, PartFacing.stopStream. intros Hb.
  destruct (videoRef w) as [el|] eqn:Hv; [|done].
  unfold bind at 1. cbn. rewrite Hv, Hb.
  by rewrite (bind_run _ _ _ _ _ _ _ (stop_and_unbind_run _ _ _)).
Qed.

Lemma stopStream_idle_PartFacing (s : PartFacing.State) (w : World) :
  bound w = None -> PartFacing.stopStream s w = (inr false, s, w).
Proof.
  unfold bound, PartFacing.stopStream. intros Hb.
  unfold bind. cbn. destruct (videoRef w) as [el|]; [by rewrite Hb|done].
Qed.

Lemma stopStream_active_AppCaps (s : AppCaps.State) (w : World) p :
  bound w = Some p ->
  AppCaps.stopStream s w = (inr true, s, torn_down p w []).
Proof.
  unfold bound, AppCaps.stopStream. intros Hb.
  destruct (videoRef w) as [el|] eqn:Hv; [|done].
  unfold bind at 1. cbn. rewrite Hv, Hb.
  by rewrite (bind_run _ _ _ _ _ _ _ (stop_and_unbind_run _ _ _)).
Qed.

Lemma stopStream_idle_AppCaps (s : AppCaps.State) (w : World) :
  bound w = None -> AppCaps.stopStream s w = (inr false, s, w).
Proof.
  unfold bound, AppCaps.stopStream. intros Hb.
  unfold bind. cbn. destruct (videoRef w) as [el|]; [by rewrite Hb|done].
Qed.

Lemma stopStream_active_PartCustom (s : PartCustom.State) (w : World) p :
  bound w = Some p ->
  PartCustom.stopStream s w =
  (inr true, cleared s,
   torn_down p w [EvSetState "actualDeviceId"; EvSetState "deviceIdMatch"]).
Proof.
  unfold bound, PartCustom.stopStream. intros Hb.
  destruct (videoRef w) as [el|] eqn:Hv; [|done].
  unfold bind at 1. cbn. rewrite Hv, Hb.
  rewrite (bind_run _ _ _ _ _ _ _ (stop_and_unbind_run _ _ _)).
  unfold PartCustom.setActualDeviceId, PartCustom.setDeviceIdMatch, set_state,
    bind, ret, torn_down, cleared.
  cbn. rewrite Hv. do 2 f_equal. by rewrite <- !app_assoc.
Qed.

Lemma stopStream_idle_PartCustom (s : PartCustom.State) (w : World) :
  bound w = None -> PartCustom.stopStream s w = (inr false, s, w).
Proof.
  unfold bound, PartCustom.stopStream. intros Hb.
  unfold bind. cbn. destruct (videoRef w) as [el|]; [by rewrite Hb|done].
Qed.

(** C6. From a state with a bound stream, the first [stopStream] stops every
    track, unbinds the sink and returns [true]; the call that follows changes
    neither state nor world and returns [false]. With nothing bound (Idle)
    [stopStream] changes nothing and returns [false]. Stated for the three
    revisions whose [stopStream] reports a result. *)
Theorem C6_stop_twice_then_noop :
  ((forall (s : PartFacing.State) (w : World) (p : MediaProvider),
      bound w = Some p ->
      outcome (PartFacing.stopStream s w) = inr true /\
      (forall t, t ∈ provider_tracks p ->
                 track_id t ∈ ended (world_after (PartFacing.stopStream s w))) /\
      bound (world_after (PartFacing.stopStream s w)) = None /\
      PartFacing.stopStream (state_after (PartFacing.stopStream s w))
                            (world_after (PartFacing.stopStream s w))
        = (inr false, state_after (PartFacing.stopStream s w),
                      world_after (PartFacing.stopStream s w)))
   /\
   (forall (s : PartFacing.State) (w : World),
      bound w = None -> PartFacing.stopStream s w = (inr false, s, w)))
  /\
  ((forall (s : AppCaps.State) (w : World) (p : MediaProvider),
      bound w = Some p ->
      outcome (AppCaps.stopStream s w) = inr true /\
      (forall t, t ∈ provider_tracks p ->
                 track_id t ∈ ended (world_after (AppCaps.stopStream s w))) /\
      bound (world_after (AppCaps.stopStream s w)) = None /\
      AppCaps.stopStream (state_after (AppCaps.stopStream s w))
                         (world_after (AppCaps.stopStream s w))
        = (inr false, state_after (AppCaps.stopStream s w),
                      world_after (AppCaps.stopStream s w)))
   /\
   (forall (s : AppCaps.State) (w : World),
      bound w = None -> AppCaps.stopStream s w = (inr false, s, w)))
  /\
  ((forall (s : PartCustom.State) (w : World) (p : MediaProvider),
      bound w = Some p ->
      outcome (PartCustom.stopStream s w) = inr true /\
      (forall t, t ∈ provider_tracks p ->
                 track_id t ∈ ended (world_after (PartCustom.stopStream s w))) /\
      bound (world_after (PartCustom.stopStream s w)) = None /\
      PartCustom.stopStream (state_after (PartCustom.stopStream s w))
                            (world_after (PartCustom.stopStream s w))
        = (inr false, state_after (PartCustom.stopStream s w),
                      world_after (PartCustom.stopStream s w)))
   /\
   (forall (s : PartCustom.State) (w : World),
      bound w = None -> PartCustom.stopStream s w = (inr false, s, w))).
Proof.
  split; [|split]; (split; [intros s w p Hb|intros s w Hb]).
  - rewrite (stopStream_active_PartFacing _ _ _ Hb).
    unfold outcome, state_after, world_after; cbn [fst snd].
    split; [reflexivity|]. split; [intros t Ht; by apply ended_torn_down|].
    split; [apply bound_torn_down|].
    apply stopStream_idle_PartFacing, bound_torn_down.
  - by apply stopStream_idle_PartFacing.
  - rewrite (stopStream_active_AppCaps _ _ _ Hb).
    unfold outcome, state_after, world_after; cbn [fst snd].
    split; [reflexivity|]. split; [intros t Ht; by apply ended_torn_down|].
    split; [apply bound_torn_down|].
    apply stopStream_idle_AppCaps, bound_torn_down.
  - by apply stopStream_idle_AppCaps.
  - rewrite (stopStream_active_PartCustom _ _ _ Hb).
    unfold outcome, state_after, world_after; cbn [fst snd].
    split; [reflexivity|]. split; [intros t Ht; by apply ended_torn_down|].
    split; [apply bound_torn_down|].
    apply stopStream_idle_PartCustom, bound_torn_down.
  - by apply stopStream_idle_PartCustom.
Qed.

(** C6 at a world with [camera_stream] bound, and at the idle world. *)
Lemma C6_stop_twice_witness :
  (outcome (PartFacing.stopStream PartFacing.initial active_world) = inr true /\
   7%nat ∈ ended (world_after (PartFacing.stopStream PartFacing.initial active_world)) /\
   bound (world_after (PartFacing.stopStream PartFacing.initial active_world)) = None)
  /\
  PartCustom.stopStream PartCustom.initial idle_world =
    (inr false, PartCustom.initial, idle_world).
Proof.
  destruct C6_stop_twice_then_noop as ((HC & _) & _ & (_ & HDidle)).
  split.
  - destruct (HC PartFacing.initial active_world (ProvStream camera_stream) eq_refl)
      as (Hres & Hended & Hbound & _).
    split; [exact Hres|]. split; [|exact Hbound].
    apply (Hended camera_track). apply list_elem_of_here.
  - apply (HDidle PartCustom.initial idle_world). reflexivity.
Defined.

(** Steps that only set state. *)
Lemma quiet_ret {S} : quiet (@ret S unit tt).
Proof. intros s w. exists s, []. split; [|constructor]. unfold ret. by rewrite app_nil_r; destruct w. Qed.

Lemma quiet_set_state {S} (name : string) (f : S -> S) : quiet (set_state name f).
Proof.
  intros s w. exists (f s), [EvSetState name]. split; [reflexivity|].
  by repeat constructor.
Qed.

Lemma quiet_bind {S} (m k : M S unit) : quiet m -> quiet k -> quiet (m ;;; k).
Proof.
  intros Hm Hk s w.
  destruct (Hm s w) as (s1 & evs1 & Hrun1 & Hq1).
  rewrite (bind_run _ _ _ _ _ _ _ Hrun1).
  destruct (Hk s1 {| videoRef := videoRef w; ended := ended w;
                     trace := trace w ++ evs1 |})
    as (s2 & evs2 & Hrun2 & Hq2).
  exists s2, (evs1 ++ evs2). split.
  - cbn beta. rewrite Hrun2. cbn. by rewrite <- app_assoc.
  - by apply Forall_app.
Qed.

Lemma quiet_when {S} (c : bool) (m : M S unit) : quiet m -> quiet (when c m).
Proof. destruct c; [done|]. intros _. apply quiet_ret. Qed.

Lemma quiet_for_each {S A} (body : A -> M S unit) (l : list A) :
  (forall x, quiet (body x)) -> quiet (for_each body l).
Proof.
  intros Hbody. induction l as [|x l IH]; cbn [for_each].
  - apply quiet_ret.
  - by apply quiet_bind.
Qed.

Lemma quiet_record_track (r : PartCustom.State) (track : MediaStreamTrack) :
  quiet (PartCustom.record_track r track).
Proof.
  unfold PartCustom.record_track. apply quiet_bind.
  - apply quiet_when, quiet_bind; [apply quiet_set_state|].
    destruct (_ && _); apply quiet_set_state.
  - apply quiet_set_state.
Qed.

(** What follows a successful acquisition when the loop over the tracks is
    quiet: the tracks are recorded and the stream is bound to the sink. *)
Lemma after_acquisition {S} (loop : M S unit) (stream : MediaStream) s w :
  quiet loop ->
  exists rest,
    (loop ;;;
     current <- read_videoRef ;;
     when (bool_decide (is_Some current))
       (set_srcObject (Some (ProvStream stream)))) s w =
    (inr tt, state_after (loop s w),
     {| videoRef :=
          match videoRef w with
          | Some el => Some {| srcObject := Some (ProvStream stream);
                               videoWidth := videoWidth el;
                               videoHeight := videoHeight el |}
          | None => None
          end;
        ended := ended w;
        trace := trace w ++ rest |}) /\
    Forall bookkeeping rest.
Proof.
  intros Hq. destruct (Hq s w) as (s' & evs & Hrun & Hevs).
  rewrite (bind_run _ _ _ _ _ _ _ Hrun), Hrun.
  unfold bind, read_videoRef, when, set_srcObject, ret, state_after. cbn.
  destruct (videoRef w) as [el|] eqn:Hv; cbn.
  - exists (evs ++ [EvSrcObject (Some (ProvStream stream))]). split.
    + by rewrite <- app_assoc.
    + apply Forall_app. split; [done|]. by repeat constructor.
  - by exists evs.
Qed.

(** The handler of every [catch]: it returns normally and adds at most the
    [error] setter to the trace. *)
Lemma on_error_PartFacing e : quiet (PartFacing.on_error e).
Proof. destruct e; [apply quiet_set_state|apply quiet_ret]. Qed.

Lemma on_error_AppCaps e : quiet (AppCaps.on_error e).
Proof. destruct e; [apply quiet_set_state|apply quiet_ret]. Qed.

Lemma on_error_PartCustom e : quiet (PartCustom.on_error e).
Proof. destruct e; [apply quiet_set_state|apply quiet_ret]. Qed.

Lemma on_error_AppBasic e : quiet (AppBasic.on_error e).
Proof. destruct e; [apply quiet_set_state|apply quiet_ret]. Qed.

(** ** Runs of [startStream] on a platform that has getUserMedia *)

Lemma startStream_PartFacing_throw env r s w e :
  supportsGetUserMedia env = true ->
  getUserMedia env (PartFacing.constraints r) = inl e ->
  PartFacing.startStream env r s w =
  PartFacing.on_error e
    (requested (PartFacing.constraints r) s)
    (extend (settled w [])
       [EvSetState "requestedConstraints"; EvGetUserMedia (PartFacing.constraints r)]).
Proof.
  intros Hsup Hgum.
  unfold PartFacing.startStream. rewrite Hsup. cbn [negb].
  unfold try_catch, settled.
  destruct (bound w) as [p|] eqn:Hb.
  - rewrite (bind_run _ _ _ _ _ _ _ (stopStream_active_PartFacing _ _ _ Hb)).
    unfold when, await_timeout, log, PartFacing.setRequestedConstraints, set_state,
      await_getUserMedia.
    unfold bind at 1 2 3. rewrite Hgum.
    unfold extend, torn_down, requested. cbn. by rewrite <- !app_assoc.
  - rewrite (bind_run _ _ _ _ _ _ _ (stopStream_idle_PartFacing _ _ Hb)).
    unfold when, ret, PartFacing.setRequestedConstraints, set_state,
      await_getUserMedia.
    unfold bind at 1 2 3. rewrite Hgum.
    unfold extend, requested. cbn. by rewrite <- !app_assoc.
Qed.

Lemma startStream_PartFacing_ok env r s w stream :
  supportsGetUserMedia env = true ->
  getUserMedia env (PartFacing.constraints r) = inr stream ->
  exists s' rest,
    PartFacing.startStream env r s w =
    (inr tt, s',
     rebound stream
       (extend (settled w [])
          ([EvSetState "requestedConstraints";
            EvGetUserMedia (PartFacing.constraints r)] ++ rest))) /\
    Forall bookkeeping rest.
Proof.
  intros Hsup Hgum.
  unfold PartFacing.startStream. rewrite Hsup. cbn [negb].
  unfold try_catch, settled.
  destruct (bound w) as [p|] eqn:Hb.
  - rewrite (bind_run _ _ _ _ _ _ _ (stopStream_active_PartFacing _ _ _ Hb)).
    unfold when at 1. unfold await_timeout, log, PartFacing.setRequestedConstraints,
      set_state, await_getUserMedia.
    unfold bind at 1 2 3. rewrite Hgum. cbn [torn_down videoRef ended trace].
    match goal with |- context [bind ?loop _ ?s0 ?w0] =>
      destruct (after_acquisition loop stream s0 w0) as (rest & Hrun & Hrest)
    end.
    { apply quiet_for_each. intros track. apply quiet_set_state. }
    rewrite Hrun. eexists _, rest. split; [|done].
    unfold rebound, extend, torn_down. cbn. by rewrite <- !app_assoc.
  - rewrite (bind_run _ _ _ _ _ _ _ (stopStream_idle_PartFacing _ _ Hb)).
    unfold when at 1. unfold ret at 1. unfold PartFacing.setRequestedConstraints,
      set_state, await_getUserMedia.
    unfold bind at 1 2 3. rewrite Hgum. cbn [videoRef ended trace].
    match goal with |- context [bind ?loop _ ?s0 ?w0] =>
      destruct (after_acquisition loop stream s0 w0) as (rest & Hrun & Hrest)
    end.
    { apply quiet_for_each. intros track. apply quiet_set_state. }
    rewrite Hrun. eexists _, rest. split; [|done].
    unfold rebound, extend. cbn. by rewrite <- !app_assoc.
Qed.

Lemma startStream_AppCaps_throw env r s w e :
  supportsGetUserMedia env = true ->
  getUserMedia env (AppCaps.constraints r) = inl e ->
  AppCaps.startStream env r s w =
  AppCaps.on_error e s
    (extend (settled w []) [EvGetUserMedia (AppCaps.constraints r)]).
Proof.
  intros Hsup Hgum.
  unfold AppCaps.startStream. rewrite Hsup. cbn [negb].
  unfold try_catch, settled.
  destruct (bound w) as [p|] eqn:Hb.
  - rewrite (bind_run _ _ _ _ _ _ _ (stopStream_active_AppCaps _ _ _ Hb)).
    unfold when, await_timeout, log, await_getUserMedia.
    unfold bind at 1 2. rewrite Hgum.
    unfold extend, torn_down. cbn. by rewrite <- !app_assoc.
  - rewrite (bind_run _ _ _ _ _ _ _ (stopStream_idle_AppCaps _ _ Hb)).
    unfold when, ret, await_getUserMedia.
    unfold bind at 1 2. by rewrite Hgum.
Qed.

Lemma startStream_AppCaps_ok env r s w stream :
  supportsGetUserMedia env = true ->
  getUserMedia env (AppCaps.constraints r) = inr stream ->
  exists s' rest,
    AppCaps.startStream env r s w =
    (inr tt, s',
     rebound stream
       (extend (settled w [])
          ([EvGetUserMedia (AppCaps.constraints r)] ++ rest))) /\
    Forall bookkeeping rest.
Proof.
  intros Hsup Hgum.
  unfold AppCaps.startStream. rewrite Hsup. cbn [negb].
  unfold try_catch, settled.
  destruct (bound w) as [p|] eqn:Hb.
  - rewrite (bind_run _ _ _ _ _ _ _ (stopStream_active_AppCaps _ _ _ Hb)).
    unfold when at 1. unfold await_timeout, log, await_getUserMedia.
    unfold bind at 1 2. rewrite Hgum. cbn [torn_down videoRef ended trace].
    match goal with |- context [bind ?loop _ ?s0 ?w0] =>
      destruct (after_acquisition loop stream s0 w0) as (rest & Hrun & Hrest)
    end.
    { apply quiet_for_each. intros track. apply quiet_set_state. }
    rewrite Hrun. eexists _, rest. split; [|done].
    unfold rebound, extend, torn_down. cbn. by rewrite <- !app_assoc.
  - rewrite (bind_run _ _ _ _ _ _ _ (stopStream_idle_AppCaps _ _ Hb)).
    unfold when at 1. unfold ret at 1. unfold await_getUserMedia.
    unfold bind at 1 2. rewrite Hgum. cbn [videoRef ended trace].
    match goal with |- context [bind ?loop _ ?s0 ?w0] =>
      destruct (after_acquisition loop stream s0 w0) as (rest & Hrun & Hrest)
    end.
    { apply quiet_for_each. intros track. apply quiet_set_state. }
    rewrite Hrun. eexists _, rest. split; [|done].
    unfold rebound, extend. cbn. by rewrite <- !app_assoc.
Qed.

Lemma startStream_PartCustom_throw env r s w e :
  supportsGetUserMedia env = true ->
  getUserMedia env (PartCustom.buildConstraints r) = inl e ->
  PartCustom.startStream env r s w =
  PartCustom.on_error e
    (match bound w with Some _ => cleared s | None => s end)
    (extend (settled w [EvSetState "actualDeviceId"; EvSetState "deviceIdMatch"])
       [EvGetUserMedia (PartCustom.buildConstraints r)]).
Proof.
  intros Hsup Hgum.
  unfold PartCustom.startStream. rewrite Hsup. cbn [negb].
  unfold try_catch, settled.
  destruct (bound w) as [p|] eqn:Hb.
  - rewrite (bind_run _ _ _ _ _ _ _ (stopStream_active_PartCustom _ _ _ Hb)).
    unfold when, await_timeout, log, await_getUserMedia.
    unfold bind at 1 2. rewrite Hgum.
    unfold extend, torn_down. cbn. by rewrite <- !app_assoc.
  - rewrite (bind_run _ _ _ _ _ _ _ (stopStream_idle_PartCustom _ _ Hb)).
    unfold when, ret, await_getUserMedia.
    unfold bind at 1 2. by rewrite Hgum.
Qed.

Lemma startStream_PartCustom_ok env r s w stream :
  supportsGetUserMedia env = true ->
  getUserMedia env (PartCustom.buildConstraints r) = inr stream ->
  exists w0 rest,
    PartCustom.startStream env r s w =
    (inr tt,
     state_after
       (for_each (PartCustom.record_track r) (getTracks stream)
          (match bound w with Some _ => cleared s | None => s end) w0),
     rebound stream
       (extend (settled w [EvSetState "actualDeviceId"; EvSetState "deviceIdMatch"])
          ([EvGetUserMedia (PartCustom.buildConstraints r)] ++ rest))) /\
    Forall bookkeeping rest.
Proof.
  intros Hsup Hgum.
  unfold PartCustom.startStream. rewrite Hsup. cbn [negb].
  unfold try_catch, settled.
  destruct (bound w) as [p|] eqn:Hb.
  - rewrite (bind_run _ _ _ _ _ _ _ (stopStream_active_PartCustom _ _ _ Hb)).
    unfold when at 1. unfold await_timeout, log, await_getUserMedia.
    unfold bind at 1 2. rewrite Hgum. cbn [torn_down videoRef ended trace].
    match goal with |- context [bind ?loop _ ?s0 ?w0] =>
      destruct (after_acquisition loop stream s0 w0) as (rest & Hrun & Hrest);
      [|rewrite Hrun; exists w0, rest]
    end.
    { apply quiet_for_each. intros track. apply quiet_record_track. }
    split; [|done].
    unfold rebound, extend, torn_down. cbn. by rewrite <- !app_assoc.
  - rewrite (bind_run _ _ _ _ _ _ _ (stopStream_idle_PartCustom _ _ Hb)).
    unfold when at 1. unfold ret at 1. unfold await_getUserMedia.
    unfold bind at 1 2. rewrite Hgum. cbn [videoRef ended trace].
    match goal with |- context [bind ?loop _ ?s0 ?w0] =>
      destruct (after_acquisition loop stream s0 w0) as (rest & Hrun & Hrest);
      [|rewrite Hrun; exists w0, rest]
    end.
    { apply quiet_for_each. intros track. apply quiet_record_track. }
    split; [|done].
    unfold rebound, extend. cbn. by rewrite <- !app_assoc.
Qed.

(** ** Ordering of stop, settling delay and acquisition *)

Lemma restart_order_PartFacing :
  (forall (env : Platform) (r s : PartFacing.State) (w : World),
     supportsGetUserMedia env = true ->
     (forall p, bound w = Some p ->
        outcome (PartFacing.stopStream s w) = inr true /\
        exists rest,
          trace (world_after (PartFacing.startStream env r s w)) =
            trace w ++ map EvTrackStop (track_ids (provider_tracks p))
              ++ [EvSrcObject None; EvTimeout 1000;
                EvSetState "requestedConstraints";
                EvGetUserMedia (PartFacing.constraints r)]
              ++ rest /\
          Forall bookkeeping rest)
     /\
     (bound w = None ->
        outcome (PartFacing.stopStream s w) = inr false /\
        exists rest,
          trace (world_after (PartFacing.startStream env r s w)) =
            trace w
              ++ [EvSetState "requestedConstraints";
                EvGetUserMedia (PartFacing.constraints r)]
              ++ rest /\
          Forall bookkeeping rest)).
Proof.
  intros env r s w Hsup.
  destruct (getUserMedia env (PartFacing.constraints r)) as [e|stream] eqn:Hgum.
  - rewrite (startStream_PartFacing_throw _ _ _ _ _ Hsup Hgum).
    match goal with |- context [PartFacing.on_error e ?s0 ?w0] =>
      destruct (on_error_PartFacing e s0 w0) as (s' & evs & -> & Hevs)
    end.
    unfold world_after, extend, settled. cbn [snd trace].
    split; [intros p Hb|intros Hb]; rewrite Hb.
    + rewrite (stopStream_active_PartFacing _ _ _ Hb). split; [reflexivity|].
      exists evs. split; [|done]. cbn. by rewrite <- ?app_assoc.
    + rewrite (stopStream_idle_PartFacing _ _ Hb). split; [reflexivity|].
      exists evs. split; [|done]. by rewrite <- ?app_assoc.
  - destruct (startStream_PartFacing_ok _ r s w _ Hsup Hgum) as (s' & rest & -> & Hrest).
    unfold world_after, rebound, extend, settled. cbn [snd trace].
    split; [intros p Hb|intros Hb]; rewrite Hb.
    + rewrite (stopStream_active_PartFacing _ _ _ Hb). split; [reflexivity|].
      exists rest. split; [|done]. cbn. by rewrite <- ?app_assoc.
    + rewrite (stopStream_idle_PartFacing _ _ Hb). split; [reflexivity|].
      exists rest. split; [|done]. by rewrite <- ?app_assoc.
Qed.

Lemma restart_order_AppCaps :
  (forall (env : Platform) (r s : AppCaps.State) (w : World),
     supportsGetUserMedia env = true ->
     (forall p, bound w = Some p ->
        outcome (AppCaps.stopStream s w) = inr true /\
        exists rest,
          trace (world_after (AppCaps.startStream env r s w)) =
            trace w ++ map EvTrackStop (track_ids (provider_tracks p))
              ++ [EvSrcObject None; EvTimeout 1000;
                EvGetUserMedia (AppCaps.constraints r)]
              ++ rest /\
          Forall bookkeeping rest)
     /\
     (bound w = None ->
        outcome (AppCaps.stopStream s w) = inr false /\
        exists rest,
          trace (world_after (AppCaps.startStream env r s w)) =
            trace w
              ++ [EvGetUserMedia (AppCaps.constraints r)]
              ++ rest /\
          Forall bookkeeping rest)).
Proof.
  intros env r s w Hsup.
  destruct (getUserMedia env (AppCaps.constraints r)) as [e|stream] eqn:Hgum.
  - rewrite (startStream_AppCaps_throw _ _ _ _ _ Hsup Hgum).
    match goal with |- context [AppCaps.on_error e ?s0 ?w0] =>
      destruct (on_error_AppCaps e s0 w0) as (s' & evs & -> & Hevs)
    end.
    unfold world_after, extend, settled. cbn [snd trace].
    split; [intros p Hb|intros Hb]; rewrite Hb.
    + rewrite (stopStream_active_AppCaps _ _ _ Hb). split; [reflexivity|].
      exists evs. split; [|done]. cbn. by rewrite <- ?app_assoc.
    + rewrite (stopStream_idle_AppCaps _ _ Hb). split; [reflexivity|].
      exists evs. split; [|done]. by rewrite <- ?app_assoc.
  - destruct (startStream_AppCaps_ok _ r s w _ Hsup Hgum) as (s' & rest & -> & Hrest).
    unfold world_after, rebound, extend, settled. cbn [snd trace].
    split; [intros p Hb|intros Hb]; rewrite Hb.
    + rewrite (stopStream_active_AppCaps _ _ _ Hb). split; [reflexivity|].
      exists rest. split; [|done]. cbn. by rewrite <- ?app_assoc.
    + rewrite (stopStream_idle_AppCaps _ _ Hb). split; [reflexivity|].
      exists rest. split; [|done]. by rewrite <- ?app_assoc.
Qed.

Lemma restart_order_PartCustom :
  (forall (env : Platform) (r s : PartCustom.State) (w : World),
     supportsGetUserMedia env = true ->
     (forall p, bound w = Some p ->
        outcome (PartCustom.stopStream s w) = inr true /\
        exists rest,
          trace (world_after (PartCustom.startStream env r s w)) =
            trace w ++ map EvTrackStop (track_ids (provider_tracks p))
              ++ [EvSrcObject None; EvSetState "actualDeviceId";
                EvSetState "deviceIdMatch"; EvTimeout 1000;
                EvGetUserMedia (PartCustom.buildConstraints r)]
              ++ rest /\
          Forall bookkeeping rest)
     /\
     (bound w = None ->
        outcome (PartCustom.stopStream s w) = inr false /\
        exists rest,
          trace (world_after (PartCustom.startStream env r s w)) =
            trace w
              ++ [EvGetUserMedia (PartCustom.buildConstraints r)]
              ++ rest /\
          Forall bookkeeping rest)).
Proof.
  intros env r s w Hsup.
  destruct (getUserMedia env (PartCustom.buildConstraints r)) as [e|stream] eqn:Hgum.
  - rewrite (startStream_PartCustom_throw _ _ _ _ _ Hsup Hgum).
    match goal with |- context [PartCustom.on_error e ?s0 ?w0] =>
      destruct (on_error_PartCustom e s0 w0) as (s' & evs & -> & Hevs)
    end.
    unfold world_after, extend, settled. cbn [snd trace].
    split; [intros p Hb|intros Hb]; rewrite Hb.
    + rewrite (stopStream_active_PartCustom _ _ _ Hb). split; [reflexivity|].
      exists evs. split; [|done]. cbn. by rewrite <- ?app_assoc.
    + rewrite (stopStream_idle_PartCustom _ _ Hb). split; [reflexivity|].
      exists evs. split; [|done]. by rewrite <- ?app_assoc.
  - destruct (startStream_PartCustom_ok _ r s w _ Hsup Hgum) as (w0 & rest & -> & Hrest).
    unfold world_after, rebound, extend, settled. cbn [snd trace].
    split; [intros p Hb|intros Hb]; rewrite Hb.
    + rewrite (stopStream_active_PartCustom _ _ _ Hb). split; [reflexivity|].
      exists rest. split; [|done]. cbn. by rewrite <- ?app_assoc.
    + rewrite (stopStream_idle_PartCustom _ _ Hb). split; [reflexivity|].
      exists rest. split; [|done]. by rewrite <- ?app_assoc.
Qed.

(** C4. When [startStream] runs with a stream bound to the sink, its trace
    continues with the stop of every track and the unbinding of the sink
    ([stopStream] returning [true]), then the awaited one-second timeout,
    then the acquisition request, and after that only bookkeeping (state
    setters, binding the new stream). When nothing is bound, [stopStream]
    returns [false] and the run goes to the acquisition request with no
    timeout anywhere in it. Stated for the three revisions whose start
    action stops the previous session. *)
Theorem C4_stop_then_delay_then_acquire :
  (forall (env : Platform) (r s : PartFacing.State) (w : World),
     supportsGetUserMedia env = true ->
     (forall p, bound w = Some p ->
        outcome (PartFacing.stopStream s w) = inr true /\
        exists rest,
          trace (world_after (PartFacing.startStream env r s w)) =
            trace w ++ map EvTrackStop (track_ids (provider_tracks p))
              ++ [EvSrcObject None; EvTimeout 1000;
                EvSetState "requestedConstraints";
                EvGetUserMedia (PartFacing.constraints r)]
              ++ rest /\
          Forall bookkeeping rest)
     /\
     (bound w = None ->
        outcome (PartFacing.stopStream s w) = inr false /\
        exists rest,
          trace (world_after (PartFacing.startStream env r s w)) =
            trace w
              ++ [EvSetState "requestedConstraints";
                EvGetUserMedia (PartFacing.constraints r)]
              ++ rest /\
          Forall bookkeeping rest))
  /\
  (forall (env : Platform) (r s : AppCaps.State) (w : World),
     supportsGetUserMedia env = true ->
     (forall p, bound w = Some p ->
        outcome (AppCaps.stopStream s w) = inr true /\
        exists rest,
          trace (world_after (AppCaps.startStream env r s w)) =
            trace w ++ map EvTrackStop (track_ids (provider_tracks p))
              ++ [EvSrcObject None; EvTimeout 1000;
                EvGetUserMedia (AppCaps.constraints r)]
              ++ rest /\
          Forall bookkeeping rest)
     /\
     (bound w = None ->
        outcome (AppCaps.stopStream s w) = inr false /\
        exists rest,
          trace (world_after (AppCaps.startStream env r s w)) =
            trace w
              ++ [EvGetUserMedia (AppCaps.constraints r)]
              ++ rest /\
          Forall bookkeeping rest))
  /\
  (forall (env : Platform) (r s : PartCustom.State) (w : World),
     supportsGetUserMedia env = true ->
     (forall p, bound w = Some p ->
        outcome (PartCustom.stopStream s w) = inr true /\
        exists rest,
          trace (world_after (PartCustom.startStream env r s w)) =
            trace w ++ map EvTrackStop (track_ids (provider_tracks p))
              ++ [EvSrcObject None; EvSetState "actualDeviceId";
                EvSetState "deviceIdMatch"; EvTimeout 1000;
                EvGetUserMedia (PartCustom.buildConstraints r)]
              ++ rest /\
          Forall bookkeeping rest)
     /\
     (bound w = None ->
        outcome (PartCustom.stopStream s w) = inr false /\
        exists rest,
          trace (world_after (PartCustom.startStream env r s w)) =
            trace w
              ++ [EvGetUserMedia (PartCustom.buildConstraints r)]
              ++ rest /\
          Forall bookkeeping rest)).
Proof.
  split; [exact restart_order_PartFacing|].
  split; [exact restart_order_AppCaps|exact restart_order_PartCustom].
Qed.

(** C4 at a restart of [PartFacing] and of [PartCustom] with [camera_stream]
    bound, on a platform that grants the new request. *)
Lemma C4_restart_witness :
  (exists rest,
     trace (world_after (PartFacing.startStream granting PartFacing.initial
                           PartFacing.initial active_world)) =
       [ EvTrackStop 7; EvSrcObject None; EvTimeout 1000;
         EvSetState "requestedConstraints";
         EvGetUserMedia (PartFacing.constraints PartFacing.initial) ] ++ rest /\
     Forall bookkeeping rest)
  /\
  (exists rest,
     trace (world_after (PartCustom.startStream granting PartCustom.initial
                           PartCustom.initial idle_world)) =
       [ EvGetUserMedia (PartCustom.buildConstraints PartCustom.initial) ] ++ rest /\
     Forall bookkeeping rest).
Proof.
  destruct C4_stop_then_delay_then_acquire as (HC & _ & HD).
  split.
  - destruct (HC granting PartFacing.initial PartFacing.initial active_world eq_refl)
      as [Hactive _].
    destruct (Hactive (ProvStream camera_stream) eq_refl) as [_ Htrace].
    exact Htrace.
  - destruct (HD granting PartCustom.initial PartCustom.initial idle_world eq_refl)
      as [_ Hidle].
    destruct (Hidle eq_refl) as [_ Htrace].
    exact Htrace.
Defined.

(** ** Device identity *)






(** * Device discovery *)

Lemma extend_nil w : extend w [] = w.
Proof. destruct w. unfold extend. cbn. by rewrite app_nil_r. Qed.


Lemma on_error_PartFacing_run e s w :
  PartFacing.on_error e s w = (inr tt, handled_PartFacing e s, extend w (handler_events e)).
Proof. destruct e; [reflexivity|]. cbn. by rewrite extend_nil. Qed.

Lemma on_error_AppCaps_run e s w :
  AppCaps.on_error e s w = (inr tt, handled_AppCaps e s, extend w (handler_events e)).
Proof. destruct e; [reflexivity|]. cbn. by rewrite extend_nil. Qed.

Lemma on_error_PartCustom_run e s w :
  PartCustom.on_error e s w = (inr tt, handled_PartCustom e s, extend w (handler_events e)).
Proof. destruct e; [reflexivity|]. cbn. by rewrite extend_nil. Qed.

(** When every capability read returns, there is one detail entry per
    device, in order, each holding its device object. *)
Lemma detailInfos_devices (ds : list MediaDeviceInfo) (details : list DeviceDetailInfo) :
  map_throwing detailInfo ds = inr details -> map deviceInfo details = ds.
Proof.
  revert details. induction ds as [|d ds IH]; intros details; cbn.
  { by intros [= <-]. }
  unfold detailInfo at 1.
  destruct (input_capabilities d); [| |discriminate];
    (destruct (map_throwing detailInfo ds) as [e|rest]; [discriminate|]);
    intros [= <-]; cbn; by rewrite (IH rest).
Qed.

(** ** Runs of [fetchDevices], by the answers of the platform *)


Lemma fetchDevices_AppBasic_ok env s w ds :
  enumerateDevices env = inr ds ->
  AppBasic.fetchDevices env s w =
  match filter is_videoinput ds with
  | d :: _ =>
      (inr tt,
       AppBasic.with_selectedDevice (deviceId d)
         (AppBasic.with_devices (filter is_videoinput ds) s),
       extend w [EvEnumerateDevices; EvSetState "devices";
                 EvSetState "selectedDevice"])
  | [] =>
      (inr tt, AppBasic.with_devices [] s,
       extend w [EvEnumerateDevices; EvSetState "devices"])
  end.
Proof.
  intros Henum.
  unfold AppBasic.fetchDevices, try_catch, await_enumerateDevices,
    AppBasic.setDevices, AppBasic.setSelectedDevice, set_state, ret.
  unfold bind. rewrite Henum.
  destruct (filter is_videoinput ds) as [|d ds'];
    unfold extend; cbn; by rewrite <- ?app_assoc.
Qed.



Lemma fetchDevices_PartFacing_ok env s w stream ds :
  getUserMedia env video_and_audio = inr stream ->
  enumerateDevices env = inr ds ->
  PartFacing.fetchDevices env s w =
  (inr tt,
   PartFacing.with_loadingDevices false
     (PartFacing.with_audioDevices (filter is_audioinput ds)
        (PartFacing.with_videoDevices (filter is_videoinput ds)
           (PartFacing.with_loadingDevices true s))),
   released (getTracks stream) w
     ([EvSetState "loadingDevices"; EvGetUserMedia video_and_audio]
        ++ map EvTrackStop (track_ids (getTracks stream))
        ++ [EvEnumerateDevices; EvSetState "videoDevices";
            EvSetState "audioDevices"; EvSetState "loadingDevices"])).
Proof.
  intros Hgum Henum.
  unfold PartFacing.fetchDevices, try_finally, try_catch, PartFacing.setLoadingDevices, PartFacing.setVideoDevices,
    PartFacing.setAudioDevices, set_state,
    await_getUserMedia, await_enumerateDevices.
  unfold bind at 1 2. rewrite Hgum.
  rewrite (bind_run _ _ _ _ _ _ _ (for_each_track_stop _ _ _)).
  unfold bind. rewrite Henum.
  unfold released. cbn. by rewrite <- ?app_assoc.
Qed.


Lemma fetchDevices_AppCaps_enumeration_fails env s w stream e :
  getUserMedia env video_and_audio = inr stream ->
  enumerateDevices env = inl e ->
  AppCaps.fetchDevices env s w =
  (inr tt,
   AppCaps.with_loadingDevices false
     (handled_AppCaps e (AppCaps.with_loadingDevices true s)),
   extend w
     ([EvSetState "loadingDevices"; EvGetUserMedia video_and_audio;
       EvEnumerateDevices] ++ handler_events e
        ++ [EvSetState "loadingDevices"])).
Proof.
  intros Hgum Henum.
  unfold AppCaps.fetchDevices, try_finally, try_catch, AppCaps.setLoadingDevices, AppCaps.setDeviceDetails,
    AppCaps.setVideoDevices, AppCaps.setAudioDevices, set_state,
    await_getUserMedia, await_enumerateDevices.
  unfold bind. rewrite Hgum, Henum. rewrite on_error_AppCaps_run.
  unfold extend. cbn. by rewrite <- ?app_assoc.
Qed.

Lemma fetchDevices_AppCaps_read_fails env s w stream ds e :
  getUserMedia env video_and_audio = inr stream ->
  enumerateDevices env = inr ds ->
  map_throwing detailInfo ds = inl e ->
  AppCaps.fetchDevices env s w =
  (inr tt,
   AppCaps.with_loadingDevices false
     (handled_AppCaps e (AppCaps.with_loadingDevices true s)),
   extend w
     ([EvSetState "loadingDevices"; EvGetUserMedia video_and_audio;
       EvEnumerateDevices] ++ handler_events e
        ++ [EvSetState "loadingDevices"])).
Proof.
  intros Hgum Henum Hread.
  unfold AppCaps.fetchDevices, try_finally, try_catch, AppCaps.setLoadingDevices, AppCaps.setDeviceDetails,
    AppCaps.setVideoDevices, AppCaps.setAudioDevices, set_state,
    await_getUserMedia, await_enumerateDevices, evaluate.
  unfold bind. rewrite Hgum, Henum, Hread. rewrite on_error_AppCaps_run.
  unfold extend. cbn. by rewrite <- ?app_assoc.
Qed.

Lemma fetchDevices_AppCaps_ok env s w stream ds details :
  getUserMedia env video_and_audio = inr stream ->
  enumerateDevices env = inr ds ->
  map_throwing detailInfo ds = inr details ->
  AppCaps.fetchDevices env s w =
  (inr tt,
   AppCaps.with_loadingDevices false
     (AppCaps.with_audioDevices (filter is_audioinput ds)
        (AppCaps.with_videoDevices (filter is_videoinput ds)
           (AppCaps.with_deviceDetails details
              (AppCaps.with_loadingDevices true s)))),
   released (getTracks stream) w
     ([EvSetState "loadingDevices"; EvGetUserMedia video_and_audio;
       EvEnumerateDevices]
        ++ map EvTrackStop (track_ids (getTracks stream))
        ++ [EvSetState "deviceDetails"; EvSetState "videoDevices";
            EvSetState "audioDevices"; EvSetState "loadingDevices"])).
Proof.
  intros Hgum Henum Hread.
  unfold AppCaps.fetchDevices, try_finally, try_catch, AppCaps.setLoadingDevices, AppCaps.setDeviceDetails,
    AppCaps.setVideoDevices, AppCaps.setAudioDevices, set_state,
    await_getUserMedia, await_enumerateDevices, evaluate.
  unfold bind at 1 2 3 4. rewrite Hgum, Henum, Hread.
  rewrite (bind_run _ _ _ _ _ _ _ (for_each_track_stop _ _ _)).
  unfold bind. unfold released. cbn. by rewrite <- ?app_assoc.
Qed.


Lemma fetchDevices_PartCustom_enumeration_fails env s w stream e :
  getUserMedia env video_and_audio = inr stream ->
  enumerateDevices env = inl e ->
  PartCustom.fetchDevices env s w =
  (inr tt,
   PartCustom.with_loadingDevices false
     (handled_PartCustom e (PartCustom.with_loadingDevices true s)),
   extend w
     ([EvSetState "loadingDevices"; EvGetUserMedia video_and_audio;
       EvEnumerateDevices] ++ handler_events e
        ++ [EvSetState "loadingDevices"])).
Proof.
  intros Hgum Henum.
  unfold PartCustom.fetchDevices, try_finally, try_catch, PartCustom.setLoadingDevices, PartCustom.setDeviceDetails,
    PartCustom.setVideoDevices, PartCustom.setAudioDevices, set_state,
    await_getUserMedia, await_enumerateDevices.
  unfold bind. rewrite Hgum, Henum. rewrite on_error_PartCustom_run.
  unfold extend. cbn. by rewrite <- ?app_assoc.
Qed.

Lemma fetchDevices_PartCustom_read_fails env s w stream ds e :
  getUserMedia env video_and_audio = inr stream ->
  enumerateDevices env = inr ds ->
  map_throwing detailInfo ds = inl e ->
  PartCustom.fetchDevices env s w =
  (inr tt,
   PartCustom.with_loadingDevices false
     (handled_PartCustom e (PartCustom.with_loadingDevices true s)),
   extend w
     ([EvSetState "loadingDevices"; EvGetUserMedia video_and_audio;
       EvEnumerateDevices] ++ handler_events e
        ++ [EvSetState "loadingDevices"])).
Proof.
  intros Hgum Henum Hread.
  unfold PartCustom.fetchDevices, try_finally, try_catch, PartCustom.setLoadingDevices, PartCustom.setDeviceDetails,
    PartCustom.setVideoDevices, PartCustom.setAudioDevices, set_state,
    await_getUserMedia, await_enumerateDevices, evaluate.
  unfold bind. rewrite Hgum, Henum, Hread. rewrite on_error_PartCustom_run.
  unfold extend. cbn. by rewrite <- ?app_assoc.
Qed.

Lemma fetchDevices_PartCustom_ok env s w stream ds details :
  getUserMedia env video_and_audio = inr stream ->
  enumerateDevices env = inr ds ->
  map_throwing detailInfo ds = inr details ->
  PartCustom.fetchDevices env s w =
  (inr tt,
   PartCustom.with_loadingDevices false
     (PartCustom.with_audioDevices (filter is_audioinput ds)
        (PartCustom.with_videoDevices (filter is_videoinput ds)
           (PartCustom.with_deviceDetails details
              (PartCustom.with_loadingDevices true s)))),
   released (getTracks stream) w
     ([EvSetState "loadingDevices"; EvGetUserMedia video_and_audio;
       EvEnumerateDevices]
        ++ map EvTrackStop (track_ids (getTracks stream))
        ++ [EvSetState "deviceDetails"; EvSetState "videoDevices";
            EvSetState "audioDevices"; EvSetState "loadingDevices"])).
Proof.
  intros Hgum Henum Hread.
  unfold PartCustom.fetchDevices, try_finally, try_catch, PartCustom.setLoadingDevices, PartCustom.setDeviceDetails,
    PartCustom.setVideoDevices, PartCustom.setAudioDevices, set_state,
    await_getUserMedia, await_enumerateDevices, evaluate.
  unfold bind at 1 2 3 4. rewrite Hgum, Henum, Hread.
  rewrite (bind_run _ _ _ _ _ _ _ (for_each_track_stop _ _ _)).
  unfold bind. unfold released. cbn. by rewrite <- ?app_assoc.
Qed.

(** ** Release of the permission stream *)















(** ** Failures *)

















(** * Further properties of the handlers *)

(** ** Discovery *)

(** X1. A discovery run that succeeds publishes the enumerated devices
    split by kind: the video list holds exactly the video inputs, the audio
    list exactly the audio inputs (a device of another kind is in neither),
    the loading flag is off, and an error shown earlier is not cleared. In
    the two later revisions a run succeeds when, besides the two awaited
    calls, the capability read of every device returns; it then records the
    detail entries read, one per enumerated device and in their order. *)
Theorem X1_discovery_partitions_devices :
  (forall (env : Platform) (s : PartFacing.State) (w : World)
          (stream : MediaStream) (ds : list MediaDeviceInfo),
     getUserMedia env video_and_audio = inr stream ->
     enumerateDevices env = inr ds ->
     (forall d, d ∈ PartFacing.videoDevices (state_after (PartFacing.fetchDevices env s w)) <->
                d ∈ ds /\ device_kind d = "videoinput") /\
     (forall d, d ∈ PartFacing.audioDevices (state_after (PartFacing.fetchDevices env s w)) <->
                d ∈ ds /\ device_kind d = "audioinput") /\
     PartFacing.loadingDevices (state_after (PartFacing.fetchDevices env s w)) = false /\
     PartFacing.error (state_after (PartFacing.fetchDevices env s w)) = PartFacing.error s)
  /\
  (forall (env : Platform) (s : AppCaps.State) (w : World)
          (stream : MediaStream) (ds : list MediaDeviceInfo) (details : list DeviceDetailInfo),
     getUserMedia env video_and_audio = inr stream ->
     enumerateDevices env = inr ds ->
     map_throwing detailInfo ds = inr details ->
     (forall d, d ∈ AppCaps.videoDevices (state_after (AppCaps.fetchDevices env s w)) <->
                d ∈ ds /\ device_kind d = "videoinput") /\
     (forall d, d ∈ AppCaps.audioDevices (state_after (AppCaps.fetchDevices env s w)) <->
                d ∈ ds /\ device_kind d = "audioinput") /\
     AppCaps.loadingDevices (state_after (AppCaps.fetchDevices env s w)) = false /\
     AppCaps.error (state_after (AppCaps.fetchDevices env s w)) = AppCaps.error s /\
     AppCaps.deviceDetails (state_after (AppCaps.fetchDevices env s w)) = details /\
     map deviceInfo details = ds)
  /\
  (forall (env : Platform) (s : PartCustom.State) (w : World)
          (stream : MediaStream) (ds : list MediaDeviceInfo) (details : list DeviceDetailInfo),
     getUserMedia env video_and_audio = inr stream ->
     enumerateDevices env = inr ds ->
     map_throwing detailInfo ds = inr details ->
     (forall d, d ∈ PartCustom.videoDevices (state_after (PartCustom.fetchDevices env s w)) <->
                d ∈ ds /\ device_kind d = "videoinput") /\
     (forall d, d ∈ PartCustom.audioDevices (state_after (PartCustom.fetchDevices env s w)) <->
                d ∈ ds /\ device_kind d = "audioinput") /\
     PartCustom.loadingDevices (state_after (PartCustom.fetchDevices env s w)) = false /\
     PartCustom.error (state_after (PartCustom.fetchDevices env s w)) = PartCustom.error s /\
     PartCustom.deviceDetails (state_after (PartCustom.fetchDevices env s w)) = details /\
     map deviceInfo details = ds).
Proof.
  split; [|split].
  - intros env s w stream ds Hgum Henum.
    rewrite (fetchDevices_PartFacing_ok _ _ _ _ _ Hgum Henum).
    unfold state_after. cbn [fst snd].
    split; [intros d; cbn; rewrite list_elem_of_filter;
            unfold is_videoinput, is_audioinput; tauto|].
    split; [intros d; cbn; rewrite list_elem_of_filter;
            unfold is_videoinput, is_audioinput; tauto|].
    split; [reflexivity|].
    reflexivity.
  - intros env s w stream ds details Hgum Henum Hread.
    rewrite (fetchDevices_AppCaps_ok _ _ _ _ _ _ Hgum Henum Hread).
    unfold state_after. cbn [fst snd].
    split; [intros d; cbn; rewrite list_elem_of_filter;
            unfold is_videoinput, is_audioinput; tauto|].
    split; [intros d; cbn; rewrite list_elem_of_filter;
            unfold is_videoinput, is_audioinput; tauto|].
    split; [reflexivity|].
    split; [reflexivity|].
    split; [reflexivity|]. by apply detailInfos_devices.
  - intros env s w stream ds details Hgum Henum Hread.
    rewrite (fetchDevices_PartCustom_ok _ _ _ _ _ _ Hgum Henum Hread).
    unfold state_after. cbn [fst snd].
    split; [intros d; cbn; rewrite list_elem_of_filter;
            unfold is_videoinput, is_audioinput; tauto|].
    split; [intros d; cbn; rewrite list_elem_of_filter;
            unfold is_videoinput, is_audioinput; tauto|].
    split; [reflexivity|].
    split; [reflexivity|].
    split; [reflexivity|]. by apply detailInfos_devices.
Qed.

(** X1 on the platform that lists a speaker, a camera and a microphone. *)
Lemma X1_discovery_witness :
  PartFacing.videoDevices
    (state_after (PartFacing.fetchDevices listing PartFacing.initial idle_world))
    = [cam1_info] /\
  (speaker_info ∈ AppCaps.audioDevices
     (state_after (AppCaps.fetchDevices listing AppCaps.initial idle_world))
   <-> speaker_info ∈ [speaker_info; cam1_info; mic1_info] /\
       device_kind speaker_info = "audioinput") /\
  AppCaps.deviceDetails
    (state_after (AppCaps.fetchDevices listing AppCaps.initial idle_world))
    = [ speaker_detail; cam1_detail;
        {| deviceInfo := mic1_info;
           capabilities := Some (JObj [("deviceId", JStr "mic1")]) |} ].
Proof.
  destruct X1_discovery_partitions_devices as (HC & HB & _).
  split; [reflexivity|].
  destruct (HB listing AppCaps.initial idle_world camera_stream
              [speaker_info; cam1_info; mic1_info]
              [ speaker_detail; cam1_detail;
                {| deviceInfo := mic1_info;
                   capabilities := Some (JObj [("deviceId", JStr "mic1")]) |} ]
              eq_refl eq_refl eq_refl)
    as (_ & Haudio & _ & _ & Hdetails & _).
  split; [apply Haudio|apply Hdetails].
Defined.

(** X2. [fetchDevicesOnce] short-circuits on the published video list:
    once a discovery has found at least one video input, it does nothing
    (no platform call, state and world as they were). When the discovery
    found no video input (say only microphones) it runs the whole discovery
    again, permission grab included. In the two later revisions a discovery
    interrupted by a throw of the enumeration or of a capability read has
    published nothing, so with no video input known before it the whole
    discovery is run again as well, cameras present or not. *)
Theorem X2_discover_once_short_circuits :
  (forall (env : Platform) (s : PartFacing.State) (w : World)
          (stream : MediaStream) (ds : list MediaDeviceInfo),
     getUserMedia env video_and_audio = inr stream ->
     enumerateDevices env = inr ds ->
     ((exists d, d ∈ ds /\ device_kind d = "videoinput") ->
      PartFacing.fetchDevicesOnce env
        (state_after (PartFacing.fetchDevices env s w))
        (state_after (PartFacing.fetchDevices env s w))
        (world_after (PartFacing.fetchDevices env s w)) =
      (inr tt, state_after (PartFacing.fetchDevices env s w),
               world_after (PartFacing.fetchDevices env s w))) /\
     ((forall d, d ∈ ds -> device_kind d <> "videoinput") ->
      PartFacing.fetchDevicesOnce env
        (state_after (PartFacing.fetchDevices env s w))
        (state_after (PartFacing.fetchDevices env s w))
        (world_after (PartFacing.fetchDevices env s w)) =
      PartFacing.fetchDevices env
        (state_after (PartFacing.fetchDevices env s w))
        (world_after (PartFacing.fetchDevices env s w))))
  /\
  (forall (env : Platform) (s : AppCaps.State) (w : World) (stream : MediaStream),
     getUserMedia env video_and_audio = inr stream ->
     (forall (ds : list MediaDeviceInfo) (details : list DeviceDetailInfo),
        enumerateDevices env = inr ds ->
        map_throwing detailInfo ds = inr details ->
        ((exists d, d ∈ ds /\ device_kind d = "videoinput") ->
      AppCaps.fetchDevicesOnce env
        (state_after (AppCaps.fetchDevices env s w))
        (state_after (AppCaps.fetchDevices env s w))
        (world_after (AppCaps.fetchDevices env s w)) =
      (inr tt, state_after (AppCaps.fetchDevices env s w),
               world_after (AppCaps.fetchDevices env s w))) /\
     ((forall d, d ∈ ds -> device_kind d <> "videoinput") ->
      AppCaps.fetchDevicesOnce env
        (state_after (AppCaps.fetchDevices env s w))
        (state_after (AppCaps.fetchDevices env s w))
        (world_after (AppCaps.fetchDevices env s w)) =
      AppCaps.fetchDevices env
        (state_after (AppCaps.fetchDevices env s w))
        (world_after (AppCaps.fetchDevices env s w)))) /\
     (forall e : Thrown,
        interrupted env e ->
        AppCaps.videoDevices s = [] ->
      AppCaps.fetchDevicesOnce env
        (state_after (AppCaps.fetchDevices env s w))
        (state_after (AppCaps.fetchDevices env s w))
        (world_after (AppCaps.fetchDevices env s w)) =
      AppCaps.fetchDevices env
        (state_after (AppCaps.fetchDevices env s w))
        (world_after (AppCaps.fetchDevices env s w))))
  /\
  (forall (env : Platform) (s : PartCustom.State) (w : World) (stream : MediaStream),
     getUserMedia env video_and_audio = inr stream ->
     (forall (ds : list MediaDeviceInfo) (details : list DeviceDetailInfo),
        enumerateDevices env = inr ds ->
        map_throwing detailInfo ds = inr details ->
        ((exists d, d ∈ ds /\ device_kind d = "videoinput") ->
      PartCustom.fetchDevicesOnce env
        (state_after (PartCustom.fetchDevices env s w))
        (state_after (PartCustom.fetchDevices env s w))
        (world_after (PartCustom.fetchDevices env s w)) =
      (inr tt, state_after (PartCustom.fetchDevices env s w),
               world_after (PartCustom.fetchDevices env s w))) /\
     ((forall d, d ∈ ds -> device_kind d <> "videoinput") ->
      PartCustom.fetchDevicesOnce env
        (state_after (PartCustom.fetchDevices env s w))
        (state_after (PartCustom.fetchDevices env s w))
        (world_after (PartCustom.fetchDevices env s w)) =
      PartCustom.fetchDevices env
        (state_after (PartCustom.fetchDevices env s w))
        (world_after (PartCustom.fetchDevices env s w)))) /\
     (forall e : Thrown,
        interrupted env e ->
        PartCustom.videoDevices s = [] ->
      PartCustom.fetchDevicesOnce env
        (state_after (PartCustom.fetchDevices env s w))
        (state_after (PartCustom.fetchDevices env s w))
        (world_after (PartCustom.fetchDevices env s w)) =
      PartCustom.fetchDevices env
        (state_after (PartCustom.fetchDevices env s w))
        (world_after (PartCustom.fetchDevices env s w)))).
Proof.
  split; [|split].
  - intros env s w stream ds Hgum Henum.
    rewrite (fetchDevices_PartFacing_ok _ _ _ _ _ Hgum Henum).
    unfold state_after, world_after, PartFacing.fetchDevicesOnce. cbn [fst snd].
    cbn [PartFacing.videoDevices PartFacing.with_loadingDevices PartFacing.with_audioDevices
         PartFacing.with_videoDevices].
    split.
    + intros (d & Hd & Hkind).
      rewrite bool_decide_false; [reflexivity|].
      intros Hnil. assert (Hin : d ∈ filter is_videoinput ds)
        by (apply list_elem_of_filter; done).
      rewrite Hnil in Hin. by apply elem_of_nil in Hin.
    + intros Hnone.
      rewrite bool_decide_true; [reflexivity|].
      destruct (filter is_videoinput ds) as [|d rest] eqn:Hf; [done|].
      assert (Hin : d ∈ filter is_videoinput ds) by (rewrite Hf; left).
      apply list_elem_of_filter in Hin as [Hkind Hd].
      destruct (Hnone d Hd Hkind).
  - intros env s w stream Hgum. split.
    + intros ds details Henum Hread.
      rewrite (fetchDevices_AppCaps_ok _ _ _ _ _ _ Hgum Henum Hread).
      unfold state_after, world_after, AppCaps.fetchDevicesOnce. cbn [fst snd].
      cbn [AppCaps.videoDevices AppCaps.with_loadingDevices AppCaps.with_audioDevices
           AppCaps.with_videoDevices].
      split.
      * intros (d & Hd & Hkind).
        rewrite bool_decide_false; [reflexivity|].
        intros Hnil. assert (Hin : d ∈ filter is_videoinput ds)
          by (apply list_elem_of_filter; done).
        rewrite Hnil in Hin. by apply elem_of_nil in Hin.
      * intros Hnone.
        rewrite bool_decide_true; [reflexivity|].
        destruct (filter is_videoinput ds) as [|d rest] eqn:Hf; [done|].
        assert (Hin : d ∈ filter is_videoinput ds) by (rewrite Hf; left).
        apply list_elem_of_filter in Hin as [Hkind Hd].
        destruct (Hnone d Hd Hkind).
    + intros e Hint Hnone.
      assert (Hkept : AppCaps.videoDevices (state_after (AppCaps.fetchDevices env s w)) = []).
      { destruct Hint as [Henum|(ds & Henum & Hread)].
        - rewrite (fetchDevices_AppCaps_enumeration_fails _ _ _ _ _ Hgum Henum).
          by destruct e.
        - rewrite (fetchDevices_AppCaps_read_fails _ _ _ _ _ _ Hgum Henum Hread).
          by destruct e. }
      unfold AppCaps.fetchDevicesOnce. rewrite Hkept.
      by rewrite bool_decide_true.
  - intros env s w stream Hgum. split.
    + intros ds details Henum Hread.
      rewrite (fetchDevices_PartCustom_ok _ _ _ _ _ _ Hgum Henum Hread).
      unfold state_after, world_after, PartCustom.fetchDevicesOnce. cbn [fst snd].
      cbn [PartCustom.videoDevices PartCustom.with_loadingDevices PartCustom.with_audioDevices
           PartCustom.with_videoDevices].
      split.
      * intros (d & Hd & Hkind).
        rewrite bool_decide_false; [reflexivity|].
        intros Hnil. assert (Hin : d ∈ filter is_videoinput ds)
          by (apply list_elem_of_filter; done).
        rewrite Hnil in Hin. by apply elem_of_nil in Hin.
      * intros Hnone.
        rewrite bool_decide_true; [reflexivity|].
        destruct (filter is_videoinput ds) as [|d rest] eqn:Hf; [done|].
        assert (Hin : d ∈ filter is_videoinput ds) by (rewrite Hf; left).
        apply list_elem_of_filter in Hin as [Hkind Hd].
        destruct (Hnone d Hd Hkind).
    + intros e Hint Hnone.
      assert (Hkept : PartCustom.videoDevices (state_after (PartCustom.fetchDevices env s w)) = []).
      { destruct Hint as [Henum|(ds & Henum & Hread)].
        - rewrite (fetchDevices_PartCustom_enumeration_fails _ _ _ _ _ Hgum Henum).
          by destruct e.
        - rewrite (fetchDevices_PartCustom_read_fails _ _ _ _ _ _ Hgum Henum Hread).
          by destruct e. }
      unfold PartCustom.fetchDevicesOnce. rewrite Hkept.
      by rewrite bool_decide_true.
Qed.

(** X2 on the platform that lists a camera, and on the one whose camera
    cannot be read. *)
Lemma X2_discover_once_witness :
  AppCaps.fetchDevicesOnce listing
    (state_after (AppCaps.fetchDevices listing AppCaps.initial idle_world))
    (state_after (AppCaps.fetchDevices listing AppCaps.initial idle_world))
    (world_after (AppCaps.fetchDevices listing AppCaps.initial idle_world)) =
  (inr tt,
   state_after (AppCaps.fetchDevices listing AppCaps.initial idle_world),
   world_after (AppCaps.fetchDevices listing AppCaps.initial idle_world)) /\
  AppCaps.fetchDevicesOnce unreadable
    (state_after (AppCaps.fetchDevices unreadable AppCaps.initial idle_world))
    (state_after (AppCaps.fetchDevices unreadable AppCaps.initial idle_world))
    (world_after (AppCaps.fetchDevices unreadable AppCaps.initial idle_world)) =
  AppCaps.fetchDevices unreadable
    (state_after (AppCaps.fetchDevices unreadable AppCaps.initial idle_world))
    (world_after (AppCaps.fetchDevices unreadable AppCaps.initial idle_world)).
Proof.
  destruct X2_discover_once_short_circuits as (_ & HB & _).
  split.
  - destruct (HB listing AppCaps.initial idle_world camera_stream eq_refl)
      as [Hok _].
    destruct (Hok [speaker_info; cam1_info; mic1_info]
                [ speaker_detail; cam1_detail;
                  {| deviceInfo := mic1_info;
                     capabilities := Some (JObj [("deviceId", JStr "mic1")]) |} ]
                eq_refl eq_refl) as [Hfound _].
    apply Hfound. exists cam1_info. split; [|reflexivity].
    apply list_elem_of_further, list_elem_of_here.
  - destruct (HB unreadable AppCaps.initial idle_world camera_stream eq_refl)
      as [_ Hfail].
    apply (Hfail (ErrorInstance "InputDeviceInfo is not defined")); [|reflexivity].
    right. exists [unreadable_info]. split; reflexivity.
Defined.

(** X3. In the two revisions that record device details, a discovery whose
    permission grab succeeds and whose enumeration is rejected stops no
    track: the run goes from the enumeration to the handler and the stream
    of the grab is left running. *)
Theorem X3_failed_enumeration_keeps_stream_running :
  (forall (env : Platform) (s : AppCaps.State) (w : World)
          (stream : MediaStream) (e : Thrown),
     getUserMedia env video_and_audio = inr stream ->
     enumerateDevices env = inl e ->
     ended (world_after (AppCaps.fetchDevices env s w)) = ended w /\
     trace (world_after (AppCaps.fetchDevices env s w)) =
       trace w ++ [EvSetState "loadingDevices"; EvGetUserMedia video_and_audio;
                   EvEnumerateDevices]
               ++ handler_events e ++ [EvSetState "loadingDevices"])
  /\
  (forall (env : Platform) (s : PartCustom.State) (w : World)
          (stream : MediaStream) (e : Thrown),
     getUserMedia env video_and_audio = inr stream ->
     enumerateDevices env = inl e ->
     ended (world_after (PartCustom.fetchDevices env s w)) = ended w /\
     trace (world_after (PartCustom.fetchDevices env s w)) =
       trace w ++ [EvSetState "loadingDevices"; EvGetUserMedia video_and_audio;
                   EvEnumerateDevices]
               ++ handler_events e ++ [EvSetState "loadingDevices"]).
Proof.
  split.
  - intros env s w stream e Hgum Henum.
    by rewrite (fetchDevices_AppCaps_enumeration_fails _ _ _ _ _ Hgum Henum).
  - intros env s w stream e Hgum Henum.
    by rewrite (fetchDevices_PartCustom_enumeration_fails _ _ _ _ _ Hgum Henum).
Qed.

(** X3 on the platform whose enumeration fails: track 7 is still live. *)
Lemma X3_failed_enumeration_witness :
  ended (world_after (AppCaps.fetchDevices failing_enumeration
                        AppCaps.initial idle_world)) = ended idle_world /\
  ended (world_after (PartCustom.fetchDevices failing_enumeration
                        PartCustom.initial idle_world)) = ended idle_world.
Proof.
  destruct X3_failed_enumeration_keeps_stream_running as (HB & HD).
  split.
  - apply (HB failing_enumeration AppCaps.initial idle_world camera_stream
             (ErrorInstance "enumeration failed") eq_refl eq_refl).
  - apply (HD failing_enumeration PartCustom.initial idle_world camera_stream
             (ErrorInstance "enumeration failed") eq_refl eq_refl).
Defined.

(** The reads stop at the first device whose read throws. *)
Lemma detailInfos_first_throw (before rest : list MediaDeviceInfo)
    (d : MediaDeviceInfo) (e : Thrown) :
  (forall d' e', d' ∈ before -> input_capabilities d' <> ReadThrows e') ->
  input_capabilities d = ReadThrows e ->
  map_throwing detailInfo (before ++ d :: rest) = inl e.
Proof.
  intros Hbefore Hd. induction before as [|b before IH]; cbn.
  - unfold detailInfo. by rewrite Hd.
  - rewrite IH by (intros d' e' Hin; apply Hbefore; by right).
    unfold detailInfo.
    destruct (input_capabilities b) as [|c|e'] eqn:Hb; [done|done|].
    destruct (Hbefore b e'); [by left|done].
Qed.

(** X21. In the two revisions that record device details the capabilities
    of the enumerated devices are read inside the [try]. When the read of a
    device throws (on a platform without [InputDeviceInfo] the first read
    does), the run is handled as a failed discovery: a thrown [Error] gives
    the error message, the device lists and details stay as they were, the
    loading flag is off, and no track of the permission stream is stopped,
    so the stream of the grab is left running. *)
Theorem X21_failed_capability_read_publishes_nothing :
  (forall (env : Platform) (s : AppCaps.State) (w : World) (stream : MediaStream)
          (before rest : list MediaDeviceInfo) (d : MediaDeviceInfo) (e : Thrown),
     getUserMedia env video_and_audio = inr stream ->
     enumerateDevices env = inr (before ++ d :: rest) ->
     (forall d' e', d' ∈ before -> input_capabilities d' <> ReadThrows e') ->
     input_capabilities d = ReadThrows e ->
     outcome (AppCaps.fetchDevices env s w) = inr tt /\
     AppCaps.videoDevices (state_after (AppCaps.fetchDevices env s w))
       = AppCaps.videoDevices s /\
     AppCaps.audioDevices (state_after (AppCaps.fetchDevices env s w))
       = AppCaps.audioDevices s /\
     AppCaps.deviceDetails (state_after (AppCaps.fetchDevices env s w))
       = AppCaps.deviceDetails s /\
     AppCaps.loadingDevices (state_after (AppCaps.fetchDevices env s w)) = false /\
     AppCaps.error (state_after (AppCaps.fetchDevices env s w))
       = match e with
         | ErrorInstance message => message
         | NonError _ => AppCaps.error s
         end /\
     ended (world_after (AppCaps.fetchDevices env s w)) = ended w /\
     trace (world_after (AppCaps.fetchDevices env s w)) =
       trace w ++ [EvSetState "loadingDevices"; EvGetUserMedia video_and_audio;
                   EvEnumerateDevices]
               ++ handler_events e ++ [EvSetState "loadingDevices"])
  /\
  (forall (env : Platform) (s : PartCustom.State) (w : World) (stream : MediaStream)
          (before rest : list MediaDeviceInfo) (d : MediaDeviceInfo) (e : Thrown),
     getUserMedia env video_and_audio = inr stream ->
     enumerateDevices env = inr (before ++ d :: rest) ->
     (forall d' e', d' ∈ before -> input_capabilities d' <> ReadThrows e') ->
     input_capabilities d = ReadThrows e ->
     outcome (PartCustom.fetchDevices env s w) = inr tt /\
     PartCustom.videoDevices (state_after (PartCustom.fetchDevices env s w))
       = PartCustom.videoDevices s /\
     PartCustom.audioDevices (state_after (PartCustom.fetchDevices env s w))
       = PartCustom.audioDevices s /\
     PartCustom.deviceDetails (state_after (PartCustom.fetchDevices env s w))
       = PartCustom.deviceDetails s /\
     PartCustom.loadingDevices (state_after (PartCustom.fetchDevices env s w)) = false /\
     PartCustom.error (state_after (PartCustom.fetchDevices env s w))
       = match e with
         | ErrorInstance message => message
         | NonError _ => PartCustom.error s
         end /\
     ended (world_after (PartCustom.fetchDevices env s w)) = ended w /\
     trace (world_after (PartCustom.fetchDevices env s w)) =
       trace w ++ [EvSetState "loadingDevices"; EvGetUserMedia video_and_audio;
                   EvEnumerateDevices]
               ++ handler_events e ++ [EvSetState "loadingDevices"]).
Proof.
  split.
  - intros env s w stream before rest d e Hgum Henum Hbefore Hd.
    rewrite (fetchDevices_AppCaps_read_fails _ _ _ _ _ _ Hgum Henum
               (detailInfos_first_throw _ _ _ _ Hbefore Hd)).
    by destruct e.
  - intros env s w stream before rest d e Hgum Henum Hbefore Hd.
    rewrite (fetchDevices_PartCustom_read_fails _ _ _ _ _ _ Hgum Henum
               (detailInfos_first_throw _ _ _ _ Hbefore Hd)).
    by destruct e.
Qed.

(** X21 on the platform whose camera cannot be read: the message of the
    [ReferenceError] is shown and track 7 is still live. *)
Lemma X21_failed_capability_read_witness :
  AppCaps.error (state_after (AppCaps.fetchDevices unreadable AppCaps.initial idle_world))
    = "InputDeviceInfo is not defined" /\
  ended (world_after (PartCustom.fetchDevices unreadable PartCustom.initial idle_world))
    = ended idle_world.
Proof.
  destruct X21_failed_capability_read_publishes_nothing as (HB & HD).
  assert (Hnone : forall (d' : MediaDeviceInfo) (e' : Thrown),
            d' ∈ [] -> input_capabilities d' <> ReadThrows e').
  { intros d' e' Hin. by apply elem_of_nil in Hin. }
  split.
  - destruct (HB unreadable AppCaps.initial idle_world camera_stream [] []
                unreadable_info (ErrorInstance "InputDeviceInfo is not defined")
                eq_refl eq_refl Hnone eq_refl) as (_ & _ & _ & _ & _ & Herr & _).
    exact Herr.
  - destruct (HD unreadable PartCustom.initial idle_world camera_stream [] []
                unreadable_info (ErrorInstance "InputDeviceInfo is not defined")
                eq_refl eq_refl Hnone eq_refl) as (_ & _ & _ & _ & _ & _ & Hended & _).
    exact Hended.
Defined.

(** X4. The discovery of the first revision asks for no permission: it
    only enumerates. On success the device list holds exactly the video
    inputs in enumeration order, and the first of them becomes the selected
    device; with no video input the selection is left as it was. *)
Theorem X4_first_camera_is_selected
    (env : Platform) (s : AppBasic.State) (w : World) (ds : list MediaDeviceInfo) :
  enumerateDevices env = inr ds ->
  AppBasic.devices (state_after (AppBasic.fetchDevices env s w))
    = filter is_videoinput ds /\
  AppBasic.selectedDevice (state_after (AppBasic.fetchDevices env s w))
    = match filter is_videoinput ds with
      | d :: _ => deviceId d
      | [] => AppBasic.selectedDevice s
      end /\
  trace (world_after (AppBasic.fetchDevices env s w))
    = trace w ++ [EvEnumerateDevices; EvSetState "devices"]
              ++ match filter is_videoinput ds with
                 | _ :: _ => [EvSetState "selectedDevice"]
                 | [] => []
                 end.
Proof.
  intros Henum. rewrite (fetchDevices_AppBasic_ok _ _ _ _ Henum).
  destruct (filter is_videoinput ds) as [|d rest] eqn:Hf; cbn; by rewrite ?Hf.
Qed.

Lemma X4_first_camera_witness :
  AppBasic.selectedDevice
    (state_after (AppBasic.fetchDevices listing AppBasic.initial idle_world))
    = "cam1".
Proof.
  apply (X4_first_camera_is_selected listing AppBasic.initial idle_world
           [speaker_info; cam1_info; mic1_info] eq_refl).
Defined.

(** ** Start and stop *)








Lemma state_after_run {S A} (o : Thrown + A) (s : S) (w : World) :
  state_after (o, s, w) = s.
Proof. reflexivity. Qed.

Lemma world_after_run {S A} (o : Thrown + A) (s : S) (w : World) :
  world_after (o, s, w) = w.
Proof. reflexivity. Qed.

Lemma bound_settled w more : bound (settled w more) = None.
Proof.
  unfold settled. destruct (bound w) as [p|] eqn:Hb; [apply bound_torn_down|done].
Qed.

Lemma ended_settled w more p t :
  bound w = Some p -> t ∈ provider_tracks p -> track_id t ∈ ended (settled w more).
Proof. unfold settled. intros -> Ht. by apply ended_torn_down. Qed.



(** X5. The start action of the first revision does not stop what is
    bound: a successful start on a mounted sink issues the request at once
    (no stop, no delay), binds the new stream over the old one and stops no
    track, so the tracks of the stream bound before keep running. *)
Theorem X5_first_revision_restart_stops_nothing
    (env : Platform) (r s : AppBasic.State) (w : World) (stream : MediaStream) :
  supportsGetUserMedia env = true ->
  getUserMedia env (AppBasic.constraints r) = inr stream ->
  is_Some (videoRef w) ->
  state_after (AppBasic.startStream env r s w) = s /\
  bound (world_after (AppBasic.startStream env r s w)) = Some (ProvStream stream) /\
  ended (world_after (AppBasic.startStream env r s w)) = ended w /\
  trace (world_after (AppBasic.startStream env r s w)) =
    trace w ++ [EvGetUserMedia (AppBasic.constraints r);
                EvSrcObject (Some (ProvStream stream))].
Proof.
  intros Hsup Hgum [el Hel].
  unfold AppBasic.startStream. rewrite Hsup. cbn [negb].
  unfold try_catch, await_getUserMedia, read_videoRef, when, set_srcObject, ret.
  unfold bind. rewrite Hgum. cbn [videoRef ended trace]. rewrite Hel.
  unfold state_after, world_after, bound. cbn. rewrite ?Hel.
  by rewrite <- ?app_assoc.
Qed.

Lemma X5_first_revision_restart_witness :
  ended (world_after (AppBasic.startStream granting AppBasic.initial
                        AppBasic.initial active_world)) = ended active_world.
Proof.
  apply (X5_first_revision_restart_stops_nothing granting AppBasic.initial
           AppBasic.initial active_world camera_stream eq_refl eq_refl).
  by eexists.
Defined.

(** X6. A restart that fails leaves the session Idle: when a stream is
    bound and the new acquisition is rejected, the old stream has been torn
    down all the same (every track stopped, sink unbound), nothing is bound
    afterwards, and an [Error] rejection is shown as the error. *)
Theorem X6_failed_restart_leaves_idle :
  (forall (env : Platform) (r s : PartFacing.State) (w : World)
          (e : Thrown) (p : MediaProvider),
     supportsGetUserMedia env = true ->
     getUserMedia env (PartFacing.constraints r) = inl e ->
     bound w = Some p ->
     bound (world_after (PartFacing.startStream env r s w)) = None /\
     (forall t, t ∈ provider_tracks p ->
        track_id t ∈ ended (world_after (PartFacing.startStream env r s w))) /\
     (forall m, e = ErrorInstance m ->
        PartFacing.error (state_after (PartFacing.startStream env r s w)) = m))
  /\
  (forall (env : Platform) (r s : AppCaps.State) (w : World)
          (e : Thrown) (p : MediaProvider),
     supportsGetUserMedia env = true ->
     getUserMedia env (AppCaps.constraints r) = inl e ->
     bound w = Some p ->
     bound (world_after (AppCaps.startStream env r s w)) = None /\
     (forall t, t ∈ provider_tracks p ->
        track_id t ∈ ended (world_after (AppCaps.startStream env r s w))) /\
     (forall m, e = ErrorInstance m ->
        AppCaps.error (state_after (AppCaps.startStream env r s w)) = m))
  /\
  (forall (env : Platform) (r s : PartCustom.State) (w : World)
          (e : Thrown) (p : MediaProvider),
     supportsGetUserMedia env = true ->
     getUserMedia env (PartCustom.buildConstraints r) = inl e ->
     bound w = Some p ->
     bound (world_after (PartCustom.startStream env r s w)) = None /\
     (forall t, t ∈ provider_tracks p ->
        track_id t ∈ ended (world_after (PartCustom.startStream env r s w))) /\
     (forall m, e = ErrorInstance m ->
        PartCustom.error (state_after (PartCustom.startStream env r s w)) = m)).
Proof.
  split; [|split].
  - intros env r s w e p Hsup Hgum Hb.
    rewrite (startStream_PartFacing_throw _ _ _ _ _ Hsup Hgum), on_error_PartFacing_run.
    unfold world_after, state_after. cbn [fst snd].
    split; [apply (bound_settled w)|].
    split; [intros t Ht; by apply (ended_settled w _ p)|].
    intros m ->. reflexivity.
  - intros env r s w e p Hsup Hgum Hb.
    rewrite (startStream_AppCaps_throw _ _ _ _ _ Hsup Hgum), on_error_AppCaps_run.
    unfold world_after, state_after. cbn [fst snd].
    split; [apply (bound_settled w)|].
    split; [intros t Ht; by apply (ended_settled w _ p)|].
    intros m ->. reflexivity.
  - intros env r s w e p Hsup Hgum Hb.
    rewrite (startStream_PartCustom_throw _ _ _ _ _ Hsup Hgum), on_error_PartCustom_run.
    unfold world_after, state_after. cbn [fst snd].
    split; [apply (bound_settled w)|].
    split; [intros t Ht; by apply (ended_settled w _ p)|].
    intros m ->. reflexivity.
Qed.

Lemma X6_failed_restart_witness :
  bound (world_after (PartFacing.startStream rejecting_with_error
                        PartFacing.initial PartFacing.initial active_world)) = None /\
  7%nat ∈ ended (world_after (AppCaps.startStream rejecting_with_error
                                AppCaps.initial AppCaps.initial active_world)).
Proof.
  destruct X6_failed_restart_leaves_idle as (HC & HB & _).
  split.
  - apply (HC rejecting_with_error PartFacing.initial PartFacing.initial
             active_world (ErrorInstance "Permission denied")
             (ProvStream camera_stream) eq_refl eq_refl eq_refl).
  - destruct (HB rejecting_with_error AppCaps.initial AppCaps.initial
                active_world (ErrorInstance "Permission denied")
                (ProvStream camera_stream) eq_refl eq_refl eq_refl)
      as (_ & Hended & _).
    apply (Hended camera_track). apply list_elem_of_here.
Defined.





(** ** The request *)

Lemma is_defined_spec (v : JsValue) : PartCustom.is_defined v = true <-> v <> JUndefined.
Proof. destruct v; cbn; split; congruence. Qed.

Lemma obj_has_set (k k' : string) (v : JsValue) (o : JsObject) :
  obj_has k (obj_set k' v o) = String.eqb k k' || obj_has k o.
Proof.
  induction o as [|[k0 v0] o IH]; cbn.
  - by destruct (String.eqb k k').
  - destruct (String.eqb_spec k' k0) as [->|Hne]; cbn.
    + by destruct (String.eqb k k0).
    + destruct (String.eqb_spec k k0) as [->|Hne'].
      * by rewrite orb_true_r.
      * apply IH.
Qed.

Lemma obj_has_get (k : string) (o : JsObject) :
  obj_has k o = false -> obj_get k o = JUndefined.
Proof.
  induction o as [|[k0 v0] o IH]; cbn; [done|].
  by destruct (String.eqb k k0).
Qed.

(** The loop of [buildConstraints] over the active keys, key by key. *)
Lemma custom_keys_fold (cc : JsObject) (keys : list string) (acc : JsObject) (k : string) :
  let result :=
    fold_left
      (fun acc key =>
         if PartCustom.is_defined (obj_get key cc)
         then obj_set key (obj_get key cc) acc else acc)
      keys acc in
  (k ∈ keys /\ obj_get k cc <> JUndefined ->
   obj_has k result = true /\ obj_get k result = obj_get k cc) /\
  (~ (k ∈ keys /\ obj_get k cc <> JUndefined) ->
   obj_has k result = obj_has k acc /\ obj_get k result = obj_get k acc).
Proof.
  cbn zeta. revert acc. induction keys as [|key keys IH]; intros acc.
  { cbn. split; [|done]. intros [Hin _]. by apply elem_of_nil in Hin. }
  cbn [fold_left].
  match goal with |- context [fold_left ?f keys ?a] =>
    specialize (IH a); destruct IH as [IHin IHout]
  end.
  split.
  - intros [Hin Hdef].
    destruct (decide (k ∈ keys)) as [Hk|Hk]; [by apply IHin|].
    apply elem_of_cons in Hin as [->|Hin]; [|done].
    destruct IHout as [-> ->]; [tauto|].
    apply is_defined_spec in Hdef. rewrite Hdef.
    rewrite obj_has_set, obj_get_set, String.eqb_refl. done.
  - intros Hno.
    destruct IHout as [-> ->].
    { intros [Hin Hdef]. apply Hno. split; [by right|done]. }
    destruct (PartCustom.is_defined (obj_get key cc)) eqn:Hdef; [|done].
    apply is_defined_spec in Hdef.
    rewrite obj_has_set, obj_get_set.
    destruct (String.eqb_spec k key) as [->|Hne]; [|done].
    destruct Hno. split; [by left|done].
Qed.

(** X9. Audio in the request. The three earlier revisions never ask for
    audio, whatever audio device is selected: their request has no [audio]
    member. In the last revision [audio] is [false] while no audio device is
    selected, and otherwise constrains only the device id, as exact or as
    ideal by its own toggle. *)
Theorem X9_audio_in_the_request :
  (forall r : AppBasic.State, js_has "audio" (AppBasic.constraints r) = false)
  /\
  (forall r : PartFacing.State, js_has "audio" (PartFacing.constraints r) = false)
  /\
  (forall r : AppCaps.State, js_has "audio" (AppCaps.constraints r) = false)
  /\
  (forall r : PartCustom.State,
     (PartCustom.selectedAudioDevice r = "" ->
      js_get "audio" (PartCustom.buildConstraints r) = JBool false) /\
     (PartCustom.selectedAudioDevice r <> "" ->
      js_get "audio" (PartCustom.buildConstraints r) =
        JObj [("deviceId",
               JObj [(if PartCustom.useExactAudioDeviceId r then "exact" else "ideal",
                      JStr (PartCustom.selectedAudioDevice r))])])).
Proof.
  split; [|split; [|split]]; intros r.
  - unfold AppBasic.constraints, js_and.
    by destruct (truthy (JStr (AppBasic.selectedDevice r))).
  - unfold PartFacing.constraints, js_and.
    by destruct (truthy (JStr (PartFacing.selectedVideoDevice r))).
  - unfold AppCaps.constraints, js_and.
    by destruct (truthy (JStr (AppCaps.selectedVideoDevice r))).
  - unfold PartCustom.buildConstraints, PartCustom.audioConstraints. split.
    + intros ->. reflexivity.
    + intros Hsel. apply truthy_str in Hsel. rewrite Hsel. cbn.
      by destruct (PartCustom.useExactAudioDeviceId r).
Qed.

Lemma video_of_buildConstraints (r : PartCustom.State) :
  video_of (PartCustom.buildConstraints r) =
  match PartCustom.videoConstraints r with
  | [] => JBool true
  | _ :: _ => JObj (PartCustom.videoConstraints r)
  end.
Proof.
  unfold video_of, PartCustom.buildConstraints.
  by destruct (PartCustom.videoConstraints r).
Qed.

Lemma videoConstraints_key (r : PartCustom.State) (k : string) :
  k <> "deviceId" ->
  (k ∈ PartCustom.activeConstraintKeys r /\
   obj_get k (PartCustom.customConstraints r) <> JUndefined ->
   obj_has k (PartCustom.videoConstraints r) = true /\
   obj_get k (PartCustom.videoConstraints r) = obj_get k (PartCustom.customConstraints r)) /\
  (~ (k ∈ PartCustom.activeConstraintKeys r /\
      obj_get k (PartCustom.customConstraints r) <> JUndefined) ->
   obj_has k (PartCustom.videoConstraints r) = false).
Proof.
  intros Hk. unfold PartCustom.videoConstraints.
  match goal with |- context [fold_left _ _ ?a] =>
    destruct (custom_keys_fold (PartCustom.customConstraints r)
                (PartCustom.activeConstraintKeys r) a k) as [Hin Hout];
    assert (Ha : obj_has k a = false)
  end.
  { destruct (truthy _); [|done]. cbn.
    destruct (String.eqb_spec k "deviceId"); [done|reflexivity]. }
  split; [exact Hin|].
  intros Hno. destruct (Hout Hno) as [-> _]. exact Ha.
Qed.

(** X10. Which constraints [buildConstraints] sends. Apart from the device
    id, the [video] member holds a key exactly when the key is active (the
    selected device advertises it) and the form holds a constraint for it,
    and then it holds that constraint unchanged. With no device selected and
    no such key, [video] is plain [true]. *)
Theorem X10_only_active_constraints_are_sent (r : PartCustom.State) :
  (forall k, k <> "deviceId" ->
     (js_has k (video_of (PartCustom.buildConstraints r)) = true <->
      k ∈ PartCustom.activeConstraintKeys r /\
      obj_get k (PartCustom.customConstraints r) <> JUndefined) /\
     (k ∈ PartCustom.activeConstraintKeys r ->
      obj_get k (PartCustom.customConstraints r) <> JUndefined ->
      js_get k (video_of (PartCustom.buildConstraints r)) =
        obj_get k (PartCustom.customConstraints r)))
  /\
  (PartCustom.selectedVideoDevice r = "" ->
   (forall k, k ∈ PartCustom.activeConstraintKeys r ->
              obj_get k (PartCustom.customConstraints r) = JUndefined) ->
   video_of (PartCustom.buildConstraints r) = JBool true).
Proof.
  split.
  - intros k Hk. destruct (videoConstraints_key r k Hk) as [Hin Hout].
    rewrite video_of_buildConstraints.
    split.
    + split.
      * intros Hhas.
        destruct (decide (k ∈ PartCustom.activeConstraintKeys r)) as [Hact|Hact].
        -- split; [done|]. intros Hundef.
           assert (Hfalse : obj_has k (PartCustom.videoConstraints r) = false)
             by (apply Hout; tauto).
           destruct (PartCustom.videoConstraints r); cbn in *; congruence.
        -- assert (Hfalse : obj_has k (PartCustom.videoConstraints r) = false)
             by (apply Hout; tauto).
           destruct (PartCustom.videoConstraints r); cbn in *; congruence.
      * intros Hboth. destruct (Hin Hboth) as [Hhas _].
        destruct (PartCustom.videoConstraints r); [discriminate|exact Hhas].
    + intros Hact Hdef. destruct (Hin (conj Hact Hdef)) as [Hhas Hget].
      destruct (PartCustom.videoConstraints r); [discriminate|exact Hget].
  - intros Hsel Hnone. rewrite video_of_buildConstraints.
    assert (Hvc : PartCustom.videoConstraints r = []); [|by rewrite Hvc].
    unfold PartCustom.videoConstraints. rewrite Hsel. cbn [truthy String.eqb negb].
    induction (PartCustom.activeConstraintKeys r) as [|key keys IH]; [done|].
    cbn [fold_left]. rewrite (Hnone key) by left. cbn [PartCustom.is_defined].
    apply IH. intros k Hk. apply Hnone. by right.
Qed.

(** X10 on a state with a camera selected, frameRate active and set. *)
Lemma X10_only_active_constraints_witness :
  js_get "frameRate"
    (video_of (PartCustom.buildConstraints
       (PartCustom.with_activeConstraintKeys ["width"; "frameRate"]
          (PartCustom.with_customConstraints
             [("frameRate", JObj [("ideal", JNum 30)]);
              ("zoom", JObj [("ideal", JNum 2)])]
             custom_cam1)))) = JObj [("ideal", JNum 30)] /\
  ~ (js_has "zoom"
       (video_of (PartCustom.buildConstraints
          (PartCustom.with_activeConstraintKeys ["width"; "frameRate"]
             (PartCustom.with_customConstraints
                [("frameRate", JObj [("ideal", JNum 30)]);
                 ("zoom", JObj [("ideal", JNum 2)])]
                custom_cam1)))) = true).
Proof.
  destruct (X10_only_active_constraints_are_sent
              (PartCustom.with_activeConstraintKeys ["width"; "frameRate"]
                 (PartCustom.with_customConstraints
                    [("frameRate", JObj [("ideal", JNum 30)]);
                     ("zoom", JObj [("ideal", JNum 2)])]
                    custom_cam1))) as [Hkeys _].
  split.
  - destruct (Hkeys "frameRate" ltac:(discriminate)) as [_ Hget].
    apply Hget; [|discriminate].
    apply list_elem_of_further, list_elem_of_here.
  - destruct (Hkeys "zoom" ltac:(discriminate)) as [Hiff _].
    intros Hhas. apply Hiff in Hhas as [Hin _].
    apply elem_of_cons in Hin as [Heq|Hin]; [discriminate|].
    apply elem_of_cons in Hin as [Heq|Hin]; [discriminate|].
    by apply elem_of_nil in Hin.
Defined.

(** ** The device-selection effect of the last revision *)

Lemma active_keys_split (capabilities : JsObject) :
  exists first others : list string,
    PartCustom.active_keys capabilities = first ++ others /\
    (forall k, k ∈ first -> k ∈ ["width"; "height"; "facingMode"]) /\
    (forall k, k ∈ others -> k ∉ ["width"; "height"; "facingMode"]) /\
    (forall k, k ∈ first ++ others <->
               k ∈ obj_keys capabilities /\
               obj_get k capabilities <> JUndefined /\
               k <> "deviceId" /\ k <> "groupId").
Proof.
  unfold PartCustom.active_keys.
  set (keys := List.filter _ (obj_keys capabilities)).
  assert (Hkeys : forall k, k ∈ keys <->
            k ∈ obj_keys capabilities /\ obj_get k capabilities <> JUndefined /\
            k <> "deviceId" /\ k <> "groupId").
  { intros k. subst keys. rewrite list_elem_of_In, filter_In, <- list_elem_of_In.
    rewrite !andb_true_iff, !negb_true_iff, is_defined_spec.
    destruct (String.eqb_spec k "deviceId"), (String.eqb_spec k "groupId");
      intuition congruence. }
  eexists _, _. split; [reflexivity|]. split; [|split].
  - intros k Hk. apply list_elem_of_In, filter_In in Hk as [Hk _].
    by apply list_elem_of_In.
  - intros k Hk. apply list_elem_of_In, filter_In in Hk as [_ Hk].
    apply negb_true_iff, bool_decide_eq_false in Hk. exact Hk.
  - intros k. rewrite <- Hkeys, elem_of_app.
    rewrite !list_elem_of_In, !filter_In, <- !list_elem_of_In.
    rewrite negb_true_iff, bool_decide_eq_true, bool_decide_eq_false.
    destruct (decide (k ∈ ["width"; "height"; "facingMode"])); tauto.
Qed.

(** X11. The active keys computed for a device are exactly its defined
    capability keys other than "deviceId" and "groupId": the reordering
    neither adds nor loses a key. In the result every one of width, height
    and facingMode that is present comes before every other key. *)
Theorem X11_active_keys_of_capabilities (capabilities : JsObject) :
  (forall k, k ∈ PartCustom.active_keys capabilities <->
             k ∈ obj_keys capabilities /\
             obj_get k capabilities <> JUndefined /\
             k <> "deviceId" /\ k <> "groupId")
  /\
  (forall (i j : nat) (k1 k2 : string),
     PartCustom.active_keys capabilities !! i = Some k1 ->
     PartCustom.active_keys capabilities !! j = Some k2 ->
     k1 ∈ ["width"; "height"; "facingMode"] ->
     k2 ∉ ["width"; "height"; "facingMode"] ->
     (i < j)%nat).
Proof.
  destruct (active_keys_split capabilities)
    as (first & others & -> & Hfirst & Hothers & Hmem).
  split; [exact Hmem|].
  intros i j k1 k2 Hi Hj Hk1 Hk2.
  assert (Hil : (i < length first)%nat).
  { destruct (decide (i < length first)%nat) as [|Hge]; [done|].
    rewrite lookup_app_r in Hi by lia.
    apply list_elem_of_lookup_2, Hothers in Hi. done. }
  assert (Hjl : (length first <= j)%nat).
  { destruct (decide (length first <= j)%nat) as [|Hlt]; [done|].
    rewrite lookup_app_l in Hj by lia.
    apply list_elem_of_lookup_2, Hfirst in Hj. done. }
  lia.
Qed.

Lemma X11_active_keys_witness :
  PartCustom.active_keys
    [ ("deviceId", JStr "cam1"); ("facingMode", JArr [JStr "user"]);
      ("frameRate", JObj [("min", JNum 1); ("max", JNum 30)]);
      ("width", JObj [("min", JNum 1); ("max", JNum 1920)]);
      ("height", JObj [("min", JNum 1); ("max", JNum 1080)]) ]
    = ["width"; "height"; "facingMode"; "frameRate"] /\
  (2 < 3)%nat.
Proof.
  split; [reflexivity|].
  destruct (X11_active_keys_of_capabilities
              [ ("deviceId", JStr "cam1"); ("facingMode", JArr [JStr "user"]);
                ("frameRate", JObj [("min", JNum 1); ("max", JNum 30)]);
                ("width", JObj [("min", JNum 1); ("max", JNum 1920)]);
                ("height", JObj [("min", JNum 1); ("max", JNum 1080)]) ])
    as [_ Horder].
  apply (Horder 2%nat 3%nat "facingMode" "frameRate" eq_refl eq_refl).
  - apply list_elem_of_further, list_elem_of_further, list_elem_of_here.
  - intros Hin.
    apply elem_of_cons in Hin as [Heq|Hin]; [discriminate|].
    apply elem_of_cons in Hin as [Heq|Hin]; [discriminate|].
    apply elem_of_cons in Hin as [Heq|Hin]; [discriminate|].
    by apply elem_of_nil in Hin.
Defined.

(** The constraints the effect starts from: what was saved for width,
    height and facingMode, with 640x480 and the first advertised facing mode
    as defaults. The two fix-ups after the loop never fire. *)
Lemma initialConstraints_spec (r : PartCustom.State) (caps : JsObject) (keys : list string) :
  (forall k, obj_has k (PartCustom.initialConstraints r caps keys) = true ->
             k ∈ ["width"; "height"; "facingMode"]) /\
  ("width" ∈ keys ->
   obj_get "width" (PartCustom.initialConstraints r caps keys) =
     if truthy (obj_get "width" (PartCustom.customConstraints r))
     then obj_get "width" (PartCustom.customConstraints r)
     else JObj [("ideal", JNum 640)]) /\
  ("height" ∈ keys ->
   obj_get "height" (PartCustom.initialConstraints r caps keys) =
     if truthy (obj_get "height" (PartCustom.customConstraints r))
     then obj_get "height" (PartCustom.customConstraints r)
     else JObj [("ideal", JNum 480)]).
Proof.
  unfold PartCustom.initialConstraints. cbn zeta.
  match goal with |- context [fold_left ?f keys []] => set (step := f) end.
  set (Wv := if truthy (obj_get "width" (PartCustom.customConstraints r))
             then obj_get "width" (PartCustom.customConstraints r)
             else JObj [("ideal", JNum 640)]).
  set (Hv := if truthy (obj_get "height" (PartCustom.customConstraints r))
             then obj_get "height" (PartCustom.customConstraints r)
             else JObj [("ideal", JNum 480)]).
  assert (HWv : truthy Wv = true).
  { subst Wv. by destruct (truthy (obj_get "width" _)) eqn:Ht. }
  assert (HHv : truthy Hv = true).
  { subst Hv. by destruct (truthy (obj_get "height" _)) eqn:Ht. }
  (* one step of the loop *)
  assert (Shas : forall init key k,
            obj_has k (step init key) = true ->
            obj_has k init = true \/ k ∈ ["width"; "height"; "facingMode"]).
  { intros init key k. subst step. cbn beta.
    destruct (String.eqb_spec key "width") as [->|Hw].
    { repeat case_match; rewrite ?obj_has_set; try tauto;
        destruct (String.eqb_spec k "width") as [->|]; cbn; try tauto;
        intros _; right; apply list_elem_of_here. }
    destruct (String.eqb_spec key "height") as [->|Hh].
    { repeat case_match; rewrite ?obj_has_set; try tauto;
        destruct (String.eqb_spec k "height") as [->|]; cbn; try tauto;
        intros _; right; apply list_elem_of_further, list_elem_of_here. }
    destruct (String.eqb_spec key "facingMode") as [->|Hf]; [|tauto].
    repeat case_match; rewrite ?obj_has_set; try tauto;
      destruct (String.eqb_spec k "facingMode") as [->|]; cbn; try tauto;
      intros _; right;
        apply list_elem_of_further, list_elem_of_further, list_elem_of_here. }
  assert (Swidth : "width" ∈ keys -> forall init key,
            obj_get "width" (step init key) =
            if String.eqb key "width" then Wv else obj_get "width" init).
  { intros Hin init key. subst step Wv. cbn beta.
    rewrite (bool_decide_true _ Hin).
    destruct (String.eqb_spec key "width") as [->|Hw].
    { destruct (truthy (obj_get "width" _)); by rewrite obj_get_set. }
    destruct (String.eqb_spec key "height") as [->|Hh].
    { repeat case_match; by rewrite ?obj_get_set. }
    destruct (String.eqb_spec key "facingMode") as [->|Hf]; [|done].
    repeat case_match; by rewrite ?obj_get_set. }
  assert (Sheight : "height" ∈ keys -> forall init key,
            obj_get "height" (step init key) =
            if String.eqb key "height" then Hv else obj_get "height" init).
  { intros Hin init key. subst step Hv. cbn beta.
    rewrite (bool_decide_true _ Hin).
    destruct (String.eqb_spec key "width") as [->|Hw].
    { repeat case_match; by rewrite ?obj_get_set. }
    destruct (String.eqb_spec key "height") as [->|Hh].
    { destruct (truthy (obj_get "height" _)); by rewrite obj_get_set. }
    destruct (String.eqb_spec key "facingMode") as [->|Hf]; [|done].
    repeat case_match; by rewrite ?obj_get_set. }
  clearbody step.
  (* the whole loop *)
  assert (Lhas : forall l init k,
            obj_has k (fold_left step l init) = true ->
            obj_has k init = true \/ k ∈ ["width"; "height"; "facingMode"]).
  { induction l as [|key l IH]; intros init k Hk; [by left|].
    cbn [fold_left] in Hk. apply IH in Hk as [Hk|Hk]; [|by right].
    by apply Shas in Hk. }
  assert (Lwidth : "width" ∈ keys -> forall l init,
            obj_get "width" (fold_left step l init) =
            if bool_decide ("width" ∈ l) then Wv else obj_get "width" init).
  { intros Hin. induction l as [|key l IH]; intros init; [done|].
    cbn [fold_left]. rewrite IH, Swidth by done.
    destruct (String.eqb_spec key "width") as [->|Hne].
    - rewrite (bool_decide_true ("width" ∈ "width" :: l)) by left.
      by destruct (bool_decide _).
    - destruct (decide ("width" ∈ l)) as [Hl|Hl].
      + rewrite !bool_decide_true; [done|by right|done].
      + rewrite !bool_decide_false; [done| |done].
        intros [Heq|Hl']%elem_of_cons; congruence. }
  assert (Lheight : "height" ∈ keys -> forall l init,
            obj_get "height" (fold_left step l init) =
            if bool_decide ("height" ∈ l) then Hv else obj_get "height" init).
  { intros Hin. induction l as [|key l IH]; intros init; [done|].
    cbn [fold_left]. rewrite IH, Sheight by done.
    destruct (String.eqb_spec key "height") as [->|Hne].
    - rewrite (bool_decide_true ("height" ∈ "height" :: l)) by left.
      by destruct (bool_decide _).
    - destruct (decide ("height" ∈ l)) as [Hl|Hl].
      + rewrite !bool_decide_true; [done|by right|done].
      + rewrite !bool_decide_false; [done| |done].
        intros [Heq|Hl']%elem_of_cons; congruence. }
  (* the fix-ups change nothing *)
  assert (Hfix1 : (if negb (truthy (obj_get "width" (fold_left step keys [])))
                      && bool_decide ("width" ∈ keys)
                   then obj_set "width" (PartCustom.ideal (JNum 640))
                          (fold_left step keys [])
                   else fold_left step keys []) = fold_left step keys []).
  { destruct (decide ("width" ∈ keys)) as [Hin|Hin].
    - rewrite (Lwidth Hin), (bool_decide_true _ Hin), HWv. done.
    - rewrite (bool_decide_false _ Hin), andb_false_r. done. }
  rewrite Hfix1.
  assert (Hfix2 : (if negb (truthy (obj_get "height" (fold_left step keys [])))
                      && bool_decide ("height" ∈ keys)
                   then obj_set "height" (PartCustom.ideal (JNum 480))
                          (fold_left step keys [])
                   else fold_left step keys []) = fold_left step keys []).
  { destruct (decide ("height" ∈ keys)) as [Hin|Hin].
    - rewrite (Lheight Hin), (bool_decide_true _ Hin), HHv. done.
    - rewrite (bool_decide_false _ Hin), andb_false_r. done. }
  rewrite Hfix2.
  split; [|split].
  - intros k Hk. apply Lhas in Hk as [Hk|Hk]; [discriminate|done].
  - intros Hin. by rewrite (Lwidth Hin), (bool_decide_true _ Hin).
  - intros Hin. by rewrite (Lheight Hin), (bool_decide_true _ Hin).
Qed.

(** X12. The effect on a device that has capabilities. The active keys
    become the keys of the device (X11). The constraints of the form are
    rebuilt from width, height and facingMode alone, so a constraint set for
    any other key is dropped; width and height keep the constraint they had,
    or fall back to ideal 640 and ideal 480 when they had none. *)
Theorem X12_effect_rebuilds_constraints
    (s : PartCustom.State) (w : World) (caps : JsObject) :
  PartCustom.selectedVideoDevice s <> "" ->
  found_capabilities (PartCustom.deviceDetails s) (PartCustom.selectedVideoDevice s)
    = JObj caps ->
  PartCustom.currentCapabilities (state_after (PartCustom.capabilitiesEffect s s w))
    = JObj caps /\
  PartCustom.activeConstraintKeys (state_after (PartCustom.capabilitiesEffect s s w))
    = PartCustom.active_keys caps /\
  (forall k,
     obj_has k (PartCustom.customConstraints
                  (state_after (PartCustom.capabilitiesEffect s s w))) = true ->
     k ∈ ["width"; "height"; "facingMode"]) /\
  ("width" ∈ PartCustom.active_keys caps ->
   obj_get "width" (PartCustom.customConstraints
                      (state_after (PartCustom.capabilitiesEffect s s w))) =
     if truthy (obj_get "width" (PartCustom.customConstraints s))
     then obj_get "width" (PartCustom.customConstraints s)
     else JObj [("ideal", JNum 640)]) /\
  ("height" ∈ PartCustom.active_keys caps ->
   obj_get "height" (PartCustom.customConstraints
                       (state_after (PartCustom.capabilitiesEffect s s w))) =
     if truthy (obj_get "height" (PartCustom.customConstraints s))
     then obj_get "height" (PartCustom.customConstraints s)
     else JObj [("ideal", JNum 480)]).
Proof.
  intros Hsel Hfound. apply truthy_str in Hsel.
  unfold PartCustom.capabilitiesEffect, PartCustom.getDeviceCapabilities.
  rewrite Hsel, Hfound. cbn [negb js_or truthy own_fields when].
  unfold bind, PartCustom.setCurrentCapabilities, PartCustom.setActiveConstraintKeys,
    PartCustom.setCustomConstraints, set_state, state_after.
  cbn [fst snd PartCustom.currentCapabilities PartCustom.activeConstraintKeys
       PartCustom.customConstraints PartCustom.with_customConstraints
       PartCustom.with_activeConstraintKeys PartCustom.with_currentCapabilities].
  split; [reflexivity|]. split; [reflexivity|].
  apply initialConstraints_spec.
Qed.

(** X12 on the camera of the listing, with frameRate set in the form. *)
Lemma X12_effect_witness :
  PartCustom.activeConstraintKeys
    (state_after
       (PartCustom.capabilitiesEffect
          (PartCustom.with_deviceDetails [cam1_detail]
             (PartCustom.with_customConstraints
                [("width", JObj [("ideal", JNum 1280)]);
                 ("frameRate", JObj [("ideal", JNum 30)])] custom_cam1))
          (PartCustom.with_deviceDetails [cam1_detail]
             (PartCustom.with_customConstraints
                [("width", JObj [("ideal", JNum 1280)]);
                 ("frameRate", JObj [("ideal", JNum 30)])] custom_cam1))
          idle_world))
    = ["width"; "height"; "facingMode"; "frameRate"] /\
  PartCustom.customConstraints
    (state_after
       (PartCustom.capabilitiesEffect
          (PartCustom.with_deviceDetails [cam1_detail]
             (PartCustom.with_customConstraints
                [("width", JObj [("ideal", JNum 1280)]);
                 ("frameRate", JObj [("ideal", JNum 30)])] custom_cam1))
          (PartCustom.with_deviceDetails [cam1_detail]
             (PartCustom.with_customConstraints
                [("width", JObj [("ideal", JNum 1280)]);
                 ("frameRate", JObj [("ideal", JNum 30)])] custom_cam1))
          idle_world))
    = [ ("width", JObj [("ideal", JNum 1280)]);
        ("height", JObj [("ideal", JNum 480)]);
        ("facingMode", JObj [("ideal", JStr "user")]) ].
Proof.
  split; [|reflexivity].
  apply (X12_effect_rebuilds_constraints
           (PartCustom.with_deviceDetails [cam1_detail]
              (PartCustom.with_customConstraints
                 [("width", JObj [("ideal", JNum 1280)]);
                  ("frameRate", JObj [("ideal", JNum 30)])] custom_cam1))
           idle_world
           [ ("deviceId", JStr "cam1"); ("facingMode", JArr [JStr "user"]);
             ("frameRate", JObj [("min", JNum 1); ("max", JNum 30)]);
             ("width", JObj [("min", JNum 1); ("max", JNum 1920)]);
             ("height", JObj [("min", JNum 1); ("max", JNum 1080)]) ]);
    [discriminate|reflexivity].
Defined.

(** X13. The effect on a device without capabilities, and the request that
    follows. No key is active and the form falls back to ideal 640x480, but
    since no key is active the request built from that state carries only
    the device id: the resolution kept in the form is not sent. With no
    device selected the effect does nothing at all. *)
Theorem X13_effect_without_capabilities (s : PartCustom.State) (w : World) :
  (PartCustom.selectedVideoDevice s <> "" ->
   truthy (found_capabilities (PartCustom.deviceDetails s)
             (PartCustom.selectedVideoDevice s)) = false ->
   PartCustom.activeConstraintKeys
     (state_after (PartCustom.capabilitiesEffect s s w)) = [] /\
   PartCustom.customConstraints
     (state_after (PartCustom.capabilitiesEffect s s w)) =
     [ ("width", JObj [("ideal", JNum 640)]);
       ("height", JObj [("ideal", JNum 480)]) ] /\
   video_of (PartCustom.buildConstraints
               (state_after (PartCustom.capabilitiesEffect s s w))) =
     JObj [("deviceId",
            JObj [(if PartCustom.useExactDeviceId s then "exact" else "ideal",
                   JStr (PartCustom.selectedVideoDevice s))])])
  /\
  (PartCustom.selectedVideoDevice s = "" ->
   PartCustom.capabilitiesEffect s s w = (inr tt, s, w)).
Proof.
  split.
  - intros Hsel Hnone. apply truthy_str in Hsel.
    unfold PartCustom.capabilitiesEffect, PartCustom.getDeviceCapabilities.
    rewrite Hsel. cbn [negb when]. unfold js_or. rewrite Hnone. cbn [truthy].
    unfold bind, PartCustom.setCurrentCapabilities,
      PartCustom.setActiveConstraintKeys, PartCustom.setCustomConstraints,
      set_state, state_after.
    cbn [fst snd PartCustom.activeConstraintKeys PartCustom.customConstraints
         PartCustom.with_customConstraints PartCustom.with_activeConstraintKeys
         PartCustom.with_currentCapabilities].
    split; [reflexivity|]. split; [reflexivity|].
    unfold video_of, PartCustom.buildConstraints, PartCustom.videoConstraints.
    cbn [PartCustom.selectedVideoDevice PartCustom.activeConstraintKeys
         PartCustom.useExactDeviceId PartCustom.with_customConstraints
         PartCustom.with_activeConstraintKeys PartCustom.with_currentCapabilities
         fold_left].
    rewrite Hsel. by destruct (PartCustom.useExactDeviceId s).
  - intros Hsel. unfold PartCustom.capabilitiesEffect. by rewrite Hsel.
Qed.

(** X13 with the loudspeaker selected: it reports no capabilities. *)
Lemma X13_effect_without_capabilities_witness :
  video_of
    (PartCustom.buildConstraints
       (state_after
          (PartCustom.capabilitiesEffect
             (PartCustom.with_deviceDetails [speaker_detail]
                (PartCustom.with_selectedVideoDevice "spk1" custom_cam1))
             (PartCustom.with_deviceDetails [speaker_detail]
                (PartCustom.with_selectedVideoDevice "spk1" custom_cam1))
             idle_world)))
  = JObj [("deviceId", JObj [("exact", JStr "spk1")])].
Proof.
  destruct (X13_effect_without_capabilities
              (PartCustom.with_deviceDetails [speaker_detail]
                 (PartCustom.with_selectedVideoDevice "spk1" custom_cam1))
              idle_world) as [Hnone _].
  apply Hnone; [discriminate|reflexivity].
Defined.

(** ** The constraint form of the last revision *)

Lemma obj_has_delete (k : string) (o : JsObject) : obj_has k (obj_delete k o) = false.
Proof.
  induction o as [|[k0 v0] o IH]; cbn; [done|].
  destruct (String.eqb_spec k k0) as [->|Hne]; [done|].
  cbn. by destruct (String.eqb_spec k k0).
Qed.

Lemma obj_get_delete_ne (k k' : string) (o : JsObject) :
  k <> k' -> obj_get k (obj_delete k' o) = obj_get k o.
Proof.
  intros Hne. induction o as [|[k0 v0] o IH]; cbn; [done|].
  destruct (String.eqb_spec k' k0) as [->|Hne'].
  - destruct (String.eqb_spec k k0); [congruence|done].
  - cbn. by rewrite IH.
Qed.

Lemma obj_set_fresh (k : string) (v : JsValue) (o : JsObject) :
  k ∉ obj_keys o -> obj_set k v o = o ++ [(k, v)].
Proof.
  induction o as [|[k0 v0] o IH]; cbn; [done|].
  intros [Hne Hnotin]%not_elem_of_cons.
  destruct (String.eqb_spec k k0); [congruence|]. by rewrite IH.
Qed.

(** Copying a well-formed object by a spread gives the same object. *)
Lemma spread_copy (fs acc : JsObject) :
  NoDup (obj_keys fs) ->
  (forall k, k ∈ obj_keys fs -> k ∉ obj_keys acc) ->
  spread_into (JObj fs) acc = acc ++ fs.
Proof.
  cbn [spread_into]. revert acc.
  induction fs as [|[k v] fs IH]; intros acc Hnd Hfresh; cbn.
  { by rewrite app_nil_r. }
  apply NoDup_cons in Hnd as [Hk Hnd].
  rewrite obj_set_fresh by (apply Hfresh; left).
  rewrite IH; [by rewrite <- app_assoc|done|].
  intros k' Hk'. unfold obj_keys. rewrite fmap_app, elem_of_app. cbn.
  intros [Hin|Hin].
  - apply (Hfresh k'); [by right|done].
  - apply elem_of_cons in Hin as [->|Hin]; [done|by apply elem_of_nil in Hin].
Qed.

Lemma unticked_gone (r : PartCustom.State) (key : string) (w : World) :
  obj_has key (PartCustom.customConstraints (unticked r key w)) = false.
Proof. apply obj_has_delete. Qed.

Lemma unticked_kept (r : PartCustom.State) (key : string) (w : World) (k : string) :
  NoDup (obj_keys (PartCustom.customConstraints r)) ->
  k <> key ->
  obj_get k (PartCustom.customConstraints (unticked r key w))
    = obj_get k (PartCustom.customConstraints r).
Proof.
  intros Hnd Hk.
  unfold unticked, PartCustom.removeConstraint, PartCustom.setCustomConstraints,
    set_state, state_after.
  cbn [fst snd PartCustom.customConstraints PartCustom.with_customConstraints].
  rewrite obj_get_delete_ne by done.
  unfold lit_fields. cbn [fold_left add_entry].
  rewrite spread_copy; [done|done|].
  intros k' _ Hin. by apply elem_of_nil in Hin.
Qed.

(** A run of the effect for a selected device that has capabilities. *)
Lemma effect_applied_found (s : PartCustom.State) (w : World) (caps : JsObject) :
  PartCustom.selectedVideoDevice s <> "" ->
  found_capabilities (PartCustom.deviceDetails s) (PartCustom.selectedVideoDevice s)
    = JObj caps ->
  effect_applied s w =
  PartCustom.with_customConstraints
    (PartCustom.initialConstraints s caps (PartCustom.active_keys caps))
    (PartCustom.with_activeConstraintKeys (PartCustom.active_keys caps)
       (PartCustom.with_currentCapabilities (JObj caps) s)).
Proof.
  intros Hsel Hfound. apply truthy_str in Hsel.
  unfold effect_applied, PartCustom.capabilitiesEffect, PartCustom.getDeviceCapabilities.
  rewrite Hsel, Hfound. reflexivity.
Qed.

Lemma request_carries (s : PartCustom.State) (k : string) :
  k <> "deviceId" ->
  k ∈ PartCustom.activeConstraintKeys s ->
  obj_get k (PartCustom.customConstraints s) <> JUndefined ->
  js_get k (video_of (PartCustom.buildConstraints s))
    = obj_get k (PartCustom.customConstraints s).
Proof.
  intros Hk Hin Hdef. rewrite video_of_buildConstraints.
  destruct (videoConstraints_key s k Hk) as [Hcarried _].
  destruct (Hcarried (conj Hin Hdef)) as [Hhas Hget].
  destruct (PartCustom.videoConstraints s); [discriminate|exact Hget].
Qed.

Lemma request_lacks (s : PartCustom.State) (k : string) :
  k <> "deviceId" ->
  obj_get k (PartCustom.customConstraints s) = JUndefined ->
  js_has k (video_of (PartCustom.buildConstraints s)) = false.
Proof.
  intros Hk Hundef. rewrite video_of_buildConstraints.
  destruct (videoConstraints_key s k Hk) as [_ Hout].
  assert (Hno : obj_has k (PartCustom.videoConstraints s) = false).
  { apply Hout. intros [_ Hdef]. by apply Hdef. }
  destruct (PartCustom.videoConstraints s); [done|exact Hno].
Qed.



Lemma effect_keeps_selection (s : PartCustom.State) (w : World) (caps : JsObject) :
  PartCustom.selectedVideoDevice s <> "" ->
  found_capabilities (PartCustom.deviceDetails s) (PartCustom.selectedVideoDevice s)
    = JObj caps ->
  PartCustom.selectedVideoDevice (effect_applied s w) = PartCustom.selectedVideoDevice s /\
  PartCustom.deviceDetails (effect_applied s w) = PartCustom.deviceDetails s /\
  PartCustom.activeConstraintKeys (effect_applied s w) = PartCustom.active_keys caps /\
  (forall k, k ∉ ["width"; "height"; "facingMode"] ->
     obj_get k (PartCustom.customConstraints (effect_applied s w)) = JUndefined) /\
  ("width" ∈ PartCustom.active_keys caps ->
   obj_get "width" (PartCustom.customConstraints (effect_applied s w)) =
     if truthy (obj_get "width" (PartCustom.customConstraints s))
     then obj_get "width" (PartCustom.customConstraints s)
     else JObj [("ideal", JNum 640)]) /\
  ("height" ∈ PartCustom.active_keys caps ->
   obj_get "height" (PartCustom.customConstraints (effect_applied s w)) =
     if truthy (obj_get "height" (PartCustom.customConstraints s))
     then obj_get "height" (PartCustom.customConstraints s)
     else JObj [("ideal", JNum 480)]).
Proof.
  intros Hsel Hfound. rewrite (effect_applied_found s w caps Hsel Hfound).
  cbn [PartCustom.selectedVideoDevice PartCustom.deviceDetails
       PartCustom.activeConstraintKeys PartCustom.customConstraints
       PartCustom.with_customConstraints PartCustom.with_activeConstraintKeys
       PartCustom.with_currentCapabilities].
  destruct (initialConstraints_spec s caps (PartCustom.active_keys caps))
    as (Honly & Hwidth & Hheight).
  split; [reflexivity|]. split; [reflexivity|]. split; [reflexivity|].
  split; [|split; assumption].
  intros k Hk. apply obj_has_get.
  destruct (obj_has k _) eqn:Hhas; [|reflexivity].
  destruct (Hk (Honly k Hhas)).
Qed.

Lemma truthy_or_default (x : JsValue) (fields : JsObject) :
  truthy (if truthy x then x else JObj fields) = true.
Proof. by destruct (truthy x) eqn:Hx. Qed.

(** X14. Unticking the box of a constraint deletes its key from the form and
    keeps every other constraint. For a key other than width and height no
    dependency of the device-selection effect changes, so the effect is not
    run again and the request built from that state no longer carries the
    key. Width and height are dependencies of the effect: when the selected
    device advertises both, unticking one that was set runs the effect
    again, which puts the key back with its default (ideal 640 for width,
    ideal 480 for height) and drops every constraint other than width,
    height and facingMode. The effect then runs once more, changes no
    dependency, and the request still carries the key with its default: it
    cannot be left out of the request. *)
Theorem X14_unticked_constraint_is_not_sent
    (r : PartCustom.State) (w : World) (key : string) :
  NoDup (obj_keys (PartCustom.customConstraints r)) ->
  obj_has key (PartCustom.customConstraints (unticked r key w)) = false /\
  (forall k, k <> key ->
     obj_get k (PartCustom.customConstraints (unticked r key w))
       = obj_get k (PartCustom.customConstraints r)) /\
  (key <> "width" -> key <> "height" ->
   ~ PartCustom.effect_reruns r (unticked r key w) /\
   (key <> "deviceId" ->
    js_has key (video_of (PartCustom.buildConstraints (unticked r key w))) = false)) /\
  (forall caps : JsObject,
     key = "width" \/ key = "height" ->
     obj_get key (PartCustom.customConstraints r) <> JUndefined ->
     PartCustom.selectedVideoDevice r <> "" ->
     found_capabilities (PartCustom.deviceDetails r) (PartCustom.selectedVideoDevice r)
       = JObj caps ->
     "width" ∈ PartCustom.active_keys caps ->
     "height" ∈ PartCustom.active_keys caps ->
     PartCustom.effect_reruns r (unticked r key w) /\
     js_get key (video_of (PartCustom.buildConstraints
                   (effect_applied (unticked r key w) w)))
       = default_resolution key /\
     (forall k, k ∉ ["width"; "height"; "facingMode"] -> k <> "deviceId" ->
        js_has k (video_of (PartCustom.buildConstraints
                    (effect_applied (unticked r key w) w))) = false) /\
     PartCustom.effect_reruns (unticked r key w) (effect_applied (unticked r key w) w) /\
     ~ PartCustom.effect_reruns
         (effect_applied (unticked r key w) w)
         (effect_applied (effect_applied (unticked r key w) w) w) /\
     js_get key (video_of (PartCustom.buildConstraints
                   (effect_applied (effect_applied (unticked r key w) w) w)))
       = default_resolution key).
Proof.
  intros Hnd.
  pose proof (unticked_gone r key w) as Hgone.
  pose proof (fun k => unticked_kept r key w k Hnd) as Hkept.
  split; [exact Hgone|]. split; [exact Hkept|].
  apply obj_has_get in Hgone.
  split.
  - intros Hw Hh. split.
    + intros Hrun. apply Hrun. unfold PartCustom.effect_dependencies.
      rewrite !Hkept by done. reflexivity.
    + intros Hid. by apply request_lacks.
  - intros caps Hkey Hdef Hsel Hfound Hwin Hhin.
    set (s1 := unticked r key w) in *.
    assert (Hsel1 : PartCustom.selectedVideoDevice s1 <> "") by exact Hsel.
    assert (Hfound1 : found_capabilities (PartCustom.deviceDetails s1)
                        (PartCustom.selectedVideoDevice s1) = JObj caps) by exact Hfound.
    destruct (effect_keeps_selection s1 w caps Hsel1 Hfound1)
      as (Es & Ed & Ea & Eo & Ew & Eh).
    specialize (Ew Hwin). specialize (Eh Hhin).
    set (s2 := effect_applied s1 w) in *.
    assert (Hsel2 : PartCustom.selectedVideoDevice s2 <> "") by (by rewrite Es).
    assert (Hfound2 : found_capabilities (PartCustom.deviceDetails s2)
                        (PartCustom.selectedVideoDevice s2) = JObj caps)
      by (by rewrite Ed, Es).
    destruct (effect_keeps_selection s2 w caps Hsel2 Hfound2)
      as (Es' & Ed' & Ea' & _ & Ew' & Eh').
    specialize (Ew' Hwin). specialize (Eh' Hhin).
    set (s3 := effect_applied s2 w) in *.
    assert (Hw23 : obj_get "width" (PartCustom.customConstraints s3)
                   = obj_get "width" (PartCustom.customConstraints s2)).
    { rewrite Ew'. rewrite Ew at 1. by rewrite truthy_or_default. }
    assert (Hh23 : obj_get "height" (PartCustom.customConstraints s3)
                   = obj_get "height" (PartCustom.customConstraints s2)).
    { rewrite Eh'. rewrite Eh at 1. by rewrite truthy_or_default. }
    assert (Hkey2 : obj_get key (PartCustom.customConstraints s2)
                    = default_resolution key).
    { destruct Hkey as [->| ->]; [rewrite Ew|rewrite Eh]; by rewrite Hgone. }
    assert (Hkey3 : obj_get key (PartCustom.customConstraints s3)
                    = default_resolution key).
    { rewrite <- Hkey2. by destruct Hkey as [->| ->]. }
    assert (Hactive : key ∈ PartCustom.active_keys caps)
      by (by destruct Hkey as [->| ->]).
    assert (Hnid : key <> "deviceId") by (by destruct Hkey as [->| ->]).
    split; [|split; [|split; [|split; [|split]]]].
    + unfold PartCustom.effect_reruns, PartCustom.effect_dependencies.
      intros Heq. pose proof (f_equal snd Heq) as Hh.
      pose proof (f_equal (fun x => snd (fst x)) Heq) as Hw.
      cbn [fst snd] in Hw, Hh. apply Hdef.
      destruct Hkey as [->| ->]; congruence.
    + rewrite request_carries; [exact Hkey2|exact Hnid|by rewrite Ea|].
      by rewrite Hkey2.
    + intros k Hk Hkid. apply request_lacks; [exact Hkid|by apply Eo].
    + unfold PartCustom.effect_reruns, PartCustom.effect_dependencies.
      intros Heq. pose proof (f_equal snd Heq) as Hh.
      pose proof (f_equal (fun x => snd (fst x)) Heq) as Hw.
      cbn [fst snd] in Hw, Hh.
      destruct Hkey as [->| ->]; [rewrite Hkey2, Hgone in Hw|rewrite Hkey2, Hgone in Hh];
        discriminate.
    + intros Hrun. apply Hrun. unfold PartCustom.effect_dependencies.
      by rewrite Es', Ed', Hw23, Hh23.
    + rewrite request_carries; [exact Hkey3|exact Hnid|by rewrite Ea'|].
      by rewrite Hkey3.
Qed.

(** X14 on the form of [form_cam1]: unticking frameRate takes it out of the
    request; unticking width brings width back as ideal 640 and takes
    frameRate out. *)
Lemma X14_unticked_constraint_witness :
  js_has "frameRate" (video_of (PartCustom.buildConstraints form_cam1)) = true /\
  js_has "frameRate"
    (video_of (PartCustom.buildConstraints
                 (unticked form_cam1 "frameRate" idle_world))) = false /\
  js_get "width"
    (video_of (PartCustom.buildConstraints
                 (effect_applied (unticked form_cam1 "width" idle_world) idle_world)))
    = JObj [("ideal", JNum 640)] /\
  js_has "frameRate"
    (video_of (PartCustom.buildConstraints
                 (effect_applied (unticked form_cam1 "width" idle_world) idle_world)))
    = false.
Proof.
  assert (Hnd : NoDup (obj_keys (PartCustom.customConstraints form_cam1))).
  { cbn. repeat constructor; rewrite ?elem_of_cons, ?elem_of_nil;
      intuition discriminate. }
  split; [reflexivity|]. split.
  - destruct (X14_unticked_constraint_is_not_sent form_cam1 idle_world "frameRate" Hnd)
      as (_ & _ & Hother & _).
    destruct Hother as [_ Hsent]; [discriminate|discriminate|].
    apply Hsent. discriminate.
  - destruct (X14_unticked_constraint_is_not_sent form_cam1 idle_world "width" Hnd)
      as (_ & _ & _ & Hres).
    destruct (Hres (own_fields cam1_capabilities)) as (_ & Hback & Hdropped & _).
    + by left.
    + discriminate.
    + discriminate.
    + reflexivity.
    + apply list_elem_of_In. vm_compute. auto.
    + apply list_elem_of_In. vm_compute. auto.
    + split; [exact Hback|].
      apply Hdropped; [|discriminate].
      rewrite !elem_of_cons, elem_of_nil. intuition discriminate.
Defined.

(** X15. The "exact" field of a range constraint. A number replaces the
    whole constraint of the key by [{ exact }], so an ideal, min or max set
    before is gone. Emptying the field leaves [{}], which is still defined:
    for an active key the request then carries an empty constraint object.
    Moving the slider after an exact value keeps the exact value and adds
    the ideal one, so both are sent. *)
Theorem X15_exact_value_replaces_constraint
    (r s : PartCustom.State) (w : World) (key : string) :
  (forall n,
     obj_get key (PartCustom.customConstraints
                    (state_after (PartCustom.setExactValue r key (Some n) s w)))
       = JObj [("exact", JNum n)])
  /\
  obj_get key (PartCustom.customConstraints
                 (state_after (PartCustom.setExactValue r key None s w)))
    = JObj []
  /\
  (key <> "deviceId" ->
   key ∈ PartCustom.activeConstraintKeys s ->
   js_get key (video_of (PartCustom.buildConstraints
                 (state_after (PartCustom.setExactValue r key None s w))))
     = JObj [])
  /\
  (forall n m,
     obj_get key
       (PartCustom.customConstraints
          (state_after
             (PartCustom.setIdealValue
                (state_after (PartCustom.setExactValue r key (Some n) s w)) key m
                (state_after (PartCustom.setExactValue r key (Some n) s w)) w)))
       = JObj [("exact", JNum n); ("ideal", JNum m)]).
Proof.
  unfold PartCustom.setExactValue, PartCustom.setIdealValue,
    PartCustom.setCustomConstraints, set_state, state_after, lit_fields.
  cbn [fst snd PartCustom.customConstraints PartCustom.with_customConstraints
       fold_left add_entry].
  split; [intros n; by rewrite obj_get_set, String.eqb_refl|].
  split; [by rewrite obj_get_set, String.eqb_refl|].
  split.
  - intros Hkey Hact. rewrite video_of_buildConstraints.
    match goal with |- context [PartCustom.videoConstraints ?s'] =>
      destruct (videoConstraints_key s' key Hkey) as [Hin _];
      destruct Hin as [Hhas Hget]
    end.
    { cbn [PartCustom.customConstraints PartCustom.with_customConstraints
           PartCustom.activeConstraintKeys].
      split; [done|]. by rewrite obj_get_set, String.eqb_refl. }
    destruct (PartCustom.videoConstraints _); [discriminate|].
    cbn [js_get]. rewrite Hget.
    cbn [PartCustom.customConstraints PartCustom.with_customConstraints].
    by rewrite obj_get_set, String.eqb_refl.
  - intros n m. rewrite !obj_get_set, String.eqb_refl. reflexivity.
Qed.

Lemma X15_exact_value_witness :
  js_get "width"
    (video_of (PartCustom.buildConstraints
       (state_after
          (PartCustom.setExactValue
             (PartCustom.with_activeConstraintKeys ["width"; "height"] custom_cam1)
             "width" None
             (PartCustom.with_activeConstraintKeys ["width"; "height"] custom_cam1)
             idle_world)))) = JObj [].
Proof.
  destruct (X15_exact_value_replaces_constraint
              (PartCustom.with_activeConstraintKeys ["width"; "height"] custom_cam1)
              (PartCustom.with_activeConstraintKeys ["width"; "height"] custom_cam1)
              idle_world "width") as (_ & _ & Hsent & _).
  apply Hsent; [discriminate|apply list_elem_of_here].
Defined.

(** X16. The "exact" checkbox of a choice constraint round-trips: from
    [{ ideal: v }] with a truthy [v], ticking gives [{ exact: v }] and
    unticking gives [{ ideal: v }] back. *)
Theorem X16_exact_checkbox_round_trip
    (r s : PartCustom.State) (w : World) (key : string) (v : JsValue) :
  obj_get key (PartCustom.customConstraints r) = JObj [("ideal", v)] ->
  truthy v = true ->
  obj_get key (PartCustom.customConstraints
                 (state_after (PartCustom.toggleExact r key true s w)))
    = JObj [("exact", v)] /\
  obj_get key
    (PartCustom.customConstraints
       (state_after
          (PartCustom.toggleExact
             (state_after (PartCustom.toggleExact r key true s w)) key false
             (state_after (PartCustom.toggleExact r key true s w)) w)))
    = obj_get key (PartCustom.customConstraints r).
Proof.
  intros Hget Hv.
  unfold PartCustom.toggleExact, PartCustom.setCustomConstraints, set_state,
    state_after, lit_fields.
  cbn [fst snd PartCustom.customConstraints PartCustom.with_customConstraints
       fold_left add_entry].
  rewrite !obj_get_set, !String.eqb_refl, Hget.
  cbn [js_get obj_get String.eqb Ascii.eqb Bool.eqb]. cbn.
  unfold js_or. rewrite Hv. cbn. by split.
Qed.

Lemma X16_exact_checkbox_witness :
  obj_get "width"
    (PartCustom.customConstraints
       (state_after (PartCustom.toggleExact custom_cam1 "width" true
                       custom_cam1 idle_world)))
    = JObj [("exact", JNum 640)].
Proof.
  apply (X16_exact_checkbox_round_trip custom_cam1 custom_cam1 idle_world
           "width" (JNum 640) eq_refl eq_refl).
Defined.

(** ** The form controls of the earlier revisions *)

(** X17. The max checkbox of the first revision moves the requested
    resolution: ticking it sets the resolution to the max resolution, so the
    request that follows has equal ideal and max. Unticking it afterwards
    does not bring the earlier resolution back: the bare values then
    requested are those of the max resolution. *)
Theorem X17_max_checkbox_moves_resolution (s : AppBasic.State) (w : World) :
  let ticked := state_after (AppBasic.onUseMaxResolutionChange s true s w) in
  let unticked := state_after (AppBasic.onUseMaxResolutionChange ticked false ticked w) in
  (js_get "ideal" (js_get "width" (video_of (AppBasic.constraints ticked)))
     = JNum (width (AppBasic.maxResolution s)) /\
   js_get "max" (js_get "width" (video_of (AppBasic.constraints ticked)))
     = JNum (width (AppBasic.maxResolution s)) /\
   js_get "ideal" (js_get "height" (video_of (AppBasic.constraints ticked)))
     = JNum (height (AppBasic.maxResolution s)) /\
   js_get "max" (js_get "height" (video_of (AppBasic.constraints ticked)))
     = JNum (height (AppBasic.maxResolution s)))
  /\
  (AppBasic.useMinResolution s = false ->
   js_get "width" (video_of (AppBasic.constraints unticked))
     = JNum (width (AppBasic.maxResolution s)) /\
   js_get "height" (video_of (AppBasic.constraints unticked))
     = JNum (height (AppBasic.maxResolution s))).
Proof.
  cbn zeta.
  unfold AppBasic.onUseMaxResolutionChange, when, bind, ret,
    AppBasic.setUseMaxResolution, AppBasic.setResolution, set_state, state_after.
  cbn [fst snd]. rewrite !video_of_AppBasic.
  cbn [AppBasic.useMaxResolution AppBasic.useMinResolution AppBasic.resolution
       AppBasic.maxResolution AppBasic.minResolution AppBasic.with_resolution
       AppBasic.with_useMaxResolution orb].
  split.
  - rewrite !ranged_fields. by destruct (AppBasic.useMinResolution s).
  - intros ->. by split.
Qed.

Lemma stopStream_active_AppBasic (s : AppBasic.State) (w : World) p :
  bound w = Some p ->
  AppBasic.stopStream s w = (inr tt, s, torn_down p w []).
Proof.
  unfold bound, AppBasic.stopStream. intros Hb.
  destruct (videoRef w) as [el|] eqn:Hv; [|done].
  unfold bind at 1. cbn. rewrite Hv, Hb. apply stop_and_unbind_run.
Qed.

(** X18. Changing the camera. In the first revision the handler also stops
    the running stream: every track is stopped and the sink is unbound. In
    the later revisions it only records the choice (and, in [AppCaps],
    refreshes the capability options): the stream that is bound stays bound
    and no track is stopped. *)
Theorem X18_camera_change_and_running_stream :
  (forall (s : AppBasic.State) (w : World) (value : string) (p : MediaProvider),
     bound w = Some p ->
     AppBasic.selectedDevice
       (state_after (AppBasic.handleDeviceChange value s w)) = value /\
     bound (world_after (AppBasic.handleDeviceChange value s w)) = None /\
     (forall t, t ∈ provider_tracks p ->
        track_id t ∈ ended (world_after (AppBasic.handleDeviceChange value s w))))
  /\
  (forall (s : PartFacing.State) (w : World) (deviceId : string),
     bound (world_after (PartFacing.handleVideoDeviceChange deviceId s w)) = bound w /\
     ended (world_after (PartFacing.handleVideoDeviceChange deviceId s w)) = ended w)
  /\
  (forall (r s : AppCaps.State) (w : World) (deviceId : string),
     bound (world_after (AppCaps.handleVideoDeviceChange r deviceId s w)) = bound w /\
     ended (world_after (AppCaps.handleVideoDeviceChange r deviceId s w)) = ended w)
  /\
  (forall (s : PartCustom.State) (w : World) (deviceId : string),
     bound (world_after (PartCustom.handleVideoDeviceChange deviceId s w)) = bound w /\
     ended (world_after (PartCustom.handleVideoDeviceChange deviceId s w)) = ended w).
Proof.
  split; [|split; [|split]].
  - intros s w value p Hb.
    unfold AppBasic.handleDeviceChange.
    rewrite (bind_run _ _ s w tt (AppBasic.with_selectedDevice value s)
               (extend w [EvSetState "selectedDevice"]) eq_refl).
    rewrite (stopStream_active_AppBasic _ _ p) by exact Hb.
    rewrite state_after_run, world_after_run.
    split; [reflexivity|]. split; [apply bound_torn_down|].
    intros t Ht. by apply ended_torn_down.
  - intros s w deviceId. by split.
  - intros r s w deviceId.
    assert (Hq : quiet (AppCaps.handleVideoDeviceChange r deviceId)).
    { unfold AppCaps.handleVideoDeviceChange, AppCaps.updateDeviceCapabilitiesOptions,
        AppCaps.clearCapabilityOptions.
      repeat first
        [ apply quiet_set_state
        | apply quiet_bind
        | apply quiet_when
        | match goal with |- quiet (if ?c then _ else _) => destruct c end ]. }
    destruct (Hq s w) as (s' & evs & -> & _). by split.
  - intros s w deviceId. by split.
Qed.

Lemma X18_camera_change_witness :
  bound (world_after (AppBasic.handleDeviceChange "cam2" AppBasic.initial
                        active_world)) = None /\
  bound (world_after (AppCaps.handleVideoDeviceChange AppCaps.initial "cam2"
                        AppCaps.initial active_world))
    = Some (ProvStream camera_stream).
Proof.
  destruct X18_camera_change_and_running_stream as (HA & _ & HB & _).
  split.
  - apply (HA AppBasic.initial active_world "cam2" (ProvStream camera_stream) eq_refl).
  - destruct (HB AppCaps.initial AppCaps.initial active_world "cam2") as [Hb _].
    exact Hb.
Defined.

Lemma X17_max_checkbox_witness :
  js_get "ideal"
    (js_get "width"
       (video_of (AppBasic.constraints
          (state_after (AppBasic.onUseMaxResolutionChange bounded_basic true
                          bounded_basic idle_world))))) = JNum 1920 /\
  js_get "width"
    (video_of (AppBasic.constraints
       (state_after
          (AppBasic.onUseMaxResolutionChange
             (state_after (AppBasic.onUseMaxResolutionChange bounded_basic true
                             bounded_basic idle_world))
             false
             (state_after (AppBasic.onUseMaxResolutionChange bounded_basic true
                             bounded_basic idle_world))
             idle_world)))) = JNum 1920.
Proof.
  destruct (X17_max_checkbox_moves_resolution bounded_basic idle_world)
    as [(Hideal & _) Hunticked].
  split; [exact Hideal|].
  destruct (Hunticked eq_refl) as [Hwidth _]. exact Hwidth.
Defined.

(** The state [handleVideoDeviceChange] of [AppCaps] leaves, field by field. *)
Lemma device_change_AppCaps (s : AppCaps.State) (w : World) (id : string) :
  let capabilities := found_capabilities (AppCaps.deviceDetails s) id in
  let known := truthy (JStr id) && truthy capabilities in
  let s' := state_after (AppCaps.handleVideoDeviceChange s id s w) in
  AppCaps.selectedVideoDevice s' = id /\
  AppCaps.deviceDetails s' = AppCaps.deviceDetails s /\
  AppCaps.resolution s' = AppCaps.resolution s /\
  AppCaps.useMaxResolution s' = AppCaps.useMaxResolution s /\
  AppCaps.useMinResolution s' = AppCaps.useMinResolution s /\
  AppCaps.maxResolution s' = AppCaps.maxResolution s /\
  AppCaps.minResolution s' = AppCaps.minResolution s /\
  AppCaps.facingMode s' =
    (if known && truthy (js_get "facingMode" capabilities)
        && negb (truthy (JStr (AppCaps.facingMode s))
                 && negb (js_includes (array_or_empty (js_get "facingMode" capabilities))
                            (AppCaps.facingMode s)))
     then AppCaps.facingMode s else "") /\
  AppCaps.widthRange s' =
    (if known && truthy (js_get "width" capabilities)
     then range_of (js_get "width" capabilities)
     else {| range_min := None; range_max := None |}) /\
  AppCaps.heightRange s' =
    (if known && truthy (js_get "height" capabilities)
     then range_of (js_get "height" capabilities)
     else {| range_min := None; range_max := None |}).
Proof.
  cbn zeta.
  unfold AppCaps.handleVideoDeviceChange, AppCaps.updateDeviceCapabilitiesOptions,
    AppCaps.clearCapabilityOptions.
  destruct (truthy (JStr id)); cbn [negb andb].
  2: { by repeat split. }
  destruct (truthy (found_capabilities (AppCaps.deviceDetails s) id));
    cbn [negb andb].
  2: { by repeat split. }
  destruct (truthy (js_get "facingMode" _)); cbn [andb];
    [destruct (truthy (JStr (AppCaps.facingMode s)) && negb (js_includes _ _));
     cbn [negb when]|];
    destruct (truthy (js_get "width" _)), (truthy (js_get "height" _));
    by repeat split.
Qed.

Lemma advertised_found (r : AppCaps.State) :
  AppCaps.selectedVideoDevice r <> "" ->
  advertisedFacingModes r =
  array_or_empty
    (js_get "facingMode"
       (found_capabilities (AppCaps.deviceDetails r) (AppCaps.selectedVideoDevice r))).
Proof.
  intros Hsel. unfold advertisedFacingModes, found_capabilities.
  destruct (String.eqb_spec (AppCaps.selectedVideoDevice r) ""); [done|].
  destruct (List.find _ _) as [[info [caps|]]|]; cbn; try done.
  destruct caps; cbn; done.
Qed.

Lemma facing_in_request_AppCaps (r : AppCaps.State) :
  js_has "facingMode" (video_of (AppCaps.constraints r)) = true <->
  AppCaps.facingMode r <> "" /\ JStr (AppCaps.facingMode r) ∈ advertisedFacingModes r.
Proof.
  destruct (video_of_AppCaps r) as (facing & Hfc & _ & ->).
  destruct (facingModeConstraint_cases r) as [(Hne & Hin & Hc)|(Hno & Hc)];
    rewrite Hc in Hfc; injection Hfc as <-;
    destruct (AppCaps.useMaxResolution r || AppCaps.useMinResolution r); cbn;
    split; try done; intros Habs; by destruct Hno.
Qed.

(** X19. After a change of camera in [AppCaps] the selected facing mode is
    either empty or one the new camera advertises: a mode the new camera
    lacks is cleared. So the request built from that state constrains the
    facing mode exactly when one is still selected. *)
Theorem X19_camera_change_keeps_facing_mode_valid
    (s : AppCaps.State) (w : World) (deviceId : string) :
  let s' := state_after (AppCaps.handleVideoDeviceChange s deviceId s w) in
  AppCaps.selectedVideoDevice s' = deviceId /\
  (AppCaps.facingMode s' = "" \/
   AppCaps.facingMode s' = AppCaps.facingMode s /\
   JStr (AppCaps.facingMode s') ∈ advertisedFacingModes s') /\
  (js_has "facingMode" (video_of (AppCaps.constraints s')) = true <->
   AppCaps.facingMode s' <> "").
Proof.
  cbn zeta.
  destruct (device_change_AppCaps s w deviceId)
    as (Hsel & Hdd & _ & _ & _ & _ & _ & Hfm & _).
  set (s' := state_after (AppCaps.handleVideoDeviceChange s deviceId s w)) in *.
  assert (Hvalid : AppCaps.facingMode s' = "" \/
                   AppCaps.facingMode s' = AppCaps.facingMode s /\
                   JStr (AppCaps.facingMode s') ∈ advertisedFacingModes s').
  { rewrite Hfm.
    destruct (truthy (JStr deviceId)) eqn:Hid; [|by left].
    destruct (truthy (found_capabilities _ _)) eqn:Hcaps; [|by left].
    destruct (truthy (js_get "facingMode" _)) eqn:Hfacing; [|by left].
    cbn [andb].
    destruct (String.eqb_spec (AppCaps.facingMode s) "") as [Hempty|Hne].
    { left. by destruct (negb _). }
    assert (Ht : truthy (JStr (AppCaps.facingMode s)) = true) by by apply truthy_str.
    rewrite Ht. cbn [andb].
    destruct (js_includes _ _) eqn:Hinc; [|by left].
    right. split; [done|].
    rewrite advertised_found by (rewrite Hsel; by apply truthy_str).
    rewrite Hsel, Hdd. by apply js_includes_In. }
  split; [exact Hsel|]. split; [exact Hvalid|].
  rewrite facing_in_request_AppCaps.
  split; [tauto|].
  intros Hne. split; [done|]. destruct Hvalid as [Hempty|[_ Hin]]; [done|exact Hin].
Qed.

Lemma max_in_request_AppCaps (r : AppCaps.State) :
  AppCaps.useMaxResolution r = true ->
  js_get "max" (js_get "width" (video_of (AppCaps.constraints r)))
    = JNum (width (AppCaps.maxResolution r)) /\
  js_get "max" (js_get "height" (video_of (AppCaps.constraints r)))
    = JNum (height (AppCaps.maxResolution r)) /\
  js_get "ideal" (js_get "width" (video_of (AppCaps.constraints r)))
    = JNum (width (AppCaps.resolution r)) /\
  js_get "ideal" (js_get "height" (video_of (AppCaps.constraints r)))
    = JNum (height (AppCaps.resolution r)).
Proof.
  intros Hmax.
  destruct (video_of_AppCaps r) as (facing & _ & [->| ->] & ->);
    rewrite Hmax; cbn [orb app]; rewrite !ranged_fields;
    by destruct (AppCaps.useMinResolution r).
Qed.

(** X20. From the capabilities to the request, in [AppCaps]. Selecting a
    camera that advertises a non-zero maximum width and height and then
    ticking "Use Max Resolution" copies those maxima into the max
    resolution, and the request that follows carries them as [max], with
    the chosen resolution still as [ideal]. When the camera reports no
    maximum width, ticking the box copies nothing: the request carries the
    max resolution the form held before. *)
Theorem X20_device_maxima_reach_the_request
    (s : AppCaps.State) (w : World) (deviceId : string) (caps : JsObject) :
  deviceId <> "" ->
  found_capabilities (AppCaps.deviceDetails s) deviceId = JObj caps ->
  let selected := state_after (AppCaps.handleVideoDeviceChange s deviceId s w) in
  let ticked :=
    state_after (AppCaps.onUseMaxResolutionChange selected true selected w) in
  (forall W H,
     js_get "max" (obj_get "width" caps) = JNum W ->
     js_get "max" (obj_get "height" caps) = JNum H ->
     W <> 0 -> H <> 0 ->
     js_get "max" (js_get "width" (video_of (AppCaps.constraints ticked))) = JNum W /\
     js_get "max" (js_get "height" (video_of (AppCaps.constraints ticked))) = JNum H /\
     js_get "ideal" (js_get "width" (video_of (AppCaps.constraints ticked)))
       = JNum (width (AppCaps.resolution s)))
  /\
  (number_of (js_get "max" (obj_get "width" caps)) = None ->
   js_get "max" (js_get "width" (video_of (AppCaps.constraints ticked)))
     = JNum (width (AppCaps.maxResolution s)) /\
   js_get "max" (js_get "height" (video_of (AppCaps.constraints ticked)))
     = JNum (height (AppCaps.maxResolution s))).
Proof.
  intros Hid Hfound. cbn zeta.
  destruct (device_change_AppCaps s w deviceId)
    as (_ & _ & Hres & _ & _ & Hmaxres & _ & _ & Hwr & Hhr).
  apply truthy_str in Hid.
  rewrite Hfound, Hid in Hwr, Hhr. cbn [truthy andb js_get] in Hwr, Hhr.
  set (selected := state_after (AppCaps.handleVideoDeviceChange s deviceId s w)) in *.
  split.
  - intros W H HW HH HW0 HH0.
    assert (Hw : range_max (AppCaps.widthRange selected) = Some W).
    { rewrite Hwr. destruct (obj_get "width" caps); try discriminate.
      cbn [truthy range_of range_max]. by rewrite HW. }
    assert (Hh : range_max (AppCaps.heightRange selected) = Some H).
    { rewrite Hhr. destruct (obj_get "height" caps); try discriminate.
      cbn [truthy range_of range_max]. by rewrite HH. }
    unfold AppCaps.onUseMaxResolutionChange. rewrite Hw, Hh.
    assert (HtW : truthy (JNum W) = true) by (cbn; by destruct (Z.eqb_spec W 0)).
    assert (HtH : truthy (JNum H) = true) by (cbn; by destruct (Z.eqb_spec H 0)).
    rewrite HtW, HtH. cbn [andb when].
    unfold bind, AppCaps.setUseMaxResolution, AppCaps.setMaxResolution, set_state,
      state_after at 1 2 3.
    cbn [fst snd].
    match goal with |- context [AppCaps.constraints ?t] =>
      destruct (max_in_request_AppCaps t eq_refl) as (-> & -> & -> & _)
    end.
    cbn [AppCaps.maxResolution AppCaps.resolution AppCaps.with_maxResolution
         AppCaps.with_useMaxResolution width height].
    by rewrite Hres.
  - intros Hnone.
    assert (Hw : range_max (AppCaps.widthRange selected) = None).
    { rewrite Hwr. destruct (truthy (obj_get "width" caps)); [exact Hnone|done]. }
    unfold AppCaps.onUseMaxResolutionChange. rewrite Hw.
    unfold bind, AppCaps.setUseMaxResolution, set_state, ret, state_after at 1 2.
    cbn [fst snd].
    match goal with |- context [AppCaps.constraints ?t] =>
      destruct (max_in_request_AppCaps t eq_refl) as (-> & -> & _)
    end.
    cbn [AppCaps.maxResolution AppCaps.with_useMaxResolution].
    by rewrite Hmaxres.
Qed.

(** X20 on the camera of the listing: maxima 1920 and 1080. *)
Lemma X20_device_maxima_witness :
  js_get "max"
    (js_get "width"
       (video_of (AppCaps.constraints
          (state_after
             (AppCaps.onUseMaxResolutionChange
                (state_after
                   (AppCaps.handleVideoDeviceChange
                      (AppCaps.with_deviceDetails [cam1_detail] AppCaps.initial)
                      "cam1"
                      (AppCaps.with_deviceDetails [cam1_detail] AppCaps.initial)
                      idle_world))
                true
                (state_after
                   (AppCaps.handleVideoDeviceChange
                      (AppCaps.with_deviceDetails [cam1_detail] AppCaps.initial)
                      "cam1"
                      (AppCaps.with_deviceDetails [cam1_detail] AppCaps.initial)
                      idle_world))
                idle_world))))) = JNum 1920.
Proof.
  destruct (X20_device_maxima_reach_the_request
              (AppCaps.with_deviceDetails [cam1_detail] AppCaps.initial)
              idle_world "cam1"
              [ ("deviceId", JStr "cam1"); ("facingMode", JArr [JStr "user"]);
                ("frameRate", JObj [("min", JNum 1); ("max", JNum 30)]);
                ("width", JObj [("min", JNum 1); ("max", JNum 1920)]);
                ("height", JObj [("min", JNum 1); ("max", JNum 1080)]) ]
              ltac:(discriminate) eq_refl) as [Hknown _].
  destruct (Hknown 1920 1080 eq_refl eq_refl ltac:(discriminate) ltac:(discriminate))
    as [Hwidth _].
  exact Hwidth.
Defined.
